(** * Google Maps review scraper: the decoder, the relative-date resolver
      and the pagination driver, embedded from the Python sources

    The development follows the three source modules:
    - [TimeUtils]  : src/time_utils.py  ([parse_relative_date]);
    - [Parser]     : src/parser.py      ([GoogleMapsResponseParser]);
    - [Scraper]    : src/scraper.py     ([GoogleMapsReviewsScraper] and its
                     synchronous wrapper).
    [Py] holds the fragment of the Python runtime these modules rely on:
    dynamically typed JSON values, truthiness, [len], indexing, [str],
    [int], [float] and exceptions. *)

From Stdlib Require Import ZArith Lia Ascii String List Bool.
From Stdlib Require Import Floats.SpecFloat.
From stdpp Require Import base option list strings pretty gmap.

Set Default Proof Using "Type".
#[local] Set Warnings "-register-all".
#[local] Set Warnings "-automation".
#[local] Set Warnings "-default".

(* ===================================================================== *)
(** * The Python runtime fragment                                         *)
(* ===================================================================== *)
Module Py.

(** The exception classes that the modelled code can meet.  All of them
    derive from [Exception], so a handler [except Exception] catches each
    one.  [JSONDecodeError] is a subclass of [ValueError]: a handler for
    [ValueError] catches it, a handler for [JSONDecodeError] does not catch
    a plain [ValueError].  [TransportError] stands for whatever the HTTP
    client raises and for the plain [Exception] raised on a non-200
    status. *)
Inductive exn : Type :=
| ValueError | TypeError | OSError | OverflowError
| IndexError | KeyError | TransportError
| JSONDecodeError | RecursionError | RuntimeError.

Global Instance exn_eq_dec : EqDecision exn.
Proof. solve_decision. Defined.

(** A computation either returns or raises. *)
Inductive result (A : Type) : Type :=
| Ok (a : A)
| Raise (e : exn).
Global Arguments Ok {A} a.
Global Arguments Raise {A} e.

Global Instance result_ret : MRet result := fun _ a => Ok a.
Global Instance result_bind : MBind result := fun _ _ f m =>
  match m with
  | Ok a => f a
  | Raise e => Raise e
  end.

(** [try: m except (classes): handler] *)
Definition try_except {A} (m : result A) (catches : exn -> bool)
    (handler : result A) : result A :=
  match m with
  | Ok a => Ok a
  | Raise e => if catches e then handler else Raise e
  end.

(** ** Characters and strings

    Text is modelled as [string], one character per element: the texts
    whose code points all lie below 256.  On these, the predicates below
    are Python's Unicode-aware ones. *)

Definition ascii_in (lo hi : nat) (c : ascii) : bool :=
  (lo <=? nat_of_ascii c)%nat && (nat_of_ascii c <=? hi)%nat.

(** The class [\d] of a [str] pattern: the decimal digits, which below
    256 are [0] to [9]. *)
Definition is_digit (c : ascii) : bool := ascii_in 48 57 c.

(** The class [\s] of a [str] pattern and the characters removed by
    [str.strip()]: TAB, LF, VT, FF, CR, the separators 0x1c-0x1f, the
    space, NEL (0x85) and the no-break space (0xa0). *)
Definition is_space (c : ascii) : bool :=
  ascii_in 9 13 c || ascii_in 28 31 c || (nat_of_ascii c =? 32)%nat
  || (nat_of_ascii c =? 133)%nat || (nat_of_ascii c =? 160)%nat.

(** The upper-case letters below 256: [A] to [Z], and 0xc0 to 0xde but
    for the multiplication sign 0xd7.  Each has its lower-case form 32
    places further. *)
Definition is_upper (c : ascii) : bool :=
  ascii_in 65 90 c
  || (ascii_in 192 222 c && negb (nat_of_ascii c =? 215)%nat).

Definition lower_char (c : ascii) : ascii :=
  if is_upper c then ascii_of_nat (nat_of_ascii c + 32) else c.

(** [s.lower()] *)
Fixpoint lower (s : string) : string :=
  match s with
  | EmptyString => EmptyString
  | String c s' => String (lower_char c) (lower s')
  end.

Fixpoint lstrip (s : string) : string :=
  match s with
  | EmptyString => EmptyString
  | String c s' => if is_space c then lstrip s' else s
  end.

Fixpoint rstrip (s : string) : string :=
  match s with
  | EmptyString => EmptyString
  | String c s' =>
      match rstrip s' with
      | EmptyString => if is_space c then EmptyString else String c EmptyString
      | t => String c t
      end
  end.

(** [s.strip()] *)
Definition strip (s : string) : string := rstrip (lstrip s).

(** [s.startswith(p)] *)
Fixpoint startswith (p s : string) : bool :=
  match p, s with
  | EmptyString, _ => true
  | String a p', String b s' => if Ascii.eqb a b then startswith p' s' else false
  | String _ _, EmptyString => false
  end.

(** [p in s] for strings *)
Fixpoint contains (p s : string) : bool :=
  startswith p s ||
  match s with
  | EmptyString => false
  | String _ s' => contains p s'
  end.

(** [s[n:]] *)
Fixpoint drop_chars (n : nat) (s : string) : string :=
  match n, s with
  | O, _ => s
  | S n', String _ s' => drop_chars n' s'
  | S _, EmptyString => EmptyString
  end.

(** [x in [a, b, ...]] for a list of strings *)
Definition str_in (x : string) (l : list string) : bool :=
  existsb (String.eqb x) l.

(** The number that a run of decimal digits writes. *)
Definition digit_val (c : ascii) : Z := Z.of_nat (nat_of_ascii c) - 48.

Fixpoint digits_acc (acc : Z) (s : string) : Z :=
  match s with
  | EmptyString => acc
  | String c s' => digits_acc (10 * acc + digit_val c) s'
  end.

Definition digits_value (s : string) : Z := digits_acc 0 s.

(** [sys.get_int_max_str_digits()] as the interpreter starts with it
    (CPython 3.11 and later). *)
Definition INT_MAX_STR_DIGITS : nat := 4300.

(** [int(s)] on a run of decimal digits: ValueError ("Exceeds the limit
    (4300 digits) for integer string conversion") when the run has more
    digits than the limit, leading zeros counted. *)
Definition int_of_digits (s : string) : result Z :=
  if (INT_MAX_STR_DIGITS <? String.length s)%nat then Raise ValueError
  else Ok (digits_value s).

(** ** Values

    What [json.loads] can return: [None], booleans, integers of any size,
    binary64 floats, strings, lists and dictionaries with string keys (in
    insertion order, keys distinct). *)
Inductive value : Type :=
| VNone
| VBool (b : bool)
| VInt (z : Z)
| VFloat (f : spec_float)
| VStr (s : string)
| VList (l : list value)
| VDict (d : list (string * value)).

(** Truthiness, as [if x], [not x] and [and] test it. *)
Definition truthy (v : value) : bool :=
  match v with
  | VNone => false
  | VBool b => b
  | VInt z => negb (Z.eqb z 0)
  | VFloat (S754_zero _) => false
  | VFloat _ => true
  | VStr s => negb (String.eqb s "")
  | VList l => negb (Nat.eqb (length l) 0)
  | VDict d => negb (Nat.eqb (length d) 0)
  end.

(** [len(x)] *)
Definition py_len (v : value) : result nat :=
  match v with
  | VStr s => Ok (String.length s)
  | VList l => Ok (length l)
  | VDict d => Ok (length d)
  | _ => Raise TypeError
  end.

(** [x[i]] for a literal index [i >= 0].  The keys of a decoded dictionary
    are strings, so an integer key is always missing. *)
Definition py_index (v : value) (i : nat) : result value :=
  match v with
  | VList l =>
      match l !! i with
      | Some x => Ok x
      | None => Raise IndexError
      end
  | VStr s =>
      match String.get i s with
      | Some c => Ok (VStr (String c EmptyString))
      | None => Raise IndexError
      end
  | VDict _ => Raise KeyError
  | _ => Raise TypeError
  end.

(** [isinstance(x, list)], [isinstance(x, str)], [isinstance(x, (int, float))];
    [bool] is a subclass of [int]. *)
Definition is_list (v : value) : bool :=
  match v with VList _ => true | _ => false end.
Definition is_str (v : value) : bool :=
  match v with VStr _ => true | _ => false end.
Definition is_number (v : value) : bool :=
  match v with VInt _ | VBool _ | VFloat _ => true | _ => false end.

(** [a and b] where only the truth of the result is used. *)
Definition and_then (a b : result bool) : result bool :=
  x ← a; if x : bool then b else Ok false.

(** ** Numbers *)

(** The binary64 float nearest to an integer (ties to even), and to a
    quotient of integers. *)
Definition float_of_Z (z : Z) : spec_float := binary_normalize 53 1024 z 0 false.

Definition exact_float (z : Z) : spec_float :=
  match z with
  | Z0 => S754_zero false
  | Zpos p => S754_finite false p 0
  | Zneg p => S754_finite true p 0
  end.

(** [float(n)] on an integer: OverflowError ("int too large to convert to
    float") when the nearest float is infinite. *)
Definition float_of_int (z : Z) : result spec_float :=
  match float_of_Z z with
  | S754_infinity _ => Raise OverflowError
  | f => Ok f
  end.

(** [a / b] on integers, [b] positive: the correctly rounded quotient, or
    OverflowError ("integer division result too large for a float"). *)
Definition int_truediv (a b : Z) : result spec_float :=
  match SFdiv 53 1024 (exact_float a) (exact_float b) with
  | S754_infinity _ => Raise OverflowError
  | f => Ok f
  end.

(** [int(f)] on a float: truncation towards zero. *)
Definition int_of_float (f : spec_float) : result Z :=
  match f with
  | S754_nan => Raise ValueError
  | S754_infinity _ => Raise OverflowError
  | S754_zero _ => Ok 0%Z
  | S754_finite s m e =>
      let a := match e with
               | Zneg k => Z.quot (Zpos m) (2 ^ Zpos k)
               | _ => (Zpos m * 2 ^ e)%Z
               end in
      Ok (if s then (- a)%Z else a)
  end.

Section Conversions.
(** [repr] of a float and of a string, and [int] of a string ([None]
    stands for ValueError), are the interpreter's. *)
Variable repr_float : spec_float -> string.
Variable repr_str : string -> string.
Variable int_of_str : string -> option Z.

(** [repr(x)] *)
Fixpoint py_repr (v : value) : string :=
  match v with
  | VNone => "None"
  | VBool true => "True"
  | VBool false => "False"
  | VInt z => pretty z
  | VFloat f => repr_float f
  | VStr s => repr_str s
  | VList l => "[" +:+ String.concat ", " (List.map py_repr l) +:+ "]"
  | VDict d =>
      "{" +:+ String.concat ", "
                (List.map (fun kv => repr_str (fst kv) +:+ ": " +:+ py_repr (snd kv)) d)
          +:+ "}"
  end.

(** [str(x)] *)
Definition py_str (v : value) : string :=
  match v with
  | VStr s => s
  | _ => py_repr v
  end.

(** [int(x)] *)
Definition py_int (v : value) : result Z :=
  match v with
  | VInt z => Ok z
  | VBool b => Ok (if b then 1 else 0)%Z
  | VFloat f => int_of_float f
  | VStr s =>
      match int_of_str s with
      | Some z => Ok z
      | None => Raise ValueError
      end
  | _ => Raise TypeError
  end.

(** [float(x)] for [x] an [int], a [bool] or a [float]; the other
    classes are never passed. *)
Definition py_float (v : value) : result spec_float :=
  match v with
  | VInt z => float_of_int z
  | VBool b => Ok (float_of_Z (if b then 1 else 0))
  | VFloat f => Ok f
  | _ => Raise TypeError
  end.
End Conversions.

End Py.

(* ===================================================================== *)
(** * Regular expressions, as far as the sources use them                 *)
(* ===================================================================== *)
Module Re.
Import Py.

(** The syntax met in the patterns of the sources: character classes
    (a literal is the class of one character), concatenation, greedy [*]
    and [?], and one capturing group. *)
Inductive regex : Type :=
| Eps
| Cls (p : ascii -> bool)
| Cat (r1 r2 : regex)
| Star (r : regex)
| Opt (r : regex)
| Group (r : regex).

Definition Chr (c : ascii) : regex := Cls (Ascii.eqb c).
Definition Digit : regex := Cls is_digit.
Definition Space : regex := Cls is_space.
Definition Plus (r : regex) : regex := Cat r (Star r).

Fixpoint Lit (s : string) : regex :=
  match s with
  | EmptyString => Eps
  | String c s' => Cat (Chr c) (Lit s')
  end.

Infix "⋅" := Cat (at level 41, right associativity).

(** The text consumed between [s] and its suffix [s']. *)
Definition consumed (s s' : string) : string :=
  String.substring 0 (String.length s - String.length s') s.

Section Matcher.
Context {A : Type}.

Definition step_class (p : ascii -> bool) (s : string)
    (k : string -> option A) : option A :=
  match s with
  | String c s' => if p c then k s' else None
  | EmptyString => None
  end.

(** Backtracking matcher in continuation-passing style: [k] receives
    the rest of the text and the text of group 1; a failing
    continuation makes the greedy operators give back what they took. *)
Fixpoint rmatch (r : regex) (s : string) (g : option string)
    (k : string -> option string -> option A) {struct r} : option A :=
  match r with
  | Eps => k s g
  | Cls p => step_class p s (fun s' => k s' g)
  | Cat r1 r2 => rmatch r1 s g (fun s' g' => rmatch r2 s' g' k)
  | Opt r' =>
      match rmatch r' s g k with
      | Some a => Some a
      | None => k s g
      end
  | Star r' =>
      (fix star (n : nat) (s : string) (g : option string) {struct n}
         : option A :=
         match n with
         | O => k s g
         | S n' =>
             match rmatch r' s g (fun s' g' =>
                     if (String.length s' <? String.length s)%nat
                     then star n' s' g' else None) with
             | Some a => Some a
             | None => k s g
             end
         end) (String.length s) s g
  | Group r' => rmatch r' s g (fun s' _ => k s' (Some (consumed s s')))
  end.
End Matcher.

(** A match object: [group(0)] is the matched text, [group(1)] the text
    of the capturing group. *)
Record match_obj : Type := { group0 : string; group1 : string }.

(** [re.search(r, s)]: the leftmost position where [r] matches. *)
Fixpoint search (r : regex) (s : string) : option match_obj :=
  match rmatch r s None (fun s' g => Some (s', g)) with
  | Some (s', g) =>
      Some {| group0 := consumed s s'; group1 := default EmptyString g |}
  | None =>
      match s with
      | EmptyString => None
      | String _ s' => search r s'
      end
  end.

End Re.

(* ===================================================================== *)
(** * src/time_utils.py                                                   *)
(* ===================================================================== *)
Module TimeUtils.
Import Py Re.
Local Open Scope Z_scope.

(** ** [datetime] and [timedelta]

    A naive [datetime] is the number of microseconds since
    0001-01-01T00:00:00 ([datetime.min]); [datetime.max] is
    9999-12-31T23:59:59.999999, the last microsecond of day 3652059. *)
Definition datetime : Type := Z.

Definition US_PER_SECOND : Z := 1000000.
Definition US_PER_DAY : Z := 86400 * US_PER_SECOND.
Definition DATETIME_MAX : datetime := 3652059 * US_PER_DAY - 1.

Definition datetime_ok (d : datetime) : Prop := 0 <= d <= DATETIME_MAX.

(** A [timedelta] is a number of microseconds whose whole days stay within
    [-999999999, 999999999]; the constructor raises OverflowError
    otherwise. *)
Definition timedelta_fits (us : Z) : bool :=
  (-999999999 <=? us / US_PER_DAY) && (us / US_PER_DAY <=? 999999999).

Definition mk_timedelta (us : Z) : result Z :=
  if timedelta_fits us then Ok us else Raise OverflowError.

Definition timedelta_seconds (v : Z) : result Z := mk_timedelta (v * US_PER_SECOND).
Definition timedelta_minutes (v : Z) : result Z := mk_timedelta (v * 60 * US_PER_SECOND).
Definition timedelta_hours (v : Z) : result Z := mk_timedelta (v * 3600 * US_PER_SECOND).
Definition timedelta_days (v : Z) : result Z := mk_timedelta (v * US_PER_DAY).
Definition timedelta_weeks (v : Z) : result Z := mk_timedelta (v * 7 * US_PER_DAY).

(** [d - delta] on a datetime: OverflowError ("date value out of range")
    when the result leaves [datetime.min, datetime.max]. *)
Definition datetime_sub (d : datetime) (delta : Z) : result datetime :=
  if (0 <=? d - delta) && (d - delta <=? DATETIME_MAX)
  then Ok (d - delta) else Raise OverflowError.

(** ** The patterns of [parse_relative_date] *)

(** [(\d+)\s*UNIT[s]?\s+ago] *)
Definition quantity_pattern (unit : string) : regex :=
  Group (Plus Digit) ⋅ Star Space ⋅ Lit unit ⋅ Opt (Chr "s") ⋅
  Plus Space ⋅ Lit "ago".

Definition patterns : list (regex * string) :=
  [ (quantity_pattern "second", "seconds"%string);
    (quantity_pattern "minute", "minutes"%string);
    (quantity_pattern "hour", "hours"%string);
    (quantity_pattern "day", "days"%string);
    (quantity_pattern "week", "weeks"%string);
    (quantity_pattern "month", "months"%string);
    (quantity_pattern "year", "years"%string) ].

(** [an?\s+UNIT\s+ago] *)
Definition single_pattern (unit : string) : regex :=
  Chr "a" ⋅ Opt (Chr "n") ⋅ Plus Space ⋅ Lit unit ⋅ Plus Space ⋅ Lit "ago".

(** The deltas of [single_patterns] are built when the list is: each of
    these seven constructor calls succeeds ([single_deltas_fit] below). *)
Definition single_patterns : list (regex * Z) :=
  [ (single_pattern "second", 1 * US_PER_SECOND);
    (single_pattern "minute", 1 * 60 * US_PER_SECOND);
    (single_pattern "hour", 1 * 3600 * US_PER_SECOND);
    (single_pattern "day", 1 * US_PER_DAY);
    (single_pattern "week", 1 * 7 * US_PER_DAY);
    (single_pattern "month", 30 * US_PER_DAY);
    (single_pattern "year", 365 * US_PER_DAY) ].

Section Resolver.
(** [datetime.fromisoformat]: [None] stands for ValueError/TypeError. *)
Variable fromisoformat : string -> option datetime.
(** The instant [datetime.now()] returns during the call. *)
Variable now : datetime.

(** Lines 26-33: the reference instant. *)
Definition reference_instant (reference_date : option string) : datetime :=
  match reference_date with
  | Some r =>
      if negb (String.eqb r "") then
        match fromisoformat r with
        | Some d => d
        | None => now
        end
      else now
  | None => now
  end.

(** Lines 56-75: the first loop.  [None] means that the loop ended
    without returning; [int(match.group(1))] at line 59 comes before
    the tests on the unit. *)
Fixpoint quantity_loop (ref_dt : datetime) (ps : list (regex * string))
    (relative_date : string) : option (result datetime) :=
  match ps with
  | [] => None
  | (pattern, unit) :: ps' =>
      match search pattern relative_date with
      | Some m =>
          match int_of_digits (group1 m) with
          | Raise e => Some (Raise e)
          | Ok value =>
              if String.eqb unit "seconds" then
                Some (delta ← timedelta_seconds value; datetime_sub ref_dt delta)
              else if String.eqb unit "minutes" then
                Some (delta ← timedelta_minutes value; datetime_sub ref_dt delta)
              else if String.eqb unit "hours" then
                Some (delta ← timedelta_hours value; datetime_sub ref_dt delta)
              else if String.eqb unit "days" then
                Some (delta ← timedelta_days value; datetime_sub ref_dt delta)
              else if String.eqb unit "weeks" then
                Some (delta ← timedelta_weeks value; datetime_sub ref_dt delta)
              else if String.eqb unit "months" then
                Some (delta ← timedelta_days (value * 30); datetime_sub ref_dt delta)
              else if String.eqb unit "years" then
                Some (delta ← timedelta_days (value * 365); datetime_sub ref_dt delta)
              else quantity_loop ref_dt ps' relative_date
          end
      | None => quantity_loop ref_dt ps' relative_date
      end
  end.

(** Lines 88-90: the second loop. *)
Fixpoint single_loop (ref_dt : datetime) (ps : list (regex * Z))
    (relative_date : string) : option (result datetime) :=
  match ps with
  | [] => None
  | (pattern, delta) :: ps' =>
      match search pattern relative_date with
      | Some _ => Some (datetime_sub ref_dt delta)
      | None => single_loop ref_dt ps' relative_date
      end
  end.

Definition parse_relative_date (relative_date : string)
    (reference_date : option string) : result (option datetime) :=
  if String.eqb relative_date "" then Ok None
  else
    let ref_dt := reference_instant reference_date in
    let relative_date := strip (lower relative_date) in
    if str_in relative_date ["just now"; "now"; "today"]%string then
      Ok (Some ref_dt)
    else if contains "yesterday" relative_date then
      delta ← timedelta_days 1; d ← datetime_sub ref_dt delta; Ok (Some d)
    else
      match quantity_loop ref_dt patterns relative_date with
      | Some r => d ← r; Ok (Some d)
      | None =>
          match single_loop ref_dt single_patterns relative_date with
          | Some r => d ← r; Ok (Some d)
          | None => Ok None
          end
      end.
End Resolver.

(** ** The resolver as section 4.1 of the specification words it

    The duration, in microseconds, that a normalised text denotes:
    the exact tokens denote no displacement, "yesterday" one day, then the
    integer patterns in the order seconds to years, then the "a/an"
    patterns in the same order; months count 30 days and years 365.  A
    numeral that [int] refuses denotes the ValueError it raises. *)
Definition unit_us : list (string * Z) :=
  [ ("second"%string, US_PER_SECOND); ("minute"%string, 60 * US_PER_SECOND);
    ("hour"%string, 3600 * US_PER_SECOND); ("day"%string, US_PER_DAY);
    ("week"%string, 7 * US_PER_DAY); ("month"%string, 30 * US_PER_DAY);
    ("year"%string, 365 * US_PER_DAY) ].

Fixpoint first_quantity (us : list (string * Z)) (t : string)
    : option (result Z) :=
  match us with
  | [] => None
  | (u, len) :: us' =>
      match search (quantity_pattern u) t with
      | Some m => Some (value ← int_of_digits (group1 m); Ok (value * len))
      | None => first_quantity us' t
      end
  end.

Fixpoint first_single (us : list (string * Z)) (t : string) : option Z :=
  match us with
  | [] => None
  | (u, len) :: us' =>
      match search (single_pattern u) t with
      | Some _ => Some len
      | None => first_single us' t
      end
  end.

Definition spec_duration (t : string) : option (result Z) :=
  if str_in t ["just now"; "now"; "today"]%string then Some (Ok 0)
  else if contains "yesterday" t then Some (Ok US_PER_DAY)
  else match first_quantity unit_us t with
       | Some d => Some d
       | None => Ok <$> first_single unit_us t
       end.

(** The instant a duration of [us] microseconds before [T], as far as
    [timedelta] and [datetime] can hold it. *)
Definition in_range (T : datetime) (us : Z) : bool :=
  timedelta_fits us && (0 <=? T - us) && (T - us <=? DATETIME_MAX).

Definition resolved (T : datetime) (us : Z) : result (option datetime) :=
  if in_range T us then Ok (Some (T - us)) else Raise OverflowError.

(** "matches a supported pattern" *)
Definition supported (text : string) : bool :=
  bool_decide (is_Some (spec_duration (strip (lower text)))).

End TimeUtils.

(* ===================================================================== *)
(** * The interpreter's library, as the sources call it                   *)
(* ===================================================================== *)
Module Host.
Import Py TimeUtils.

(** The library functions whose results the sources only pass around.
    Every statement below holds for each [host]. *)
Record host : Type := {
  (** [repr] of a float and of a string *)
  repr_float : spec_float -> string;
  repr_str : string -> string;
  (** [int(s)] on text; [None] is ValueError *)
  int_of_str : string -> option Z;
  (** [datetime.fromtimestamp(seconds)]: a datetime, or the ValueError,
      OverflowError or OSError the platform raises for this timestamp *)
  fromtimestamp : spec_float -> result datetime;
  (** [d.isoformat()] and [str(d)] *)
  isoformat : datetime -> string;
  str_datetime : datetime -> string;
  (** [datetime.fromisoformat(s)]; [None] is ValueError *)
  fromisoformat : string -> option datetime;
  (** [json.loads(s)]: the value decoded, or what it raises: the
      JSONDecodeError of a malformed text, or another exception, such as
      RecursionError on deep nesting or the plain ValueError of an integer
      literal beyond the digit limit *)
  json_loads : string -> result value;
  (** the text [json.dump(x, f, indent=2, ensure_ascii=False)] writes *)
  json_dumps : value -> string;
  (** the line [csv.writer] emits for one row of cells *)
  csv_writerow : list value -> string;
  (** [os.path.realpath(p)]: the file that the path text [p] denotes, from
      the working directory of the process.  Two texts denote the same
      file exactly when they have the same [realpath]. *)
  realpath : string -> string
}.

End Host.

(* ===================================================================== *)
(** * src/parser.py                                                       *)
(* ===================================================================== *)
Module Parser.
Import Py Re TimeUtils Host.

(** The dictionary built by [extract_review_data]: its fifteen keys, in
    the order of the literal at lines 102-118. *)
Record review : Type := {
  review_id : string;
  user_name : string;
  user_url : string;
  user_reviews : Z;
  rating : spec_float;
  relative_date : string;
  text : string;
  text_date : option string;
  translated_text : string;
  likes : Z;
  response_text : string;
  response_relative_date : string;
  response_text_date : option string;
  translated_response_text : string;
  retrieval_date : string
}.

(** [result[key] = v] for the keys that are assigned. *)
Definition set_review_id (v : string) (r : review) : review :=
  {| review_id := v; user_name := user_name r; user_url := user_url r;
     user_reviews := user_reviews r; rating := rating r;
     relative_date := relative_date r; text := text r; text_date := text_date r;
     translated_text := translated_text r; likes := likes r;
     response_text := response_text r;
     response_relative_date := response_relative_date r;
     response_text_date := response_text_date r;
     translated_response_text := translated_response_text r;
     retrieval_date := retrieval_date r |}.
Definition set_user_name (v : string) (r : review) : review :=
  {| review_id := review_id r; user_name := v; user_url := user_url r;
     user_reviews := user_reviews r; rating := rating r;
     relative_date := relative_date r; text := text r; text_date := text_date r;
     translated_text := translated_text r; likes := likes r;
     response_text := response_text r;
     response_relative_date := response_relative_date r;
     response_text_date := response_text_date r;
     translated_response_text := translated_response_text r;
     retrieval_date := retrieval_date r |}.
Definition set_user_url (v : string) (r : review) : review :=
  {| review_id := review_id r; user_name := user_name r; user_url := v;
     user_reviews := user_reviews r; rating := rating r;
     relative_date := relative_date r; text := text r; text_date := text_date r;
     translated_text := translated_text r; likes := likes r;
     response_text := response_text r;
     response_relative_date := response_relative_date r;
     response_text_date := response_text_date r;
     translated_response_text := translated_response_text r;
     retrieval_date := retrieval_date r |}.
Definition set_user_reviews (v : Z) (r : review) : review :=
  {| review_id := review_id r; user_name := user_name r; user_url := user_url r;
     user_reviews := v; rating := rating r;
     relative_date := relative_date r; text := text r; text_date := text_date r;
     translated_text := translated_text r; likes := likes r;
     response_text := response_text r;
     response_relative_date := response_relative_date r;
     response_text_date := response_text_date r;
     translated_response_text := translated_response_text r;
     retrieval_date := retrieval_date r |}.
Definition set_rating (v : spec_float) (r : review) : review :=
  {| review_id := review_id r; user_name := user_name r; user_url := user_url r;
     user_reviews := user_reviews r; rating := v;
     relative_date := relative_date r; text := text r; text_date := text_date r;
     translated_text := translated_text r; likes := likes r;
     response_text := response_text r;
     response_relative_date := response_relative_date r;
     response_text_date := response_text_date r;
     translated_response_text := translated_response_text r;
     retrieval_date := retrieval_date r |}.
Definition set_relative_date (v : string) (r : review) : review :=
  {| review_id := review_id r; user_name := user_name r; user_url := user_url r;
     user_reviews := user_reviews r; rating := rating r;
     relative_date := v; text := text r; text_date := text_date r;
     translated_text := translated_text r; likes := likes r;
     response_text := response_text r;
     response_relative_date := response_relative_date r;
     response_text_date := response_text_date r;
     translated_response_text := translated_response_text r;
     retrieval_date := retrieval_date r |}.
Definition set_text (v : string) (r : review) : review :=
  {| review_id := review_id r; user_name := user_name r; user_url := user_url r;
     user_reviews := user_reviews r; rating := rating r;
     relative_date := relative_date r; text := v; text_date := text_date r;
     translated_text := translated_text r; likes := likes r;
     response_text := response_text r;
     response_relative_date := response_relative_date r;
     response_text_date := response_text_date r;
     translated_response_text := translated_response_text r;
     retrieval_date := retrieval_date r |}.
Definition set_text_date (v : option string) (r : review) : review :=
  {| review_id := review_id r; user_name := user_name r; user_url := user_url r;
     user_reviews := user_reviews r; rating := rating r;
     relative_date := relative_date r; text := text r; text_date := v;
     translated_text := translated_text r; likes := likes r;
     response_text := response_text r;
     response_relative_date := response_relative_date r;
     response_text_date := response_text_date r;
     translated_response_text := translated_response_text r;
     retrieval_date := retrieval_date r |}.
Definition set_response_text (v : string) (r : review) : review :=
  {| review_id := review_id r; user_name := user_name r; user_url := user_url r;
     user_reviews := user_reviews r; rating := rating r;
     relative_date := relative_date r; text := text r; text_date := text_date r;
     translated_text := translated_text r; likes := likes r;
     response_text := v;
     response_relative_date := response_relative_date r;
     response_text_date := response_text_date r;
     translated_response_text := translated_response_text r;
     retrieval_date := retrieval_date r |}.
Definition set_response_relative_date (v : string) (r : review) : review :=
  {| review_id := review_id r; user_name := user_name r; user_url := user_url r;
     user_reviews := user_reviews r; rating := rating r;
     relative_date := relative_date r; text := text r; text_date := text_date r;
     translated_text := translated_text r; likes := likes r;
     response_text := response_text r;
     response_relative_date := v;
     response_text_date := response_text_date r;
     translated_response_text := translated_response_text r;
     retrieval_date := retrieval_date r |}.
Definition set_response_text_date (v : option string) (r : review) : review :=
  {| review_id := review_id r; user_name := user_name r; user_url := user_url r;
     user_reviews := user_reviews r; rating := rating r;
     relative_date := relative_date r; text := text r; text_date := text_date r;
     translated_text := translated_text r; likes := likes r;
     response_text := response_text r;
     response_relative_date := response_relative_date r;
     response_text_date := v;
     translated_response_text := translated_response_text r;
     retrieval_date := retrieval_date r |}.

(** ** Statements that assign to [result] and may raise

    A statement maps the dictionary to the dictionary it leaves behind and
    either completes or raises; what was assigned before an exception
    stays assigned. *)
Definition M (A : Type) : Type := review -> review * result A.

Global Instance M_ret : MRet M := fun _ a r => (r, Ok a).
Global Instance M_bind : MBind M := fun _ _ f m r =>
  match m r with
  | (r', Ok a) => f a r'
  | (r', Raise e) => (r', Raise e)
  end.

(** Evaluation of an expression. *)
Definition lift {A} (x : result A) : M A := fun r => (r, x).
(** [result[key] = v] *)
Definition assign (f : review -> review) : M unit := fun r => (f r, Ok tt).
(** The current dictionary. *)
Definition read : M review := fun r => (r, Ok r).
(** [if c: m] *)
Definition when (c : bool) (m : M unit) : M unit :=
  if c then m else mret tt.
(** [try: m except (classes): pass] *)
Definition try_pass (m : M unit) (catches : exn -> bool) : M unit := fun r =>
  match m r with
  | (r', Raise e) => if catches e then (r', Ok tt) else (r', Raise e)
  | done => done
  end.

(** The handlers of the source. *)
Definition conversion_errors (e : exn) : bool :=
  match e with
  | ValueError | JSONDecodeError | TypeError | OSError => true
  | _ => false
  end.
Definition any_exception (e : exn) : bool := true.

(** The guards that recur in the source. *)
(** [len(v) > i and v[i]] *)
Definition has_truthy (v : value) (i : nat) : result bool :=
  and_then (n ← py_len v; Ok (i <? n)%nat) (x ← py_index v i; Ok (truthy x)).
(** [len(v) > i and isinstance(v[i], list)] *)
Definition has_list (v : value) (i : nat) : result bool :=
  and_then (n ← py_len v; Ok (i <? n)%nat) (x ← py_index v i; Ok (is_list x)).
(** [len(v) > i and isinstance(v[i], list) and len(v[i]) > j] *)
Definition has_list_longer (v : value) (i j : nat) : result bool :=
  and_then (has_list v i)
           (x ← py_index v i; n ← py_len x; Ok (j <? n)%nat).

(** ** The field mapping as section 4.2 of the specification words it

    Safe chained lookup: the element reached from [v] through the indices
    of [path], each value on the way being an array. *)
Fixpoint at_path (path : list nat) (v : value) : option value :=
  match path with
  | [] => Some v
  | i :: path' =>
      match v with
      | VList l => x ← l !! i; at_path path' x
      | _ => None
      end
  end.


Section Decoder.
Context (H : host).

Local Notation str := (py_str (repr_float H) (repr_str H)).
Local Notation int := (py_int (int_of_str H)).

(** [parse_response], lines 17-36.  A text that [json.loads] refuses
    with JSONDecodeError yields [None], like the JSON text [null]; any
    other exception of [json.loads] is not caught here. *)
Definition parse_response (response_text : string) : result value :=
  let response_text :=
    if startswith ")]}'" response_text then drop_chars 4 response_text
    else response_text in
  match json_loads H response_text with
  | Ok data => Ok data
  | Raise JSONDecodeError => Ok VNone
  | Raise e => Raise e
  end.

(** [extract_pagination_token], lines 38-50. *)
Definition extract_pagination_token (data : value) : result string :=
  c ← has_truthy data 1;
  if c : bool then x ← py_index data 1; Ok (str x)
  else Ok EmptyString.

(** Lines 135-139 and 207-211: microseconds to an ISO date. *)
Definition timestamp_iso (x : value) : result string :=
  timestamp ← int x;
  timestamp_seconds ← int_truediv timestamp 1000000;
  review_datetime ← fromtimestamp H timestamp_seconds;
  Ok (isoformat H review_datetime).

(** Lines 150-170: the user information. *)
Definition user_info_block (user_info : value) : M unit :=
  when (is_list user_info) (
    c ← lift (has_truthy user_info 0);
    when c (x ← lift (py_index user_info 0);
            assign (set_user_name (str x)));;
    c ← lift (has_list_longer user_info 2 0);
    when c (a ← lift (py_index user_info 2);
            x ← lift (py_index a 0);
            assign (set_user_url (str x)));;
    c ← lift (has_list_longer user_info 10 0);
    when c (a ← lift (py_index user_info 10);
            x ← lift (py_index a 0);
            let reviews_text := str x in
            match search (Group (Plus Digit)) reviews_text with
            | Some m => n ← lift (int_of_digits (group1 m));
                        assign (set_user_reviews n)
            | None => mret tt
            end)).

(** Lines 130-174: the metadata. *)
Definition metadata_block (metadata : value) : M unit :=
  c ← lift (has_truthy metadata 2);
  when c (try_pass
            (x ← lift (py_index metadata 2);
             iso ← lift (timestamp_iso x);
             assign (set_text_date (Some iso)))
            conversion_errors);;
  c ← lift (has_list_longer metadata 4 5);
  when c (a ← lift (py_index metadata 4);
          user_info ← lift (py_index a 5);
          user_info_block user_info);;
  c ← lift (has_truthy metadata 6);
  when c (x ← lift (py_index metadata 6);
          assign (set_relative_date (str x))).

(** Lines 178-198: the content. *)
Definition content_block (content : value) : M unit :=
  c ← lift (has_list_longer content 0 0);
  when c (a ← lift (py_index content 0);
          x ← lift (py_index a 0);
          when (is_number x)
               (f ← lift (py_float x); assign (set_rating f)));;
  c ← lift (has_list_longer content 15 0);
  when c (a ← lift (py_index content 15);
          text_container ← lift (py_index a 0);
          c ← lift (and_then (Ok (is_list text_container))
                             (n ← py_len text_container; Ok (0 <? n)%nat));
          when c (x ← lift (py_index text_container 0);
                  match x with
                  | VStr s => assign (set_text s)
                  | _ => mret tt
                  end)).

(** Lines 202-231: the owner's response. *)
Definition response_block (response_data : value) : M unit :=
  c ← lift (has_truthy response_data 1);
  when c (try_pass
            (x ← lift (py_index response_data 1);
             iso ← lift (timestamp_iso x);
             assign (set_response_text_date (Some iso)))
            conversion_errors);;
  c ← lift (has_truthy response_data 3);
  when c (x ← lift (py_index response_data 3);
          assign (set_response_relative_date (str x)));;
  c ← lift (has_list_longer response_data 14 0);
  when c (a ← lift (py_index response_data 14);
          response_container ← lift (py_index a 0);
          c ← lift (and_then (Ok (is_list response_container))
                             (n ← py_len response_container; Ok (0 <? n)%nat));
          when c (x ← lift (py_index response_container 0);
                  match x with
                  | VStr s => assign (set_response_text s)
                  | _ => mret tt
                  end)).

(** Truth of [result["text_date"]]. *)
Definition date_set (d : option string) : bool :=
  match d with
  | Some s => negb (String.eqb s "")
  | None => false
  end.

Section OneReview.
(** The instant [datetime.now()] returns while this review is read. *)
Variable now : datetime.

(** Lines 235-254: the relative dates as a fallback. *)
Definition fallback_block : M unit :=
  result ← read;
  when (negb (String.eqb (relative_date result) "")
        && negb (date_set (text_date result)))
       (try_pass
          (parsed_date ← lift (parse_relative_date (fromisoformat H) now
                                 (relative_date result)
                                 (Some (retrieval_date result)));
           match parsed_date with
           | Some d => assign (set_text_date (Some (isoformat H d)))
           | None => mret tt
           end)
          any_exception);;
  result ← read;
  when (negb (String.eqb (response_relative_date result) "")
        && negb (date_set (response_text_date result)))
       (try_pass
          (parsed_date ← lift (parse_relative_date (fromisoformat H) now
                                 (response_relative_date result)
                                 (Some (retrieval_date result)));
           match parsed_date with
           | Some d => assign (set_response_text_date (Some (isoformat H d)))
           | None => mret tt
           end)
          any_exception).

(** Lines 102-118. *)
Definition initial_result : review :=
  {| review_id := ""; user_name := ""; user_url := ""; user_reviews := 0;
     rating := S754_zero false; relative_date := ""; text := "";
     text_date := None; translated_text := ""; likes := 0;
     response_text := ""; response_relative_date := "";
     response_text_date := None; translated_response_text := "";
     retrieval_date := str_datetime H now |}.

(** Lines 121-254: the body of the outer [try]. *)
Definition review_body (review_array : value) : M unit :=
  short ← lift (if negb (truthy review_array) then Ok true
                else n ← py_len review_array; Ok (n <? 2)%nat);
  if short : bool then mret tt
  else
    c ← lift (has_truthy review_array 0);
    when c (x ← lift (py_index review_array 0);
            assign (set_review_id (str x)));;
    c ← lift (has_list review_array 1);
    when c (metadata ← lift (py_index review_array 1);
            metadata_block metadata);;
    c ← lift (has_list review_array 2);
    when c (content ← lift (py_index review_array 2);
            content_block content);;
    c ← lift (has_list review_array 3);
    when c (response_data ← lift (py_index review_array 3);
            response_block response_data);;
    fallback_block.

(** [extract_review_data], lines 77-259: whatever the body raises is
    dropped by [except Exception: pass], and [result] is returned as
    the body left it. *)
Definition extract_review_data (review_array : value) : review :=
  fst (try_pass (review_body review_array) any_exception initial_result).

(** *** Each field on its own, from its documented position *)

(** What an element yields for a field, if anything: its [str] when
    it is truthy; its [str]; the first run of digits in its [str];
    itself as a float when it is a number; itself when it is a
    string; the ISO date of its microseconds when it is truthy and
    the conversion succeeds. *)
Definition str_if_truthy (x : value) : option string :=
  if truthy x then Some (str x) else None.
Definition str_of (x : value) : option string := Some (str x).
Definition count_in (x : value) : option Z :=
  m ← search (Group (Plus Digit)) (str x);
  match int_of_digits (group1 m) with
  | Ok n => Some n
  | Raise _ => None
  end.
Definition number_of (x : value) : option spec_float :=
  if is_number x then
    match py_float x with
    | Ok f => Some f
    | Raise _ => None
    end
  else None.
Definition string_of (x : value) : option string :=
  match x with
  | VStr s => Some s
  | _ => None
  end.
Definition iso_of (x : value) : option string :=
  if truthy x then
    match timestamp_iso x with
    | Ok iso => Some iso
    | Raise _ => None
    end
  else None.

(** The field read at [path], or its default. *)
Definition field_at {A : Type} (dflt : A) (path : list nat)
    (read : value → option A) (raw : value) : A :=
  default dflt (at_path path raw ≫= read).

(** A date: from its timestamp when that is present and converts;
    otherwise from the relative date, resolved against the retrieval
    date, when that resolves. *)
Definition date_from (stamp : option string) (relative : string)
    : option string :=
  if negb (String.eqb relative "") && negb (date_set stamp) then
    match parse_relative_date (fromisoformat H) now relative
            (Some (str_datetime H now)) with
    | Ok (Some d) => Some (isoformat H d)
    | _ => stamp
    end
  else stamp.

Definition spec_review_id := field_at EmptyString [0] str_if_truthy.
Definition spec_user_name := field_at EmptyString [1; 4; 5; 0] str_if_truthy.
Definition spec_user_url := field_at EmptyString [1; 4; 5; 2; 0] str_of.
Definition spec_user_reviews := field_at 0%Z [1; 4; 5; 10; 0] count_in.
Definition spec_rating := field_at (S754_zero false) [2; 0; 0] number_of.
Definition spec_relative_date := field_at EmptyString [1; 6] str_if_truthy.
Definition spec_text := field_at EmptyString [2; 15; 0; 0] string_of.
Definition spec_text_date (raw : value) : option string :=
  date_from (at_path [1; 2] raw ≫= iso_of) (spec_relative_date raw).
Definition spec_response_text := field_at EmptyString [3; 14; 0; 0] string_of.
Definition spec_response_relative_date :=
  field_at EmptyString [3; 3] str_if_truthy.
Definition spec_response_text_date (raw : value) : option string :=
  date_from (at_path [3; 1] raw ≫= iso_of) (spec_response_relative_date raw).

Definition spec_review (raw : value) : review :=
  {| review_id := spec_review_id raw;
     user_name := spec_user_name raw;
     user_url := spec_user_url raw;
     user_reviews := spec_user_reviews raw;
     rating := spec_rating raw;
     relative_date := spec_relative_date raw;
     text := spec_text raw;
     text_date := spec_text_date raw;
     translated_text := "";
     likes := 0;
     response_text := spec_response_text raw;
     response_relative_date := spec_response_relative_date raw;
     response_text_date := spec_response_text_date raw;
     translated_response_text := "";
     retrieval_date := str_datetime H now |}.
End OneReview.

(** A timestamp whose conversion, if it fails, fails with one of the
    errors the source catches around it; a rating whose conversion to
    [float] succeeds; a count whose run of digits [int] accepts. *)
Definition stamp_contained (o : option value) : Prop :=
  ∀ x e, o = Some x → truthy x = true → timestamp_iso x = Raise e →
         conversion_errors e = true.
Definition rating_converts (o : option value) : Prop :=
  ∀ x, o = Some x → is_number x = true → ∃ f, py_float x = Ok f.
Definition conversions_contained (raw : value) : Prop :=
  stamp_contained (at_path [1; 2] raw) ∧
  rating_converts (at_path [2; 0; 0] raw) ∧
  stamp_contained (at_path [3; 1] raw).
Definition count_converts (o : option value) : Prop :=
  ∀ x m, o = Some x → search (Group (Plus Digit)) (str x) = Some m →
         ∃ n, int_of_digits (group1 m) = Ok n.

(** Lines 69-73: the loop over the page's items.  [clock k] is the
    instant at which the [k]-th review of the page is read. *)
Fixpoint reviews_loop (clock : nat -> datetime) (k : nat)
    (items : list value) : list review :=
  match items with
  | [] => []
  | review_item :: rest =>
      match review_item with
      | VList (review_data :: _) =>
          extract_review_data (clock k) review_data
            :: reviews_loop clock (S k) rest
      | _ => reviews_loop clock k rest
      end
  end.

(** [extract_reviews], lines 52-75. *)
Definition extract_reviews (clock : nat -> datetime) (data : value)
    : result (list review) :=
  c ← has_truthy data 2;
  if c : bool then
    reviews_array ← py_index data 2;
    match reviews_array with
    | VList items => Ok (reviews_loop clock 0 items)
    | _ => Ok []
    end
  else Ok [].
End Decoder.

End Parser.

(** ** What each block of [extract_review_data] assigns when it completes *)
Module Effects.
Import Py Re TimeUtils Host Parser.

Section Effects.
Context (H : host).

(** [result[key] = v] when [o] holds a [v], nothing otherwise. *)
Definition put {A : Type} (get : review → A) (set : A → review → review)
    (o : option A) (r : review) : review :=
  set (default (get r) o) r.

(** The blocks, reading under the position [p] of [root]. *)
Definition user_info_effect (root : value) (p : list nat) (r : review) : review :=
  put user_reviews set_user_reviews (at_path (p ++ [10; 0]) root ≫= count_in H)
    (put user_url set_user_url (at_path (p ++ [2; 0]) root ≫= str_of H)
       (put user_name set_user_name
            (at_path (p ++ [0]) root ≫= str_if_truthy H) r)).

Definition metadata_effect (root : value) (p : list nat) (r : review) : review :=
  put relative_date set_relative_date
      (at_path (p ++ [6]) root ≫= str_if_truthy H)
    (user_info_effect root (p ++ [4; 5])
       (put text_date set_text_date
            (Some <$> (at_path (p ++ [2]) root ≫= iso_of H)) r)).

Definition content_effect (root : value) (p : list nat) (r : review) : review :=
  put text set_text (at_path (p ++ [15; 0; 0]) root ≫= string_of)
    (put rating set_rating (at_path (p ++ [0; 0]) root ≫= number_of) r).

Definition response_effect (root : value) (p : list nat) (r : review) : review :=
  put response_text set_response_text
      (at_path (p ++ [14; 0; 0]) root ≫= string_of)
    (put response_relative_date set_response_relative_date
         (at_path (p ++ [3]) root ≫= str_if_truthy H)
       (put response_text_date set_response_text_date
            (Some <$> (at_path (p ++ [1]) root ≫= iso_of H)) r)).

Definition fallback_effect (now : datetime) (r : review) : review :=
  let r1 := set_text_date
              (date_from H now (text_date r) (relative_date r)) r in
  set_response_text_date
    (date_from H now (response_text_date r1) (response_relative_date r1)) r1.

Definition body_effect (now : datetime) (raw : value) (r : review) : review :=
  fallback_effect now
    (response_effect raw [3]
       (content_effect raw [2]
          (metadata_effect raw [1]
             (put review_id set_review_id
                  (at_path [0] raw ≫= str_if_truthy H) r)))).
End Effects.

(** A statement leaves the key read by [proj] alone. *)
Definition keeps {B A : Type} (proj : review → B) (m : M A) : Prop :=
  ∀ r, proj (fst (m r)) = proj r.

(** A statement completes, and changes the dictionary by [F]. *)
Definition runs (m : M unit) (F : review → review) : Prop :=
  ∀ r, m r = (F r, Ok tt).

(** Nothing lies under the position [p] of [root]. *)
Definition closed_at (root : value) (p : list nat) : Prop :=
  ∀ i q, at_path (p ++ i :: q) root = None.

End Effects.

(* ===================================================================== *)
(** * src/scraper.py                                                      *)
(* ===================================================================== *)
Module Scraper.
Import Py Re TimeUtils Host Parser.

(** [Literal["json", "csv"]] *)
Inductive output_format : Type := Json | Csv.

Definition format_name (f : output_format) : string :=
  match f with
  | Json => "json"
  | Csv => "csv"
  end.

(** The attributes set by [__init__], lines 53-57. *)
Record scraper : Type := {
  proxy : option string;
  request_interval : spec_float;
  n_retries : Z;
  retry_time : spec_float;
  random_impersonate : bool;
  log_level : string
}.

Definition init (proxy : option string) (request_interval : spec_float)
    (n_retries : Z) (retry_time : spec_float) (random_impersonate : bool)
    (log_level : string) : scraper :=
  {| proxy := proxy; request_interval := request_interval;
     n_retries := n_retries; retry_time := retry_time;
     random_impersonate := random_impersonate; log_level := log_level |}.

(** Files: the text stored in each file, a file being named by the
    [realpath] of the paths that denote it. *)
Notation files := (gmap string string).

(** A review as the dictionary handed to the writers. *)
Definition date_value (d : option string) : value :=
  match d with
  | Some s => VStr s
  | None => VNone
  end.

Definition to_dict (r : review) : list (string * value) :=
  [ ("review_id", VStr (review_id r));
    ("user_name", VStr (user_name r));
    ("user_url", VStr (user_url r));
    ("user_reviews", VInt (user_reviews r));
    ("rating", VFloat (rating r));
    ("relative_date", VStr (relative_date r));
    ("text", VStr (text r));
    ("text_date", date_value (text_date r));
    ("translated_text", VStr (translated_text r));
    ("likes", VInt (likes r));
    ("response_text", VStr (response_text r));
    ("response_relative_date", VStr (response_relative_date r));
    ("response_text_date", date_value (response_text_date r));
    ("translated_response_text", VStr (translated_response_text r));
    ("retrieval_date", VStr (retrieval_date r)) ]%string.

Definition fieldnames : list string :=
  [ "review_id"; "user_name"; "user_url"; "user_reviews";
    "rating"; "relative_date"; "text_date"; "text";
    "response_text"; "response_relative_date";
    "response_text_date"; "retrieval_date" ]%string.

(** [rowdict.get(key, "")] *)
Fixpoint dict_get (key : string) (d : list (string * value)) : value :=
  match d with
  | [] => VStr ""
  | (k, v) :: d' => if String.eqb k key then v else dict_get key d'
  end.

(** [all_reviews[:n]] *)
Definition slice_to (n : Z) (l : list review) : list review :=
  if (0 <=? n)%Z then take (Z.to_nat n) l
  else take (length l - Z.to_nat (- n)) l.

(** [0[xX][0-9a-fA-F]+:0[xX][0-9a-fA-F]+] *)
Definition is_x (c : ascii) : bool := Ascii.eqb c "x" || Ascii.eqb c "X".
Definition is_hex (c : ascii) : bool :=
  is_digit c || ascii_in 97 102 c || ascii_in 65 70 c.
Definition feature_pattern : regex :=
  Chr "0" ⋅ Cls is_x ⋅ Plus (Cls is_hex) ⋅ Chr ":" ⋅
  Chr "0" ⋅ Cls is_x ⋅ Plus (Cls is_hex).

(** [_parse_url_to_feature_id], lines 67-81. *)
Definition _parse_url_to_feature_id (url : string) : option string :=
  match search feature_pattern url with
  | Some m => Some (group0 m)
  | None => None
  end.

(** What one invocation of [scrape_reviews] holds and has done: the
    accumulator, the cursor, the files, and the cursor carried by each
    request issued so far, oldest first. *)
Record state : Type := {
  all_reviews : list review;
  next_page_token : string;
  disk : files;
  requests : list string
}.

(** How one pass through the body of the inner [try] ends. *)
Inductive attempt_end : Type :=
| Stored (st : state)          (** line 300: the page was appended and saved *)
| Ended (st : state)           (** line 279: absent or short envelope *)
| Threw (e : exn) (st : state).

(** How the inner [while retries > 0] ends. *)
Inductive cycle_end : Type :=
| Exited (st : state)
| Aborted (e : exn) (st : state).

(** How the invocation stands after a number of page cycles. *)
Inductive outcome : Type :=
| Returned (final_reviews : list review) (st : state)
| Raised (e : exn) (st : state)
| Fetching (st : state).

Definition cycle_state (c : cycle_end) : state :=
  match c with
  | Exited st => st
  | Aborted _ st => st
  end.

Definition final_state (o : outcome) : state :=
  match o with
  | Returned _ st => st
  | Raised _ st => st
  | Fetching st => st
  end.

Section Driver.
Context (H : host).
(** The outcome of the [k]-th call of [_make_request] in the invocation,
    for the feature, cursor and language it is called with: the text of
    a 200 response, or the exception raised. *)
Variable _make_request : nat -> string -> string -> string -> result string.
(** The instant at which the [k]-th review of the invocation is read. *)
Variable clock : nat -> datetime.

(** The text written for a list of reviews. *)
Definition json_text (reviews : list review) : string :=
  json_dumps H (VList (List.map (fun r => VDict (to_dict r)) reviews)).

Definition csv_text (reviews : list review) : string :=
  csv_writerow H (List.map VStr fieldnames) +:+
  String.concat ""
    (List.map (fun r => csv_writerow H
                 (List.map (fun key => dict_get key (to_dict r)) fieldnames))
              reviews).

Definition file_text (fmt : output_format) (reviews : list review) : string :=
  match fmt with
  | Json => json_text reviews
  | Csv => csv_text reviews
  end.

(** [_save_to_temp], lines 151-182.  [temp_file] is a [Path] that the
    caller has built: the file itself.  Opening and writing the file are
    taken to succeed. *)
Definition _save_to_temp (reviews : list review) (temp_file : string)
    (fmt : output_format) (fs : files) : files :=
  match fmt with
  | Json => <[temp_file := json_text reviews]> fs
  | Csv =>
      if negb (Nat.eqb (length reviews) 0)
      then <[temp_file := csv_text reviews]> fs
      else fs
  end.

(** [_save_final_output], lines 373-405.  [output_file] is the text the
    caller of the scraper gave; [Path(output_file)] is opened from the
    working directory.  Creating the parent directory, opening and
    writing the file are taken to succeed. *)
Definition _save_final_output (reviews : list review) (output_file : string)
    (fmt : output_format) (fs : files) : files :=
  let output_path := realpath H output_file in
  match fmt with
  | Json => <[output_path := json_text reviews]> fs
  | Csv =>
      if negb (Nat.eqb (length reviews) 0)
      then <[output_path := csv_text reviews]> fs
      else fs
  end.

Section Invocation.
Variable self : scraper.
Variable n_reviews : option Z.
Variable hl : string.
Variable verbose : bool.
Variable fmt : output_format.
Variable output_file : option string.
Variable feature_id : string.

(** Lines 245-247: [Path.cwd() / "tmp" / name], the file that the
    relative text [tmp/name] denotes from the working directory. *)
Definition temp_file : string :=
  realpath H
    ("tmp/gmaps_reviews_temp_" +:+ feature_id +:+ "." +:+ format_name fmt).

(** Truth of [output_file] and of [n_reviews]. *)
Definition output_given : option string :=
  match output_file with
  | Some p => if String.eqb p "" then None else Some p
  | None => None
  end.
Definition target : option Z :=
  match n_reviews with
  | Some n => if Z.eqb n 0 then None else Some n
  | None => None
  end.

Definition with_request (st : state) : state :=
  {| all_reviews := all_reviews st; next_page_token := next_page_token st;
     disk := disk st; requests := requests st ++ [next_page_token st] |}.
Definition with_token (token : string) (st : state) : state :=
  {| all_reviews := all_reviews st; next_page_token := token;
     disk := disk st; requests := requests st |}.
Definition with_page (reviews : list review) (st : state) : state :=
  {| all_reviews := all_reviews st ++ reviews;
     next_page_token := next_page_token st;
     disk := _save_to_temp (all_reviews st ++ reviews) temp_file fmt (disk st);
     requests := requests st |}.
Definition with_disk (fs : files) (st : state) : state :=
  {| all_reviews := all_reviews st; next_page_token := next_page_token st;
     disk := fs; requests := requests st |}.

(** Lines 263-300: one pass through the body of the inner [try]. *)
Definition attempt (st : state) : attempt_end :=
  let st1 := with_request st in
  match _make_request (length (requests st)) feature_id
                      (next_page_token st) hl with
  | Raise e => Threw e st1
  | Ok response_text =>
      match parse_response H response_text with
      | Raise e => Threw e st1
      | Ok data =>
          match (if negb (truthy data) then Ok true
                 else n ← py_len data; Ok (n <? 3)%nat) with
          | Raise e => Threw e st1
          | Ok true => Ended st1
          | Ok false =>
              match extract_pagination_token H data with
              | Raise e => Threw e st1
              | Ok token =>
                  let st2 := with_token token st1 in
                  match extract_reviews H
                          (fun k => clock (length (all_reviews st) + k))
                          data with
                  | Raise e => Threw e st2
                  | Ok reviews => Stored (with_page reviews st2)
                  end
              end
          end
      end
  end.

(** Lines 261-321: [while retries > 0], entered with [retries] tries
    left. *)
Fixpoint retry_loop (retries : nat) (st : state) : cycle_end :=
  match retries with
  | O => Exited st
  | S retries' =>
      match attempt st with
      | Stored st' => Exited st'
      | Ended st' => Exited st'
      | Threw e st' =>
          if Nat.eqb retries' 0 then
            match output_given with
            | Some p =>
                if negb (Nat.eqb (length (all_reviews st')) 0)
                then Aborted e (with_disk (_save_final_output
                                  (all_reviews st') p fmt (disk st')) st')
                else Aborted e st'
            | None => Aborted e st'
            end
          else retry_loop retries' st'
      end
  end.

(** Line 324. *)
Definition target_reached (st : state) : bool :=
  match target with
  | Some n => (n <=? Z.of_nat (length (all_reviews st)))%Z
  | None => false
  end.

(** Lines 351-364: trimming, the final output and the clean-up. *)
Definition finish (st : state) : outcome :=
  let final_reviews :=
    match target with
    | Some n => slice_to n (all_reviews st)
    | None => all_reviews st
    end in
  let fs :=
    match output_given with
    | Some p => _save_final_output final_reviews p fmt (disk st)
    | None => disk st
    end in
  Returned final_reviews (with_disk (delete temp_file fs) st).

(** Lines 259-343: [while True], observed for [fuel] page cycles. *)
Fixpoint page_loop (fuel : nat) (st : state) : outcome :=
  match fuel with
  | O => Fetching st
  | S fuel' =>
      match retry_loop (Z.to_nat (n_retries self)) st with
      | Aborted e st' => Raised e st'
      | Exited st' =>
          if target_reached st' then finish st'
          else if String.eqb (next_page_token st') "" then finish st'
          else page_loop fuel' st'
      end
  end.

(** *** What the files hold while the loop runs *)

(** The checkpoint holds the accumulator as soon as that is not
    empty. *)
Definition checkpointed (st : state) : Prop :=
  all_reviews st ≠ [] →
  disk st !! temp_file = Some (file_text fmt (all_reviews st)).

(** From [st] to [st'] the checkpoint stays in step with the
    accumulator, and a temp file that exists is not removed. *)
Definition grows (st st' : state) : Prop :=
  (checkpointed st → checkpointed st') ∧
  (is_Some (disk st !! temp_file) → is_Some (disk st' !! temp_file)).

(** The partial output: once reviews are held and an output path is
    given, the file it denotes holds them. *)
Definition flushed (st : state) : Prop :=
  ∀ p, output_given = Some p → all_reviews st ≠ [] →
       disk st !! realpath H p = Some (file_text fmt (all_reviews st)).

(** The temp file is never removed while the loop runs: it is as it
    was before the invocation, or it holds the accumulator. *)
Definition temp_kept (fs0 : files) (st : state) : Prop :=
  disk st !! temp_file = fs0 !! temp_file ∨
  disk st !! temp_file = Some (file_text fmt (all_reviews st)).

(** In JSON every stored page is checkpointed, also an empty one; a
    cursor is held only once a page has been stored. *)
Definition json_checkpointed (st : state) : Prop :=
  fmt = Json → next_page_token st ≠ EmptyString →
  disk st !! temp_file = Some (json_text (all_reviews st)).

(** While no review is held, only the temp file can have changed. *)
Definition untouched (fs0 : files) (st : state) : Prop :=
  all_reviews st = [] → ∀ p, p ≠ temp_file → disk st !! p = fs0 !! p.
End Invocation.

Definition initial_state (fs : files) : state :=
  {| all_reviews := []; next_page_token := ""; disk := fs; requests := [] |}.

(** [scrape_reviews], lines 184-371, started on the files [fs] and
    observed for [fuel] page cycles. *)
Definition scrape_reviews (self : scraper) (url : string)
    (n_reviews : option Z) (hl : string) (verbose : bool)
    (fmt : output_format) (output_file : option string)
    (fs : files) (fuel : nat) : outcome :=
  match _parse_url_to_feature_id url with
  | None => Raised ValueError (initial_state fs)
  | Some feature_id =>
      if String.eqb feature_id "" then Raised ValueError (initial_state fs)
      else page_loop self n_reviews hl fmt output_file feature_id
                     fuel (initial_state fs)
  end.
End Driver.

End Scraper.

(** [GoogleMapsReviewsScraperSync], lines 408-467. *)
Module ScraperSync.
Import Py TimeUtils Host Parser Scraper.

Record scraper_sync : Type := { _scraper : scraper }.

Definition init (proxy : option string) (request_interval : spec_float)
    (n_retries : Z) (retry_time : spec_float) (random_impersonate : bool)
    (log_level : string) : scraper_sync :=
  {| _scraper := Scraper.init proxy request_interval n_retries retry_time
                              random_impersonate log_level |}.

(** [asyncio.run(coroutine)].  Called in a thread where an event loop is
    running it raises RuntimeError ("asyncio.run() cannot be called from a
    running event loop") and the coroutine is never started: nothing is
    requested and the files [fs] are as they were.  Otherwise it drives
    the coroutine to its end on a fresh event loop and hands back what it
    returns or raises. *)
Definition asyncio_run (loop_running : bool) (fs : gmap string string)
    (coroutine : outcome) : outcome :=
  if loop_running then Raised RuntimeError (initial_state fs)
  else coroutine.

(** [scrape_reviews], lines 443-467; [loop_running] tells whether an
    event loop is running in the calling thread. *)
Definition scrape_reviews (H : host)
    (_make_request : nat -> string -> string -> string -> result string)
    (clock : nat -> datetime) (loop_running : bool)
    (self : scraper_sync) (url : string)
    (n_reviews : option Z) (hl : string) (verbose : bool)
    (fmt : output_format) (output_file : option string)
    (fs : gmap string string) (fuel : nat) : outcome :=
  asyncio_run loop_running fs
    (Scraper.scrape_reviews H _make_request clock (_scraper self)
       url n_reviews hl verbose fmt output_file fs fuel).

End ScraperSync.

(* ===================================================================== *)
(** * Sample inputs                                                       *)
(* ===================================================================== *)
Module Examples.
Import Py Re TimeUtils Host Parser Scraper.
Local Open Scope Z_scope.

(** 2026-11-03T12:00:00 *)
Definition NOON : datetime := 63929304000000000.

(** [datetime.fromisoformat] on the one text the examples pass to it. *)
Definition iso_min (s : string) : option datetime :=
  if String.eqb s "0001-01-01T00:00:00" then Some 0 else None.

(** A host for the examples.  Its [repr] of a float is CPython's on NaN,
    the infinities, the zeros and whole numbers below 10^16, and shows
    mantissa and exponent elsewhere; its [repr] of a string is CPython's on
    text without quotes, backslashes and control characters.  Dates are
    printed as their count of microseconds, timestamps are read as UTC,
    and the writers print the [repr] of what they are given. *)
Definition repr_float_demo (f : spec_float) : string :=
  match f with
  | S754_nan => "nan"
  | S754_infinity false => "inf"
  | S754_infinity true => "-inf"
  | S754_zero false => "0.0"
  | S754_zero true => "-0.0"
  | S754_finite s m e =>
      (if s then "-" else "") +:+
      (if 0 <=? e then pretty (Zpos m * 2 ^ e) +:+ ".0"
       else if Zpos m mod 2 ^ (- e) =? 0
            then pretty (Zpos m / 2 ^ (- e)) +:+ ".0"
            else pretty (Zpos m) +:+ "*2**" +:+ pretty e)
  end.

Definition repr_str_demo (s : string) : string := "'" +:+ s +:+ "'".

Definition EPOCH : datetime := 62135596800000000.

Definition fromtimestamp_demo (seconds : spec_float) : result datetime :=
  match int_of_float seconds with
  | Ok z =>
      if (0 <=? EPOCH + z * US_PER_SECOND)
         && (EPOCH + z * US_PER_SECOND <=? DATETIME_MAX)
      then Ok (EPOCH + z * US_PER_SECOND)
      else Raise OverflowError
  | Raise e => Raise e
  end.

(** A numeral of 4301 digits, one more than [int] accepts. *)
Definition long_numeral : string :=
  string_of_list_ascii (repeat "9"%char 4301).

(** The JSON texts of the examples: a page of one review with the cursor
    7, a page of one review without a cursor, an empty envelope, and an
    array holding [long_numeral], on which [json.loads] raises the
    ValueError of [int]; every other text is taken as malformed. *)
Definition page_with_cursor : value :=
  VList [VNone; VInt 7; VList [VList [VList [VInt 1; VList []]]]].
Definition page_without_cursor : value :=
  VList [VNone; VNone; VList [VList [VList [VInt 2; VList []]]]].

Definition page_of_two : value :=
  VList [VNone; VInt 7;
         VList [VList [VList [VInt 1; VList []]];
                VList [VList [VInt 2; VList []]]]].

Definition json_loads_demo (s : string) : result value :=
  if String.eqb s "[null,7,[[[1,[]]]]]" then Ok page_with_cursor
  else if String.eqb s "[null,7,[[[1,[]]],[[2,[]]]]]" then Ok page_of_two
  else if String.eqb s "[null,null,[[[2,[]]]]]" then Ok page_without_cursor
  else if String.eqb s "[]" then Ok (VList [])
  else if String.eqb s ("[" +:+ long_numeral +:+ "]") then Raise ValueError
  else Raise JSONDecodeError.

(** Paths in the examples: a leading [./] is dropped. *)
Definition realpath_demo (p : string) : string :=
  if startswith "./" p then drop_chars 2 p else p.

(** A review with an identifier, a timestamp, a relative date and a
    rating; one that is cut after its identifier; and one whose timestamp
    is too large for the division at line 137. *)
Definition full_review : value :=
  VList [VStr "id1";
         VList [VNone; VNone; VInt 1700000000000000; VNone; VNone; VNone;
                VStr "2 weeks ago"];
         VList [VList [VInt 4]]].
Definition huge_stamp_review : value :=
  VList [VStr "id1";
         VList [VNone; VNone; VInt (10 ^ 400); VNone; VNone; VNone;
                VStr "2 weeks ago"];
         VList [VList [VInt 4]]].

(** A review whose count of the user's reviews is written with 4301
    digits. *)
Definition long_count_review : value :=
  VList [VStr "id1";
         VList [VNone; VNone; VNone; VNone;
                VList [VNone; VNone; VNone; VNone; VNone;
                       VList [VStr "Ann"; VNone; VNone; VNone; VNone; VNone;
                              VNone; VNone; VNone; VNone;
                              VList [VStr (long_numeral +:+ " reviews")]]];
                VNone; VStr "2 weeks ago"];
         VList [VList [VInt 4]]].

Definition CRLF : string := String "013" (String "010" EmptyString).

Definition demo : host :=
  {| repr_float := repr_float_demo;
     repr_str := repr_str_demo;
     int_of_str := fun _ => None;
     fromtimestamp := fromtimestamp_demo;
     isoformat := fun d => pretty d;
     str_datetime := fun d => pretty d;
     fromisoformat := iso_min;
     json_loads := json_loads_demo;
     json_dumps := py_repr repr_float_demo repr_str_demo;
     csv_writerow := fun cells =>
       String.concat "," (List.map (py_str repr_float_demo repr_str_demo) cells)
       +:+ CRLF;
     realpath := realpath_demo |}.

(** An invocation: a URL that carries a feature identifier, a scraper
    with the default attributes, and four networks.  [stale_network]
    answers the first request with a page of one review and the cursor 7,
    and every later request with an empty envelope; [down_network] fails
    every request; [flaky_network] answers the first request like
    [stale_network] and fails every later one; [steady_network] answers
    every request with a page of two reviews and the cursor 7. *)
Definition URL : string :=
  "https://www.google.com/maps/place/?q=0x89c25a31ebfbc6bf:0xb80ba2960244e4f4".

Definition default_scraper : scraper :=
  Scraper.init None (S754_finite false 7205759403792794 (-54)) 10
               (float_of_Z 30) true "INFO".

Definition stale_network (k : nat) (feature_id token hl : string)
    : result string :=
  if Nat.eqb k 0 then Ok ")]}'[null,7,[[[1,[]]]]]"%string
  else Ok ")]}'[]"%string.

Definition down_network (k : nat) (feature_id token hl : string)
    : result string :=
  Raise TransportError.

Definition flaky_network (k : nat) (feature_id token hl : string)
    : result string :=
  if Nat.eqb k 0 then Ok ")]}'[null,7,[[[1,[]]]]]"%string
  else Raise TransportError.

Definition steady_network (k : nat) (feature_id token hl : string)
    : result string :=
  Ok ")]}'[null,7,[[[1,[]]],[[2,[]]]]]"%string.

Definition noon_clock (k : nat) : datetime := NOON.

End Examples.

(* ===================================================================== *)
(** * src/emulation.py                                                    *)
(* ===================================================================== *)
Module Emulation.
Import Py.

(** The class attribute, lines 16-43 (chrome136 is listed twice). *)
Definition IMPERSONATIONS : list string :=
  [ "chrome136"; "chrome136"; "chrome133a"; "chrome131"; "chrome124";
    "chrome123"; "chrome120"; "chrome119"; "chrome116";
    "chrome110"; "chrome107"; "chrome104"; "chrome101"; "chrome100";
    "chrome99";
    "chrome131_android"; "chrome99_android";
    "edge101"; "edge99";
    "safari15_5"; "safari15_3" ]%string.

(** The attributes of a [BrowserEmulator]. *)
Record emulator : Type := {
  impersonations : list string;
  _index : nat
}.

(** [__init__], lines 44-52: an absent or empty list is replaced by a
    copy of the class attribute. *)
Definition init (impersonations : option (list string)) : emulator :=
  {| impersonations :=
       match impersonations with
       | Some (x :: l) => x :: l
       | _ => IMPERSONATIONS
       end;
     _index := 0 |}.

(** [get_random], lines 54-61.  [random.choice(seq)] raises IndexError on
    an empty sequence and returns [seq[_randbelow(len(seq))]] otherwise;
    [_randbelow] is the generator's draw. *)
Definition get_random (_randbelow : nat -> nat) (self : emulator)
    : result string :=
  match impersonations self with
  | [] => Raise IndexError
  | _ =>
      match impersonations self !! _randbelow (length (impersonations self)) with
      | Some impersonation => Ok impersonation
      | None => Raise IndexError
      end
  end.

(** [get_next], lines 63-72: what is returned, and the emulator after the
    call. *)
Definition get_next (self : emulator) : result (string * emulator) :=
  match impersonations self !! _index self with
  | None => Raise IndexError
  | Some impersonation =>
      Ok (impersonation,
          {| impersonations := impersonations self;
             _index := (_index self + 1) mod length (impersonations self) |})
  end.

(** [reset], lines 74-76. *)
Definition reset (self : emulator) : emulator :=
  {| impersonations := impersonations self; _index := 0 |}.

(** [n] calls of [get_next] in a row: what they return, in order, and the
    emulator after the last one. *)
Fixpoint get_next_times (n : nat) (self : emulator)
    : result (list string * emulator) :=
  match n with
  | O => Ok ([], self)
  | S n' =>
      '(impersonation, self') ← get_next self;
      '(later, self'') ← get_next_times n' self';
      Ok (impersonation :: later, self'')
  end.

(** The rotation index is a position of the list. *)
Definition in_rotation (self : emulator) : Prop :=
  (_index self < length (impersonations self))%nat.

End Emulation.

(* ===================================================================== *)
(** * Notions used to state what the code does                            *)
(* ===================================================================== *)
Module Notions.
Import Py Re TimeUtils Host Parser Scraper.

(** The words a pattern matches: [lang r w g g'] when [r] matches exactly
    the text [w], group 1 holding [g] before and [g'] after. *)
Inductive lang : regex → string → option string → option string → Prop :=
| lang_eps g : lang Eps "" g g
| lang_cls p c g : p c = true → lang (Cls p) (String c "") g g
| lang_cat r1 r2 w1 w2 g g1 g2 :
    lang r1 w1 g g1 → lang r2 w2 g1 g2 → lang (Cat r1 r2) (w1 +:+ w2) g g2
| lang_star_nil r g : lang (Star r) "" g g
| lang_star_cons r w1 w2 g g1 g2 :
    lang r w1 g g1 → lang (Star r) w2 g1 g2 → lang (Star r) (w1 +:+ w2) g g2
| lang_opt_none r g : lang (Opt r) "" g g
| lang_opt_some r w g g' : lang r w g g' → lang (Opt r) w g g'
| lang_group r w g g' : lang r w g g' → lang (Group r) w g (Some w).

Fixpoint has_group (r : regex) : bool :=
  match r with
  | Eps | Cls _ => false
  | Cat r1 r2 => has_group r1 || has_group r2
  | Star r' | Opt r' => has_group r'
  | Group _ => true
  end.

(** Every character of [s] is in the class [p]. *)
Fixpoint all_chars (p : ascii → bool) (s : string) : bool :=
  match s with
  | EmptyString => true
  | String c s' => p c && all_chars p s'
  end.

(** A non-empty run of decimal, or of hexadecimal, digits. *)
Definition digit_run (s : string) : Prop :=
  s ≠ EmptyString ∧ all_chars is_digit s = true.
Definition hex_run (s : string) : Prop :=
  s ≠ EmptyString ∧ all_chars is_hex s = true.

(** [0x<hex>:0x<hex>], the [x] in either case. *)
Definition feature_id_shape (w : string) : Prop :=
  ∃ x1 h1 x2 h2,
    w = String "0" (String x1 (h1 +:+ String ":" (String "0" (String x2 h2)))) ∧
    is_x x1 = true ∧ is_x x2 = true ∧ hex_run h1 ∧ hex_run h2.

(** [review_item[0]] for an item the loop of [extract_reviews] uses. *)
Definition review_data_of (review_item : value) : option value :=
  match review_item with
  | VList (review_data :: _) => Some review_data
  | _ => None
  end.

(** The units of [parse_relative_date], in the order of its tables. *)
Definition units : list string := List.map fst unit_us.

(** The length of a unit, in microseconds. *)
Definition unit_length (u : string) : Z :=
  default 0%Z (snd <$> List.find (fun p => String.eqb (fst p) u) unit_us).

(** A date field holds nothing or the ISO text of a datetime. *)
Definition iso_or_none (H : host) (o : option string) : Prop :=
  o = None ∨ ∃ d : datetime, o = Some (isoformat H d).

(** What every record handed out satisfies, beyond having its fields. *)
Definition well_formed_record (H : host) (r : review) : Prop :=
  (0 <= user_reviews r)%Z ∧
  iso_or_none H (text_date r) ∧
  iso_or_none H (response_text_date r).

End Notions.

(* ===================================================================== *)
(** * The resolver: what [parse_relative_date] returns                    *)
(* ===================================================================== *)
Module ResolverProofs.
Import Py Re TimeUtils.
Local Open Scope Z_scope.

Section Facts.
Variable fromisoformat : string -> option datetime.
Variable now : datetime.

Lemma mk_then_sub T us :
  (d ← (delta ← mk_timedelta us; datetime_sub T delta); Ok (Some d))
  = resolved T us.
Proof.
  unfold resolved, in_range, mk_timedelta, datetime_sub.
  destruct (timedelta_fits us); cbn; [|reflexivity].
  destruct ((0 <=? T - us) && (T - us <=? DATETIME_MAX)); reflexivity.
Qed.

(** The first loop picks the first unit, in the order of the table,
    whose pattern is found. *)
Lemma quantity_loop_spec T t :
  quantity_loop T patterns t =
  (fun d : result Z => us ← d; delta ← mk_timedelta us; datetime_sub T delta)
    <$> first_quantity unit_us t.
Proof.
  unfold patterns, unit_us.
  cbn [quantity_loop first_quantity].
  repeat (match goal with
          | |- context [search ?p t] => destruct (search p t) as [m|]
          end;
          cbn [String.eqb Ascii.eqb Bool.eqb fmap option_fmap option_map];
          [ destruct (int_of_digits (group1 m)) as [value|e];
            cbn [mbind result_bind]; [|reflexivity];
            unfold timedelta_seconds, timedelta_minutes, timedelta_hours,
              timedelta_days, timedelta_weeks;
            rewrite <- ?Z.mul_assoc; reflexivity | ]).
  reflexivity.
Qed.

Lemma single_loop_spec T t :
  single_loop T single_patterns t = datetime_sub T <$> first_single unit_us t.
Proof.
  unfold single_patterns, unit_us.
  cbn [single_loop first_single].
  repeat (match goal with
          | |- context [search ?p t] => destruct (search p t) as [m|]
          end;
          cbn [fmap option_fmap option_map];
          [ rewrite ?Z.mul_1_l; reflexivity | ]).
  reflexivity.
Qed.

(** The seven constructor calls of [single_patterns] succeed. *)
Lemma single_deltas_fit t us :
  first_single unit_us t = Some us → mk_timedelta us = Ok us.
Proof.
  unfold unit_us. cbn [first_single].
  repeat (match goal with
          | |- context [search ?p t] => destruct (search p t) as [m|]
          end; [ intros [= <-]; reflexivity | ]).
  discriminate.
Qed.

Lemma parse_relative_date_spec text reference_date :
  datetime_ok (reference_instant fromisoformat now reference_date) →
  parse_relative_date fromisoformat now text reference_date =
  if String.eqb text "" then Ok None
  else match spec_duration (strip (lower text)) with
       | Some (Ok us) =>
           resolved (reference_instant fromisoformat now reference_date) us
       | Some (Raise e) => Raise e
       | None => Ok None
       end.
Proof.
  intros HT. unfold parse_relative_date, spec_duration.
  set (T := reference_instant fromisoformat now reference_date) in *.
  set (t := strip (lower text)).
  destruct (String.eqb text ""); [reflexivity|].
  destruct (str_in t _).
  { unfold resolved, in_range. rewrite Z.sub_0_r.
    destruct HT as [H0 H1].
    apply Z.leb_le in H0, H1. rewrite H0, H1. reflexivity. }
  destruct (contains "yesterday" t).
  { rewrite <- mk_then_sub. unfold timedelta_days.
    rewrite Z.mul_1_l. destruct (mk_timedelta US_PER_DAY); reflexivity. }
  rewrite quantity_loop_spec.
  destruct (first_quantity unit_us t) as [[us|e]|];
    cbn [fmap option_fmap option_map mbind result_bind].
  { apply mk_then_sub. }
  { reflexivity. }
  rewrite single_loop_spec.
  destruct (first_single unit_us t) as [us|] eqn:E; cbn [fmap option_fmap option_map];
    [|reflexivity].
  rewrite <- mk_then_sub, (single_deltas_fit _ _ E). reflexivity.
Qed.
End Facts.

(** C6, on the code.  [parse_relative_date] raises, whatever the
    reference: "9999999999 days ago" makes the [timedelta] constructor at
    line 67 raise OverflowError, and a quantity written with 4301 digits
    makes [int] at line 59 raise ValueError.  The function has no handler
    of its own, so both leave it; its docstring promises a datetime or
    None. *)
Theorem parse_relative_date_raises
    (fromisoformat : string → option datetime) (now : datetime)
    (reference_date : option string) :
  parse_relative_date fromisoformat now "9999999999 days ago" reference_date
  = Raise OverflowError ∧
  parse_relative_date fromisoformat now
    (Examples.long_numeral +:+ " seconds ago") reference_date
  = Raise ValueError.
Proof. split; vm_compute; reflexivity. Qed.

(** C7 (amended).  For every reference instant [T] that lies at least
    the duration after [datetime.min]: "2 weeks ago" resolves to [T]
    minus 14 days, "a month ago" to [T] minus 30 days, "yesterday" to [T]
    minus 1 day, "a year ago" to [T] minus 365 days and "2 years ago" to
    [T] minus 730 days; the empty text and "gibberish" resolve to none for
    every [T]. *)
Theorem parse_relative_date_examples
    (fromisoformat : string → option datetime) (now : datetime)
    (reference_date : option string) (T : datetime) :
  reference_instant fromisoformat now reference_date = T →
  datetime_ok T →
  (14 * US_PER_DAY <= T →
   parse_relative_date fromisoformat now "2 weeks ago" reference_date
   = Ok (Some (T - 14 * US_PER_DAY))) ∧
  (30 * US_PER_DAY <= T →
   parse_relative_date fromisoformat now "a month ago" reference_date
   = Ok (Some (T - 30 * US_PER_DAY))) ∧
  (1 * US_PER_DAY <= T →
   parse_relative_date fromisoformat now "yesterday" reference_date
   = Ok (Some (T - 1 * US_PER_DAY))) ∧
  (365 * US_PER_DAY <= T →
   parse_relative_date fromisoformat now "a year ago" reference_date
   = Ok (Some (T - 365 * US_PER_DAY))) ∧
  (730 * US_PER_DAY <= T →
   parse_relative_date fromisoformat now "2 years ago" reference_date
   = Ok (Some (T - 730 * US_PER_DAY))) ∧
  parse_relative_date fromisoformat now "" reference_date = Ok None ∧
  parse_relative_date fromisoformat now "gibberish" reference_date = Ok None.
Proof.
  intros HT Hok.
  assert (Hres : ∀ days, 0 <= days <= 999999999 → days * US_PER_DAY <= T →
            resolved T (days * US_PER_DAY) = Ok (Some (T - days * US_PER_DAY))).
  { intros days Hd Hle. unfold resolved, in_range, timedelta_fits.
    destruct Hok as [H0 H1].
    assert (HU : 0 < US_PER_DAY) by reflexivity.
    rewrite Z.div_mul by lia.
    replace (-999999999 <=? days) with true by (symmetry; apply Z.leb_le; lia).
    replace (days <=? 999999999) with true by (symmetry; apply Z.leb_le; lia).
    replace (0 <=? T - days * US_PER_DAY) with true
      by (symmetry; apply Z.leb_le; lia).
    replace (T - days * US_PER_DAY <=? DATETIME_MAX) with true
      by (symmetry; apply Z.leb_le; nia).
    reflexivity. }
  rewrite <- HT in Hok.
  assert (Hrun : ∀ text days,
            String.eqb text "" = false →
            spec_duration (strip (lower text)) = Some (Ok (days * US_PER_DAY)) →
            0 <= days <= 999999999 → days * US_PER_DAY <= T →
            parse_relative_date fromisoformat now text reference_date
            = Ok (Some (T - days * US_PER_DAY))).
  { intros text days Hne Hd Hdays Hle.
    rewrite parse_relative_date_spec by exact Hok.
    rewrite Hne, Hd, HT. apply Hres; assumption. }
  repeat split; try intros Hle;
    try (apply Hrun; [reflexivity | vm_compute; reflexivity | lia | exact Hle]);
    rewrite parse_relative_date_spec by exact Hok; vm_compute; reflexivity.
Qed.

Lemma parse_relative_date_examples_witness :
  parse_relative_date Examples.iso_min Examples.NOON "2 weeks ago" None
  = Ok (Some (Examples.NOON - 14 * US_PER_DAY)).
Proof.
  refine (proj1 (parse_relative_date_examples Examples.iso_min Examples.NOON
                   None Examples.NOON _ _) _).
  - reflexivity.
  - vm_compute. split; discriminate.
  - vm_compute. discriminate.
Defined.

(** C7, as stated for every reference instant, fails at [datetime.min]:
    the day before it is out of range. *)
Lemma parse_relative_date_before_min :
  reference_instant Examples.iso_min Examples.NOON
    (Some "0001-01-01T00:00:00"%string) = 0 ∧
  parse_relative_date Examples.iso_min Examples.NOON "yesterday"
    (Some "0001-01-01T00:00:00"%string) = Raise OverflowError.
Proof. split; vm_compute; reflexivity. Qed.

End ResolverProofs.

(* ===================================================================== *)
(** * The decoder                                                         *)
(* ===================================================================== *)
Module DecoderProofs.
Import Py Re TimeUtils Host Parser Effects.

(** ** The guards, on a list *)

Lemma has_truthy_list l i :
  has_truthy (VList l) i =
  Ok (match l !! i with Some x => truthy x | None => false end).
Proof.
  unfold has_truthy, and_then, mbind, result_bind, py_len, py_index.
  destruct (l !! i) as [x|] eqn:E.
  - apply lookup_lt_Some in E. apply Nat.ltb_lt in E. rewrite E. reflexivity.
  - apply lookup_ge_None in E. apply Nat.ltb_ge in E. rewrite E. reflexivity.
Qed.

Lemma has_list_list l i :
  has_list (VList l) i =
  Ok (match l !! i with Some x => is_list x | None => false end).
Proof.
  unfold has_list, and_then, mbind, result_bind, py_len, py_index.
  destruct (l !! i) as [x|] eqn:E.
  - apply lookup_lt_Some in E. apply Nat.ltb_lt in E. rewrite E. reflexivity.
  - apply lookup_ge_None in E. apply Nat.ltb_ge in E. rewrite E. reflexivity.
Qed.

Lemma has_list_longer_list l i j :
  has_list_longer (VList l) i j =
  Ok (match l !! i with
      | Some (VList a) => (j <? length a)%nat
      | _ => false
      end).
Proof.
  unfold has_list_longer, and_then. rewrite has_list_list.
  unfold mbind, result_bind, py_len, py_index.
  destruct (l !! i) as [[]|]; reflexivity.
Qed.

Lemma py_index_list l i :
  py_index (VList l) i =
  match l !! i with Some x => Ok x | None => Raise IndexError end.
Proof. reflexivity. Qed.

(** ** [str] of a truthy value is not empty *)

Lemma pretty_N_go_nonempty x s : s ≠ EmptyString → pretty_N_go x s ≠ EmptyString.
Proof.
  revert s. induction (N.lt_wf_0 x) as [x _ IH]; intros s Hs.
  destruct (decide (0 < x)%N) as [Hx|Hx].
  - rewrite pretty_N_go_step by exact Hx. apply IH.
    + apply N.div_lt; lia.
    + discriminate.
  - assert (x = 0%N) as -> by lia. rewrite pretty_N_go_0. exact Hs.
Qed.

Lemma pretty_positive_nonempty (p : positive) : pretty p ≠ EmptyString.
Proof.
  unfold pretty, pretty_positive, pretty, pretty_N.
  destruct (decide (N.pos p = 0%N)); [discriminate|].
  rewrite pretty_N_go_step by lia. apply pretty_N_go_nonempty. discriminate.
Qed.

Lemma pretty_Z_nonempty (z : Z) : pretty z ≠ EmptyString.
Proof.
  destruct z as [|p|p]; unfold pretty, pretty_Z.
  - discriminate.
  - apply pretty_positive_nonempty.
  - discriminate.
Qed.

Lemma py_str_truthy repr_float repr_str x :
  (∀ f, repr_float f ≠ EmptyString) →
  truthy x = true → py_str repr_float repr_str x ≠ EmptyString.
Proof.
  intros Hf Hx. destruct x as [|b|z|f|s|l|d]; cbn in *.
  - discriminate.
  - destruct b; discriminate.
  - apply pretty_Z_nonempty.
  - apply Hf.
  - destruct (String.eqb_spec s ""); [discriminate | assumption].
  - discriminate.
  - discriminate.
Qed.

(** C8.  For every envelope (a JSON array), [extract_pagination_token]
    returns the [str] of the second element when that element is present
    and truthy, and it returns the empty string exactly when the envelope
    has fewer than two elements or its second element is falsy. *)
Theorem extract_pagination_token_envelope (H : host) (l : list value) :
  (∀ f, repr_float H f ≠ EmptyString) →
  (∀ x, l !! 1 = Some x → truthy x = true →
     extract_pagination_token H (VList l)
     = Ok (py_str (repr_float H) (repr_str H) x)) ∧
  (extract_pagination_token H (VList l) = Ok EmptyString ↔
   (length l < 2 ∨ ∃ x, l !! 1 = Some x ∧ truthy x = false)).
Proof.
  intros Hf. unfold extract_pagination_token.
  rewrite has_truthy_list, py_index_list. cbn.
  destruct (l !! 1) as [x|] eqn:E.
  - destruct (truthy x) eqn:Ht; cbn.
    + split; [intros ? [= <-] _; reflexivity|]. split.
      * intros [= Hs]. exfalso. exact (py_str_truthy _ _ x Hf Ht Hs).
      * intros [Hlen | (y & [= <-] & Hy)].
        -- apply lookup_lt_Some in E. lia.
        -- congruence.
    + split; [intros ? [= <-] ?; congruence|]. split; [|reflexivity].
      intros _. right. eauto.
  - split; [discriminate|]. split; [|reflexivity].
    intros _. left. apply lookup_ge_None in E. lia.
Qed.

(** ** Running statements *)

Lemma run_bind {A B} (m : M A) (f : A → M B) r r' a :
  m r = (r', Ok a) → (m ≫= f) r = f a r'.
Proof. intros E. unfold mbind, M_bind. rewrite E. reflexivity. Qed.

Lemma run_bind_raise {A B} (m : M A) (f : A → M B) r r' e :
  m r = (r', Raise e) → (m ≫= f) r = (r', Raise e).
Proof. intros E. unfold mbind, M_bind. rewrite E. reflexivity. Qed.

Lemma fst_try_pass m catches r : fst (try_pass m catches r) = fst (m r).
Proof.
  unfold try_pass. destruct (m r) as [r' [a|e]]; [reflexivity|].
  destruct (catches e); reflexivity.
Qed.

(** ** Fields that a statement leaves alone *)

Section Keeps.
Context {B : Type} (proj : review → B).

Lemma keeps_ret {A} (a : A) : keeps proj (mret a).
Proof. intros r. reflexivity. Qed.

Lemma keeps_lift {A} (x : result A) : keeps proj (lift x).
Proof. intros r. reflexivity. Qed.

Lemma keeps_read : keeps proj read.
Proof. intros r. reflexivity. Qed.

Lemma keeps_assign f : (∀ r, proj (f r) = proj r) → keeps proj (assign f).
Proof. intros Hf r. apply Hf. Qed.

Lemma keeps_bind {A C} (m : M A) (f : A → M C) :
  keeps proj m → (∀ a, keeps proj (f a)) → keeps proj (m ≫= f).
Proof.
  intros Hm Hf r. unfold mbind, M_bind.
  specialize (Hm r). destruct (m r) as [r' [a|e]]; cbn in *.
  - rewrite Hf. exact Hm.
  - exact Hm.
Qed.

Lemma keeps_when c m : keeps proj m → keeps proj (when c m).
Proof. intros Hm. destruct c; [exact Hm | apply keeps_ret]. Qed.

Lemma keeps_try_pass m catches : keeps proj m → keeps proj (try_pass m catches).
Proof. intros Hm r. rewrite fst_try_pass. apply Hm. Qed.

(** What follows a statement does not touch the field. *)
Lemma keeps_after {A C} (m : M A) (f : A → M C) r :
  (∀ a, keeps proj (f a)) → proj (fst ((m ≫= f) r)) = proj (fst (m r)).
Proof.
  intros Hf. unfold mbind, M_bind.
  destruct (m r) as [r' [a|e]]; cbn; [apply Hf | reflexivity].
Qed.
End Keeps.

Ltac keeps_step :=
  first
    [ apply keeps_bind; [|intros ?]
    | apply keeps_when
    | apply keeps_try_pass
    | apply keeps_lift
    | apply keeps_read
    | apply keeps_ret
    | apply keeps_assign; intros ?; reflexivity
    | match goal with
      | |- keeps _ (match ?x with _ => _ end) => destruct x
      | |- keeps _ (let _ := _ in _) => cbv zeta
      end ].
Ltac keeps_tac := repeat keeps_step.

Section Untouched.
Context (H : host) (now : datetime).
Context {B : Type} (proj : review → B).
(** [proj] is none of the eleven assigned keys but, possibly,
    [review_id]. *)
Hypothesis Hproj : ∀ r,
  (∀ v, proj (set_user_name v r) = proj r) ∧
  (∀ v, proj (set_user_url v r) = proj r) ∧
  (∀ v, proj (set_user_reviews v r) = proj r) ∧
  (∀ v, proj (set_rating v r) = proj r) ∧
  (∀ v, proj (set_relative_date v r) = proj r) ∧
  (∀ v, proj (set_text v r) = proj r) ∧
  (∀ v, proj (set_text_date v r) = proj r) ∧
  (∀ v, proj (set_response_text v r) = proj r) ∧
  (∀ v, proj (set_response_relative_date v r) = proj r) ∧
  (∀ v, proj (set_response_text_date v r) = proj r).

Ltac untouched :=
  repeat first
    [ keeps_step
    | apply keeps_assign; intros r0; apply (Hproj r0) ].

Lemma user_info_block_keeps ui : keeps proj (user_info_block H ui).
Proof using Hproj. unfold user_info_block. untouched. Qed.




End Untouched.

(** ** The review identifier *)

Section ReviewId.
Context (H : host) (now : datetime).
Local Notation str := (py_str (repr_float H) (repr_str H)).

Lemma review_id_run l :
  review_id (extract_review_data H now (VList l)) =
  if (length l <? 2)%nat then EmptyString else spec_review_id H (VList l).
Proof.
  unfold extract_review_data. rewrite fst_try_pass. unfold review_body.
  destruct l as [|a [|b l']]; [reflexivity | reflexivity |].
  change ((length (a :: b :: l') <? 2)%nat) with false. cbv iota.
  rewrite (run_bind _ _ _ (initial_result H now) false) by reflexivity.
  cbv iota.
  rewrite has_truthy_list.
  erewrite run_bind by reflexivity.
  rewrite keeps_after by (intros ?; keeps_tac).
  unfold spec_review_id, field_at, str_if_truthy.
  cbn [at_path lookup list_lookup mbind option_bind].
  destruct (truthy a); reflexivity.
Qed.
End ReviewId.

Lemma append_nonempty_r (s t : string) : t ≠ EmptyString → s +:+ t ≠ EmptyString.
Proof. destruct s; [auto | discriminate]. Qed.

Lemma repr_float_demo_nonempty f : Examples.repr_float_demo f ≠ EmptyString.
Proof.
  destruct f as [[]|[]| |s m e]; try discriminate.
  unfold Examples.repr_float_demo. apply append_nonempty_r.
  repeat match goal with |- context [if ?c then _ else _] => destruct c end;
    repeat apply append_nonempty_r; first [discriminate | apply pretty_Z_nonempty].
Qed.

(** C5 (amended).  For every raw review array of at least two elements
    whose element at index 0 is truthy, [extract_review_data] returns a
    record whose [review_id] is the [str] of that element; [review_id] is
    the empty string exactly when the array has fewer than two elements or
    its element at index 0 is falsy. *)
Theorem review_id_of_array (H : host) (now : datetime) (l : list value) :
  (∀ f, repr_float H f ≠ EmptyString) →
  (∀ x, 2 ≤ length l → l !! 0 = Some x → truthy x = true →
     review_id (extract_review_data H now (VList l))
     = py_str (repr_float H) (repr_str H) x) ∧
  (review_id (extract_review_data H now (VList l)) = EmptyString ↔
   (length l < 2 ∨ ∃ x, l !! 0 = Some x ∧ truthy x = false)).
Proof.
  intros Hf. rewrite review_id_run. unfold spec_review_id, field_at, str_if_truthy.
  destruct (Nat.ltb_spec (length l) 2) as [Hlen|Hlen].
  - split; [intros; lia|]. split; [auto|reflexivity].
  - cbn [at_path mbind option_bind].
    destruct (l !! 0) as [x|] eqn:E.
    + cbn. destruct (truthy x) eqn:Ht; cbn.
      * split; [intros ? _ [= <-] _; reflexivity|]. split.
        -- intros Hs. exfalso. exact (py_str_truthy _ _ x Hf Ht Hs).
        -- intros [? | (y & [= <-] & Hy)]; [lia | congruence].
      * split; [intros ? _ [= <-] ?; congruence|].
        split; [|reflexivity]. intros _. right. eauto.
    + apply lookup_ge_None in E. lia.
Qed.

Lemma review_id_of_array_witness :
  review_id (extract_review_data Examples.demo Examples.NOON
               (VList [VStr "id1"; VNone])) = "id1"%string.
Proof.
  refine (proj1 (review_id_of_array Examples.demo Examples.NOON
                   [VStr "id1"; VNone] _) (VStr "id1") _ _ _).
  - exact repr_float_demo_nonempty.
  - cbn. lia.
  - reflexivity.
  - reflexivity.
Defined.

(** C5, as stated, fails on an array of one element: index 0 is present
    and truthy, and [review_id] stays empty. *)
Lemma review_id_single_element :
  [VStr "id1"] !! 0 = Some (VStr "id1") ∧
  truthy (VStr "id1") = true ∧
  review_id (extract_review_data Examples.demo Examples.NOON
               (VList [VStr "id1"])) = EmptyString.
Proof. repeat split. Qed.

(** ** Statements that complete: their effect on the dictionary *)

Lemma runs_ret : runs (mret tt) (fun r => r).
Proof. intros r. reflexivity. Qed.

(** [c = guard; if c: s] followed by [k], as the blocks are written. *)
Lemma runs_then {A} (m : M A) (s : A → M unit) k F G :
  runs (m ≫= s) F → runs k G →
  runs (a ← m; (s a ;; k)) (fun r => G (F r)).
Proof.
  intros Hm Hk r. specialize (Hm r). unfold mbind, M_bind in *.
  destruct (m r) as [r1 [a|e]]; [|discriminate].
  rewrite Hm. apply Hk.
Qed.

Lemma at_path_app p q v : at_path (p ++ q) v = at_path p v ≫= at_path q.
Proof.
  revert v. induction p as [|i p IH]; intros v; [reflexivity|].
  cbn [app at_path]. destruct v; try reflexivity.
  destruct (_ !! i) as [x|]; cbn; [apply IH | reflexivity].
Qed.

Lemma at_path_under p q root v :
  at_path p root = Some v → at_path (p ++ q) root = at_path q v.
Proof. intros Hp. rewrite at_path_app, Hp. reflexivity. Qed.

Lemma at_path_under_none p q root :
  at_path p root = None → at_path (p ++ q) root = None.
Proof. intros Hp. rewrite at_path_app, Hp. reflexivity. Qed.

Lemma at_path_not_list i q v :
  is_list v = false → at_path (i :: q) v = None.
Proof. destruct v; [reflexivity..|discriminate|reflexivity]. Qed.

(** A key with its getter and setter. *)
Section Key.
Context {A : Type} (get : review → A) (set : A → review → review).
Hypothesis set_get : ∀ r, set (get r) r = r.

Lemma put_none r : put get set None r = r.
Proof using set_get. apply set_get. Qed.

Context (root : value) (p : list nat) (l : list value).
Hypothesis Hp : at_path p root = Some (VList l).

(** [if len(v) > i and v[i]: result[key] = g(v[i])] *)
Lemma runs_truthy_assign i (g : value → A) :
  runs (c ← lift (has_truthy (VList l) i);
        when c (x ← lift (py_index (VList l) i); assign (set (g x))))
       (put get set (at_path (p ++ [i]) root
                       ≫= λ x, if truthy x then Some (g x) else None)).
Proof using set_get Hp.
  intros r. rewrite (at_path_under _ _ _ _ Hp).
  rewrite has_truthy_list, py_index_list. unfold put. cbn [at_path].
  destruct (l !! i) as [x|]; cbn; [destruct (truthy x); cbn|];
    rewrite ?set_get; reflexivity.
Qed.

(** [if len(v) > i and isinstance(v[i], list) and len(v[i]) > 0:
       k(v[i][0])] where [k] assigns the key or does nothing. *)
Lemma runs_nested i (k : value → M unit) (g : value → option A) :
  (∀ x, at_path (p ++ [i; 0]) root = Some x →
        runs (k x) (put get set (g x))) →
  runs (c ← lift (has_list_longer (VList l) i 0);
        when c (a ← lift (py_index (VList l) i);
                x ← lift (py_index a 0); k x))
       (put get set (at_path (p ++ [i; 0]) root ≫= g)).
Proof using set_get Hp.
  rewrite (at_path_under _ _ _ _ Hp).
  intros Hk r. rewrite has_list_longer_list, py_index_list. unfold put.
  cbn [at_path] in *. destruct (l !! i) as [[| | | | |a|]|]; cbn in *;
    rewrite ?set_get; try reflexivity.
  destruct a as [|x a]; cbn in *; rewrite ?set_get; [reflexivity|].
  apply Hk. reflexivity.
Qed.

Lemma runs_assign_some (a : A) : runs (assign (set a)) (put get set (Some a)).
Proof. intros r. reflexivity. Qed.

Lemma runs_skip : runs (mret tt) (put get set None).
Proof using set_get. intros r. rewrite put_none. reflexivity. Qed.
End Key.

Section TextKey.
Context (get : review → string) (set : string → review → review).
Hypothesis set_get : ∀ r, set (get r) r = r.
Context (root : value) (p : list nat) (l : list value).
Hypothesis Hp : at_path p root = Some (VList l).

(** Lines 190-198 and 220-231: a text under two arrays. *)
Lemma runs_body i :
  runs (c ← lift (has_list_longer (VList l) i 0);
        when c (a ← lift (py_index (VList l) i);
                container ← lift (py_index a 0);
                c ← lift (and_then (Ok (is_list container))
                            (n ← py_len container; Ok (0 <? n)%nat));
                when c (x ← lift (py_index container 0);
                        match x with
                        | VStr s => assign (set s)
                        | _ => mret tt
                        end)))
       (put get set (at_path (p ++ [i; 0; 0]) root ≫= string_of)).
Proof using set_get Hp.
  intros r. rewrite (at_path_under _ _ _ _ Hp).
  rewrite has_list_longer_list, py_index_list. unfold put.
  cbn [at_path]. destruct (l !! i) as [[| | | | |a|]|]; cbn;
    rewrite ?set_get; try reflexivity.
  destruct a as [|container a]; cbn; rewrite ?set_get; [reflexivity|].
  destruct container as [| | | | |c|]; cbn; rewrite ?set_get; try reflexivity.
  destruct c as [|x c]; cbn; rewrite ?set_get; [reflexivity|].
  destruct x; cbn; rewrite ?set_get; reflexivity.
Qed.
End TextKey.

Section DateKey.
Context (H : host).
Context (get : review → option string) (set : option string → review → review).
Hypothesis set_get : ∀ r, set (get r) r = r.
Context (root : value) (p : list nat) (l : list value).
Hypothesis Hp : at_path p root = Some (VList l).

(** Lines 133-141 and 205-213: a timestamp, its conversion guarded. *)
Lemma runs_stamp i :
  stamp_contained H (at_path (p ++ [i]) root) →
  runs (c ← lift (has_truthy (VList l) i);
        when c (try_pass
                  (x ← lift (py_index (VList l) i);
                   iso ← lift (timestamp_iso H x);
                   assign (set (Some iso)))
                  conversion_errors))
       (put get set (Some <$> (at_path (p ++ [i]) root ≫= iso_of H))).
Proof using set_get Hp.
  rewrite (at_path_under _ _ _ _ Hp).
  intros Hc r. rewrite has_truthy_list. unfold put, try_pass.
  rewrite py_index_list. cbn [at_path] in *.
  destruct (l !! i) as [x|]; cbn in *; rewrite ?set_get; [|reflexivity].
  unfold iso_of. destruct (truthy x) eqn:Ht; cbn; rewrite ?set_get;
    [|reflexivity].
  cbv [mbind M_bind lift when assign].
  destruct (timestamp_iso H x) as [iso|e] eqn:Ei; cbn; [reflexivity|].
  rewrite (Hc x e eq_refl Ht Ei), set_get. reflexivity.
Qed.
End DateKey.

Lemma set_review_id_get r : set_review_id (review_id r) r = r.
Proof. destruct r; reflexivity. Qed.
Lemma set_user_name_get r : set_user_name (user_name r) r = r.
Proof. destruct r; reflexivity. Qed.
Lemma set_user_url_get r : set_user_url (user_url r) r = r.
Proof. destruct r; reflexivity. Qed.
Lemma set_user_reviews_get r : set_user_reviews (user_reviews r) r = r.
Proof. destruct r; reflexivity. Qed.
Lemma set_rating_get r : set_rating (rating r) r = r.
Proof. destruct r; reflexivity. Qed.
Lemma set_relative_date_get r : set_relative_date (relative_date r) r = r.
Proof. destruct r; reflexivity. Qed.
Lemma set_text_get r : set_text (text r) r = r.
Proof. destruct r; reflexivity. Qed.
Lemma set_text_date_get r : set_text_date (text_date r) r = r.
Proof. destruct r; reflexivity. Qed.
Lemma set_response_text_get r : set_response_text (response_text r) r = r.
Proof. destruct r; reflexivity. Qed.
Lemma set_response_relative_date_get r :
  set_response_relative_date (response_relative_date r) r = r.
Proof. destruct r; reflexivity. Qed.
Lemma set_response_text_date_get r :
  set_response_text_date (response_text_date r) r = r.
Proof. destruct r; reflexivity. Qed.

(** ** The blocks *)

Lemma closed_at_none root p : at_path p root = None → closed_at root p.
Proof. intros Hp i q. apply at_path_under_none, Hp. Qed.

Lemma closed_at_not_list root p v :
  at_path p root = Some v → is_list v = false → closed_at root p.
Proof.
  intros Hp Hv i q. rewrite (at_path_under _ _ _ _ Hp).
  apply at_path_not_list, Hv.
Qed.

Lemma closed_at_app root p q : closed_at root p → closed_at root (p ++ q).
Proof.
  intros Hc i q'. rewrite <- app_assoc.
  destruct q as [|j q]; cbn [app]; apply Hc.
Qed.

Section Blocks.
Context (H : host).
Local Notation str := (py_str (repr_float H) (repr_str H)).

Lemma user_info_effect_skip root p r :
  closed_at root p → user_info_effect H root p r = r.
Proof.
  intros Hc. unfold user_info_effect, put. rewrite !Hc. cbn.
  destruct r; reflexivity.
Qed.

Lemma user_info_block_runs root p ui :
  at_path p root = Some ui →
  count_converts H (at_path (p ++ [10; 0]) root) →
  runs (user_info_block H ui) (user_info_effect H root p).
Proof.
  intros Hp Hcount. destruct (is_list ui) eqn:Hl.
  2:{ intros r. unfold user_info_block. rewrite Hl.
      rewrite user_info_effect_skip by eauto using closed_at_not_list.
      reflexivity. }
  destruct ui as [| | | | |l|]; try discriminate.
  unfold user_info_block, user_info_effect. cbn [is_list when].
  refine (runs_then _ _ _
            (put user_name set_user_name _)
            (fun r => put user_reviews set_user_reviews _
                        (put user_url set_user_url _ r)) _ _).
  { apply (runs_truthy_assign user_name set_user_name set_user_name_get
             root p l Hp 0 (fun x => str x)). }
  refine (runs_then _ _ _
            (put user_url set_user_url _)
            (put user_reviews set_user_reviews _) _ _).
  { apply (runs_nested user_url set_user_url set_user_url_get
             root p l Hp 2 _ (str_of H)).
    intros x _. apply runs_assign_some. }
  apply (runs_nested user_reviews set_user_reviews set_user_reviews_get
           root p l Hp 10 _ (count_in H)).
  intros x Hx. cbv zeta. unfold count_in.
  destruct (search _ _) as [m|] eqn:E; cbn [mbind option_bind].
  - destruct (Hcount x m Hx E) as [n Hn]. rewrite Hn.
    intros r. reflexivity.
  - apply (runs_skip user_reviews set_user_reviews set_user_reviews_get).
Qed.

Lemma metadata_effect_skip root p r :
  closed_at root p → metadata_effect H root p r = r.
Proof.
  intros Hc. unfold metadata_effect.
  rewrite user_info_effect_skip by (apply closed_at_app, Hc).
  unfold put. rewrite !Hc. cbn. destruct r; reflexivity.
Qed.

Lemma metadata_block_runs root p l :
  at_path p root = Some (VList l) →
  stamp_contained H (at_path (p ++ [2]) root) →
  count_converts H (at_path (p ++ [4; 5; 10; 0]) root) →
  runs (metadata_block H (VList l)) (metadata_effect H root p).
Proof.
  intros Hp Hc Hcount. unfold metadata_block, metadata_effect.
  refine (runs_then _ _ _
            (put text_date set_text_date _)
            (fun r => put relative_date set_relative_date _
                        (user_info_effect H root (p ++ [4; 5]) r)) _ _).
  { apply (runs_stamp H text_date set_text_date set_text_date_get
             root p l Hp 2 Hc). }
  refine (runs_then _ _ _
            (user_info_effect H root (p ++ [4; 5]))
            (put relative_date set_relative_date _) _ _).
  2:{ apply (runs_truthy_assign relative_date set_relative_date
               set_relative_date_get root p l Hp 6 (fun x => str x)). }
  intros r.
  assert (Hu : at_path (p ++ [4; 5]) root = at_path [4; 5] (VList l))
    by (apply at_path_under, Hp).
  cbn [at_path] in Hu.
  rewrite has_list_longer_list, py_index_list.
  destruct (l !! 4) as [v4|] eqn:E4;
    [destruct (is_list v4) eqn:L4|].
  - destruct v4 as [| | | | |a|]; try discriminate.
    cbn [mbind option_bind] in Hu.
    destruct (a !! 5) as [ui|] eqn:E5; cbn [mbind option_bind] in Hu.
    + apply lookup_lt_Some in E5 as Hlt. apply Nat.ltb_lt in Hlt.
      rewrite Hlt. cbv [mbind M_bind lift when].
      rewrite py_index_list, E5.
      apply (user_info_block_runs root (p ++ [4; 5]) ui Hu).
      rewrite <- app_assoc. exact Hcount.
    + apply lookup_ge_None in E5 as Hge. apply Nat.ltb_ge in Hge.
      rewrite Hge.
      rewrite user_info_effect_skip by (apply closed_at_none, Hu).
      reflexivity.
  - assert (at_path (p ++ [4; 5]) root = None) as Hn
      by (rewrite Hu; destruct v4; try reflexivity; discriminate).
    rewrite user_info_effect_skip by (apply closed_at_none, Hn).
    destruct v4; try reflexivity; discriminate.
  - rewrite user_info_effect_skip by (apply closed_at_none, Hu).
    reflexivity.
Qed.
End Blocks.

Section MoreBlocks.
Context (H : host).
Local Notation str := (py_str (repr_float H) (repr_str H)).

Lemma content_effect_skip root p r :
  closed_at root p → content_effect root p r = r.
Proof.
  intros Hc. unfold content_effect, put. rewrite !Hc. cbn.
  destruct r; reflexivity.
Qed.

Lemma content_block_runs root p l :
  at_path p root = Some (VList l) →
  rating_converts (at_path (p ++ [0; 0]) root) →
  runs (content_block (VList l)) (content_effect root p).
Proof.
  intros Hp Hc. unfold content_block, content_effect.
  refine (runs_then _ _ _
            (put rating set_rating _) (put text set_text _) _ _).
  - apply (runs_nested rating set_rating set_rating_get
             root p l Hp 0 _ number_of).
    intros x Hx. unfold number_of.
    destruct (is_number x) eqn:Hn; cbn [when].
    + destruct (Hc x Hx Hn) as [f Hf]. rewrite Hf. intros r. reflexivity.
    + apply (runs_skip rating set_rating set_rating_get).
  - apply (runs_body text set_text set_text_get root p l Hp 15).
Qed.

Lemma response_effect_skip root p r :
  closed_at root p → response_effect H root p r = r.
Proof.
  intros Hc. unfold response_effect, put. rewrite !Hc. cbn.
  destruct r; reflexivity.
Qed.

Lemma response_block_runs root p l :
  at_path p root = Some (VList l) →
  stamp_contained H (at_path (p ++ [1]) root) →
  runs (response_block H (VList l)) (response_effect H root p).
Proof.
  intros Hp Hc. unfold response_block, response_effect.
  refine (runs_then _ _ _
            (put response_text_date set_response_text_date _)
            (fun r => put response_text set_response_text _
                        (put response_relative_date
                             set_response_relative_date _ r)) _ _).
  { apply (runs_stamp H response_text_date set_response_text_date
             set_response_text_date_get root p l Hp 1 Hc). }
  refine (runs_then _ _ _
            (put response_relative_date set_response_relative_date _)
            (put response_text set_response_text _) _ _).
  - apply (runs_truthy_assign response_relative_date
             set_response_relative_date set_response_relative_date_get
             root p l Hp 3 (fun x => str x)).
  - apply (runs_body response_text set_response_text set_response_text_get
             root p l Hp 14).
Qed.

(** [if len(v) > i and isinstance(v[i], list): block(v[i])] *)
Lemma runs_block_guard l i (block : value → M unit) (E : review → review) :
  (∀ lm, l !! i = Some (VList lm) → runs (block (VList lm)) E) →
  ((∀ lm, l !! i ≠ Some (VList lm)) → ∀ r, E r = r) →
  runs (c ← lift (has_list (VList l) i);
        when c (x ← lift (py_index (VList l) i); block x)) E.
Proof.
  intros Hb Hs r. rewrite has_list_list, py_index_list.
  destruct (l !! i) as [v|] eqn:Ev; [destruct (is_list v) eqn:Lv|].
  - destruct v; try discriminate. apply (Hb _ eq_refl).
  - rewrite Hs; [reflexivity|]. intros lm [= ->]. discriminate.
  - rewrite Hs; [reflexivity|]. discriminate.
Qed.

Context (now : datetime).

Lemma fallback_block_run r :
  retrieval_date r = str_datetime H now →
  fallback_block H now r = (fallback_effect H now r, Ok tt).
Proof.
  intros Hr. unfold fallback_block, fallback_effect, date_from.
  assert (Hstep : ∀ (get : review → option string) set rel r0,
            (∀ r1, set (get r1) r1 = r1) →
            try_pass
              (parsed_date ← lift (parse_relative_date (fromisoformat H) now
                                     rel (Some (str_datetime H now)));
               match parsed_date with
               | Some d => assign (set (Some (isoformat H d)))
               | None => mret tt
               end) any_exception r0
            = (set match parse_relative_date (fromisoformat H) now rel
                           (Some (str_datetime H now)) with
                   | Ok (Some d) => Some (isoformat H d)
                   | _ => get r0
                   end r0, Ok tt)).
  { intros get set rel r0 Hid. unfold try_pass. cbv [mbind M_bind lift].
    destruct (parse_relative_date _ _ _ _) as [[d|]|e]; cbn;
      rewrite ?Hid; reflexivity. }
  erewrite (run_bind read) by reflexivity. rewrite Hr.
  set (r1 := set_text_date _ r).
  assert (Hr1 : retrieval_date r1 = str_datetime H now) by exact Hr.
  assert (H1 : when (negb (String.eqb (relative_date r) "")
                     && negb (date_set (text_date r)))
                 (try_pass
                    (parsed_date ← lift (parse_relative_date (fromisoformat H)
                                           now (relative_date r)
                                           (Some (str_datetime H now)));
                     match parsed_date with
                     | Some d => assign (set_text_date (Some (isoformat H d)))
                     | None => mret tt
                     end) any_exception) r = (r1, Ok tt)).
  { subst r1. destruct (negb _ && negb _); cbn [when].
    - apply (Hstep text_date set_text_date _ _ set_text_date_get).
    - rewrite set_text_date_get. reflexivity. }
  erewrite run_bind by exact H1.
  erewrite (run_bind read) by reflexivity. rewrite Hr1. cbv zeta.
  fold r1.
  destruct (negb (String.eqb (response_relative_date r1) "")
            && negb (date_set (response_text_date r1))); cbn [when].
  - apply (Hstep response_text_date set_response_text_date _ _
             set_response_text_date_get).
  - rewrite set_response_text_date_get. reflexivity.
Qed.
End MoreBlocks.

(** ** The whole body *)

Lemma run_then {A} (m : M A) (s : A → M unit) {B} (k : M B) F r :
  runs (m ≫= s) F → (a ← m; (s a ;; k)) r = k (F r).
Proof.
  intros Hm. specialize (Hm r). unfold mbind, M_bind in *.
  destruct (m r) as [r1 [a|e]]; [|discriminate].
  rewrite Hm. reflexivity.
Qed.

Lemma closed_unless_list l i :
  (∀ lm, l !! i ≠ Some (VList lm)) → closed_at (VList l) [i].
Proof.
  intros Hn. destruct (l !! i) as [v|] eqn:E.
  - apply (closed_at_not_list _ _ v).
    + cbn. rewrite E. reflexivity.
    + destruct v; try reflexivity. exfalso. exact (Hn _ eq_refl).
  - apply closed_at_none. cbn. rewrite E. reflexivity.
Qed.

Lemma at_index l i lm :
  l !! i = Some (VList lm) → at_path [i] (VList l) = Some (VList lm).
Proof. intros E. cbn. rewrite E. reflexivity. Qed.

Lemma default_some_fmap {A} (o : option A) : default None (Some <$> o) = o.
Proof. destruct o; reflexivity. Qed.

Section Whole.
Context (H : host) (now : datetime).
Local Notation str := (py_str (repr_float H) (repr_str H)).

Lemma review_body_run l :
  2 ≤ length l → conversions_contained H (VList l) →
  count_converts H (at_path [1; 4; 5; 10; 0] (VList l)) →
  review_body H now (VList l) (initial_result H now)
  = (body_effect H now (VList l) (initial_result H now), Ok tt).
Proof.
  intros Hlen (Hs1 & Hrt & Hs3) Hcount. unfold review_body.
  rewrite (run_bind _ _ _ (initial_result H now) false).
  2:{ destruct l as [|a [|b l']]; cbn in Hlen; try lia. reflexivity. }
  cbv iota. set (root := VList l) in *.
  rewrite (run_then _ _ _
             (put review_id set_review_id (at_path [0] root ≫= str_if_truthy H))).
  2:{ apply (runs_truthy_assign review_id set_review_id set_review_id_get
               root [] l eq_refl 0 (fun x => str x)). }
  rewrite (run_then _ _ _ (metadata_effect H root [1])).
  2:{ apply runs_block_guard.
      - intros lm E.
        apply metadata_block_runs; [apply at_index, E | exact Hs1 | exact Hcount].
      - intros Hn r. apply metadata_effect_skip, closed_unless_list, Hn. }
  rewrite (run_then _ _ _ (content_effect root [2])).
  2:{ apply runs_block_guard.
      - intros lm E. apply content_block_runs; [apply at_index, E | exact Hrt].
      - intros Hn r. apply content_effect_skip, closed_unless_list, Hn. }
  rewrite (run_then _ _ _ (response_effect H root [3])).
  2:{ apply runs_block_guard.
      - intros lm E. apply response_block_runs; [apply at_index, E | exact Hs3].
      - intros Hn r. apply response_effect_skip, closed_unless_list, Hn. }
  apply fallback_block_run. reflexivity.
Qed.

Lemma body_effect_initial raw :
  body_effect H now raw (initial_result H now) = spec_review H now raw.
Proof.
  unfold body_effect, fallback_effect, response_effect, content_effect,
    metadata_effect, user_info_effect, put, spec_review.
  cbn -[at_path date_from].
  rewrite !default_some_fmap. reflexivity.
Qed.


End Whole.



(** What the record of [full_review] holds. *)
Example full_review_record :
  let r := extract_review_data Examples.demo Examples.NOON Examples.full_review in
  review_id r = "id1"%string ∧
  relative_date r = "2 weeks ago"%string ∧
  rating r = float_of_Z 4 ∧
  text_date r = Some (pretty (Examples.EPOCH + 1700000000 * US_PER_SECOND)%Z).
Proof. vm_compute. repeat split. Qed.


(** Where a conversion does overflow: the division at line 137 raises
    OverflowError, which the handler at line 140 does not list, so the
    outer handler ends the extraction and the fields read later keep their
    defaults although their positions are well formed. *)
Example huge_stamp_loses_rating (H : host) (now : datetime) :
  spec_rating Examples.huge_stamp_review = float_of_Z 4 ∧
  spec_relative_date H Examples.huge_stamp_review = "2 weeks ago"%string ∧
  rating (extract_review_data H now Examples.huge_stamp_review)
  = S754_zero false ∧
  relative_date (extract_review_data H now Examples.huge_stamp_review)
  = EmptyString.
Proof. vm_compute. repeat split. Qed.

(** Where the review count is a numeral that [int] refuses: line 170
    raises ValueError with no handler around it but the outer one, which
    ends the extraction, so the rating and the relative date keep their
    defaults although their positions are well formed. *)
Example long_count_loses_rating (H : host) (now : datetime) :
  spec_rating Examples.long_count_review = float_of_Z 4 ∧
  spec_relative_date H Examples.long_count_review = "2 weeks ago"%string ∧
  user_name (extract_review_data H now Examples.long_count_review)
  = "Ann"%string ∧
  rating (extract_review_data H now Examples.long_count_review)
  = S754_zero false ∧
  relative_date (extract_review_data H now Examples.long_count_review)
  = EmptyString.
Proof. vm_compute. repeat split. Qed.

Lemma extract_pagination_token_envelope_witness :
  extract_pagination_token Examples.demo
    (VList [VNone; VStr "TOKEN123"; VList []]) = Ok "TOKEN123"%string.
Proof.
  refine (proj1 (extract_pagination_token_envelope Examples.demo
                   [VNone; VStr "TOKEN123"; VList []]
                   repr_float_demo_nonempty) (VStr "TOKEN123") _ _);
    reflexivity.
Defined.

(** ** The decoder cannot fail between the cursor and the reviews *)

Lemma string_get_lt (s : string) (i : nat) :
  i < String.length s → ∃ c, String.get i s = Some c.
Proof.
  revert i. induction s as [|a s IH]; intros i Hi; cbn in Hi; [lia|].
  destruct i as [|i]; cbn; [eauto|]. apply IH. lia.
Qed.

Lemma extract_reviews_after_token (H : host) (clock : nat → datetime)
    (data : value) (token : string) :
  extract_pagination_token H data = Ok token →
  ∃ reviews, extract_reviews H clock data = Ok reviews.
Proof.
  destruct data as [| | | |s|l|d]; try discriminate; intros Ht.
  - (* a string *)
    unfold extract_reviews, has_truthy, and_then.
    cbv [py_len py_index mbind result_bind].
    destruct (2 <? String.length s)%nat eqn:E2; [|eauto].
    apply Nat.ltb_lt in E2. destruct (string_get_lt s 2 E2) as [c ->].
    cbn. eauto.
  - (* a list *)
    unfold extract_reviews.
    rewrite has_truthy_list, py_index_list.
    destruct (l !! 2) as [x|]; cbn; [|eauto].
    destruct (truthy x); [|eauto]. destruct x; eauto.
  - (* a dictionary *)
    revert Ht.
    unfold extract_pagination_token, extract_reviews, has_truthy, and_then.
    cbv [py_len py_index mbind result_bind].
    destruct (1 <? length d)%nat eqn:E1; [discriminate|]. intros _.
    apply Nat.ltb_ge in E1.
    assert ((2 <? length d)%nat = false) as -> by (apply Nat.ltb_ge; lia).
    eauto.
Qed.

End DecoderProofs.

(* ===================================================================== *)
(** * The driver                                                          *)
(* ===================================================================== *)
Module DriverProofs.
Import Py Re TimeUtils Host Parser Scraper.

(** ** The sink *)

(** C9.  Calling [_save_to_temp] twice in a row with the same reviews,
    path and format leaves the files as the first call left them: the text
    written is a function of the reviews and the format alone (the JSON
    text of the list; the CSV header and rows when the list is not empty;
    nothing for an empty list in CSV). *)
Theorem save_to_temp_twice (H : host) (reviews : list review)
    (temp_file : string) (fmt : output_format) (fs : gmap string string) :
  _save_to_temp H reviews temp_file fmt
    (_save_to_temp H reviews temp_file fmt fs)
  = _save_to_temp H reviews temp_file fmt fs ∧
  _save_to_temp H reviews temp_file fmt fs !! temp_file
  = match fmt with
    | Json => Some (json_text H reviews)
    | Csv => if Nat.eqb (length reviews) 0 then fs !! temp_file
             else Some (csv_text H reviews)
    end.
Proof.
  unfold _save_to_temp. destruct fmt.
  - split; [apply insert_insert_eq | apply lookup_insert_eq].
  - destruct (Nat.eqb (length reviews) 0); cbn [negb].
    + split; reflexivity.
    + split; [apply insert_insert_eq | apply lookup_insert_eq].
Qed.

(** ** The synchronous wrapper *)




Section Loop.
Context (H : host).
Context (_make_request : nat → string → string → string → result string).
Context (clock : nat → datetime).
Context (self : scraper) (n_reviews : option Z) (hl : string).
Context (fmt : output_format) (output_file : option string).
Context (feature_id : string).

Local Notation attempt := (attempt H _make_request clock hl fmt feature_id).
Local Notation retry_loop :=
  (retry_loop H _make_request clock hl fmt output_file feature_id).
Local Notation page_loop :=
  (page_loop H _make_request clock self n_reviews hl fmt output_file
             feature_id).
Local Notation temp := (temp_file H fmt feature_id).
Local Notation checkpointed := (checkpointed H fmt feature_id).
Local Notation grows := (grows H fmt feature_id).
Local Notation flushed := (flushed H fmt output_file).
Local Notation untouched := (untouched H fmt feature_id).
Local Notation temp_kept := (temp_kept H fmt feature_id).
Local Notation json_checkpointed := (json_checkpointed H fmt feature_id).

Lemma save_lookup reviews path fs :
  reviews ≠ [] →
  _save_to_temp H reviews path fmt fs !! path
  = Some (file_text H fmt reviews).
Proof.
  intros Hne. unfold _save_to_temp, file_text. destruct fmt.
  - apply lookup_insert_eq.
  - destruct reviews; [contradiction|]. apply lookup_insert_eq.
Qed.

Lemma save_final_lookup reviews path fs :
  reviews ≠ [] →
  _save_final_output H reviews path fmt fs !! realpath H path
  = Some (file_text H fmt reviews).
Proof. apply save_lookup. Qed.

Lemma save_final_other reviews path other fs :
  reviews ≠ [] →
  _save_final_output H reviews path fmt fs !! other
  = if decide (realpath H path = other) then Some (file_text H fmt reviews)
    else fs !! other.
Proof.
  intros Hne. case_decide as Hp.
  - subst. apply save_final_lookup, Hne.
  - unfold _save_final_output. destruct fmt.
    + apply lookup_insert_ne, Hp.
    + destruct reviews; [contradiction|]. apply lookup_insert_ne, Hp.
Qed.

Lemma save_keeps reviews path other fs :
  is_Some (fs !! other) →
  is_Some (_save_to_temp H reviews path fmt fs !! other).
Proof.
  intros Hs. unfold _save_to_temp.
  destruct fmt; [|destruct (negb _)]; try exact Hs;
    (destruct (decide (path = other)) as [->|Hne];
     [rewrite lookup_insert_eq; eauto | rewrite lookup_insert_ne; auto]).
Qed.

(** What an attempt can change.  The cursor is never updated without
    the page being stored: once the cursor has been extracted, the
    extraction of the reviews cannot raise. *)
Lemma attempt_cases st :
  (∃ token reviews,
      attempt st = Stored (with_page H fmt feature_id reviews
                             (with_token token (with_request st)))) ∨
  attempt st = Ended (with_request st) ∨
  (∃ e, attempt st = Threw e (with_request st)).
Proof.
  unfold Scraper.attempt.
  destruct (_make_request _ _ _ _) as [response_text|e]; [|eauto 6].
  destruct (parse_response H response_text) as [data|e]; [|eauto 6].
  destruct (if negb (truthy _) then _ else _) as [[|]|e]; [eauto|..|eauto 6].
  destruct (extract_pagination_token _ _) as [token|e] eqn:Et; [|eauto 6].
  destruct (DecoderProofs.extract_reviews_after_token H
              (fun k => clock (length (all_reviews st) + k)) _ _ Et)
    as [reviews ->].
  eauto 8.
Qed.

Lemma attempt_grows st :
  match attempt st with
  | Stored st' | Ended st' | Threw _ st' => grows st st'
  end.
Proof.
  destruct (attempt_cases st) as
    [(token & reviews & ->) | [-> | (e & ->)]];
    try (split; [intros Hc; exact Hc | intros Hs; exact Hs]).
  split.
  - intros _ Hne. cbn in *. apply save_lookup, Hne.
  - intros Hs. cbn in *. apply save_keeps, Hs.
Qed.

Lemma grows_refl st : grows st st.
Proof. split; auto. Qed.

Lemma grows_trans a b c : grows a b → grows b c → grows a c.
Proof. intros [H1 H2] [H3 H4]. split; auto. Qed.

Lemma retry_loop_grows retries st :
  match retry_loop retries st with
  | Exited st' => grows st st'
  | Aborted _ st' => grows st st' ∧ flushed st'
  end.
Proof.
  revert st. induction retries as [|retries IH]; intros st;
    cbn [Scraper.retry_loop]; [apply grows_refl|].
  pose proof (attempt_grows st) as Ha.
  destruct (attempt st) as [st'|st'|e st']; try exact Ha.
  destruct (Nat.eqb retries 0).
  - destruct (output_given output_file) as [p|] eqn:Ep.
    + destruct (all_reviews st') as [|r rs] eqn:Er; cbn [length Nat.eqb negb].
      * split; [exact Ha|]. intros q _ Hne. congruence.
      * assert (Hne : r :: rs ≠ []) by discriminate.
        split; [eapply grows_trans; [exact Ha|]; split|].
        -- intros Hc _. cbn. rewrite save_final_other by exact Hne.
           case_decide; [rewrite ?Er; reflexivity|].
           apply Hc. rewrite Er. exact Hne.
        -- intros Hs. cbn. rewrite save_final_other by exact Hne.
           case_decide; eauto.
        -- intros q Hq _. rewrite Ep in Hq. injection Hq as <-.
           cbn. rewrite ?Er. apply save_final_lookup, Hne.
    + split; [exact Ha|]. intros q Hq. rewrite Ep in Hq. discriminate.
  - specialize (IH st').
    destruct (retry_loop retries st') as [st''|e' st''].
    + eapply grows_trans; eauto.
    + destruct IH as [Hg Hf]. split; [eapply grows_trans; eauto | exact Hf].
Qed.

Lemma page_loop_raised fuel st e st' :
  page_loop fuel st = Raised e st' → grows st st' ∧ flushed st'.
Proof.
  revert st. induction fuel as [|fuel IH]; intros st; cbn [Scraper.page_loop];
    [discriminate|].
  pose proof (retry_loop_grows (Z.to_nat (n_retries self)) st) as Hr.
  destruct (retry_loop _ st) as [st1|e1 st1].
  - unfold finish.
    destruct (target_reached n_reviews st1); [discriminate|].
    destruct (String.eqb (next_page_token st1) ""); [discriminate|].
    intros Hp. destruct (IH _ Hp) as [Hg Hf].
    split; [eapply grows_trans; eauto | exact Hf].
  - intros [= <- <-]. exact Hr.
Qed.

(** A page cycle that ends by exhausting its retries ends the
    invocation with the exception of the last attempt. *)
Lemma page_loop_aborted fuel st e st' :
  retry_loop (Z.to_nat (n_retries self)) st = Aborted e st' →
  page_loop (S fuel) st = Raised e st'.
Proof. intros Hr. cbn [Scraper.page_loop]. rewrite Hr. reflexivity. Qed.

(** A page cycle that ends with the target met ends the invocation. *)
Lemma page_loop_target fuel st st' :
  retry_loop (Z.to_nat (n_retries self)) st = Exited st' →
  target_reached n_reviews st' = true →
  page_loop (S fuel) st = finish H n_reviews fmt output_file feature_id st'.
Proof.
  intros Hr Ht. cbn [Scraper.page_loop]. rewrite Hr, Ht. reflexivity.
Qed.

(** Files other than the temp file. *)
Lemma save_other reviews path other fs :
  path ≠ other → _save_to_temp H reviews path fmt fs !! other = fs !! other.
Proof.
  intros Hne. unfold _save_to_temp.
  destruct fmt; [|destruct (negb _)]; try reflexivity;
    apply lookup_insert_ne, Hne.
Qed.

Lemma attempt_untouched fs0 st :
  untouched fs0 st →
  match attempt st with
  | Stored st' | Ended st' | Threw _ st' => untouched fs0 st'
  end.
Proof.
  intros Hu.
  destruct (attempt_cases st) as
    [(token & reviews & ->) | [-> | (e & ->)]];
    try exact Hu.
  intros Hnil p Hp. cbn in *.
  apply app_eq_nil in Hnil as [Hnil _].
  rewrite save_other by auto. apply Hu; assumption.
Qed.

Lemma retry_loop_untouched fs0 retries st :
  untouched fs0 st → untouched fs0 (cycle_state (retry_loop retries st)).
Proof.
  revert st. induction retries as [|retries IH]; intros st Hu;
    cbn [Scraper.retry_loop]; [exact Hu|].
  pose proof (attempt_untouched fs0 st Hu) as Ha.
  destruct (attempt st) as [st'|st'|e st']; try exact Ha.
  destruct (Nat.eqb retries 0); [|apply IH, Ha].
  destruct (output_given output_file) as [p|]; [|exact Ha].
  destruct (all_reviews st') as [|r rs] eqn:Er; cbn [length Nat.eqb negb];
    [exact Ha|].
  intros Hnil. cbn in Hnil. congruence.
Qed.

Lemma page_loop_raised_untouched fuel st e st' :
  page_loop fuel st = Raised e st' →
  ∀ fs0, untouched fs0 st → untouched fs0 st'.
Proof.
  revert st. induction fuel as [|fuel IH]; intros st; cbn [Scraper.page_loop];
    [discriminate|].
  intros Hp fs0 Hu.
  pose proof (retry_loop_untouched fs0 (Z.to_nat (n_retries self)) st Hu) as Hr.
  destruct (retry_loop _ st) as [st1|e1 st1]; cbn in Hr.
  - unfold finish in Hp.
    destruct (target_reached n_reviews st1); [discriminate|].
    destruct (String.eqb (next_page_token st1) ""); [discriminate|].
    eapply IH; eauto.
  - injection Hp as <- <-. exact Hr.
Qed.

(** The temp file is kept, and in JSON it follows every stored page. *)
Lemma attempt_kept fs0 st :
  temp_kept fs0 st → json_checkpointed st →
  match attempt st with
  | Stored st' | Ended st' | Threw _ st' =>
      temp_kept fs0 st' ∧ json_checkpointed st'
  end.
Proof.
  intros Hk Hj.
  destruct (attempt_cases st) as
    [(token & reviews & ->) | [-> | (e & ->)]];
    try (split; assumption).
  unfold Scraper.temp_kept, Scraper.json_checkpointed.
  cbn [with_page with_token with_request all_reviews disk next_page_token].
  unfold _save_to_temp, file_text. destruct fmt.
  - rewrite lookup_insert_eq. split; [right; reflexivity | reflexivity].
  - split; [|discriminate].
    destruct (all_reviews st ++ reviews) as [|r rs] eqn:Ea;
      cbn [length Nat.eqb negb].
    + apply app_eq_nil in Ea as [Ea _].
      destruct Hk as [Hk|Hk]; [left; exact Hk|].
      right. rewrite Hk, Ea. reflexivity.
    + rewrite lookup_insert_eq. right. reflexivity.
Qed.

Lemma retry_loop_kept fs0 retries st :
  temp_kept fs0 st → json_checkpointed st →
  temp_kept fs0 (cycle_state (retry_loop retries st)) ∧
  json_checkpointed (cycle_state (retry_loop retries st)).
Proof.
  revert st. induction retries as [|retries IH]; intros st Hk Hj;
    cbn [Scraper.retry_loop]; [split; assumption|].
  pose proof (attempt_kept fs0 st Hk Hj) as Ha.
  destruct (attempt st) as [st'|st'|e st']; try exact Ha.
  destruct Ha as [Hk' Hj'].
  destruct (Nat.eqb retries 0); [|apply IH; assumption].
  destruct (output_given output_file) as [p|]; [|split; assumption].
  destruct (all_reviews st') as [|r rs] eqn:Er; cbn [length Nat.eqb negb];
    [split; assumption|].
  assert (Hne : r :: rs ≠ []) by discriminate.
  unfold Scraper.temp_kept, Scraper.json_checkpointed.
  cbn [cycle_state with_disk disk all_reviews next_page_token].
  rewrite Er, save_final_other by exact Hne.
  case_decide as Hp.
  - split; [right; reflexivity | intros ->; reflexivity].
  - rewrite <- Er. split; assumption.
Qed.

Lemma page_loop_raised_kept fuel st e st' :
  page_loop fuel st = Raised e st' →
  ∀ fs0, temp_kept fs0 st → json_checkpointed st →
         temp_kept fs0 st' ∧ json_checkpointed st'.
Proof.
  revert st. induction fuel as [|fuel IH]; intros st; cbn [Scraper.page_loop];
    [discriminate|].
  intros Hp fs0 Hk Hj.
  pose proof (retry_loop_kept fs0 (Z.to_nat (n_retries self)) st Hk Hj) as Hr.
  destruct (retry_loop _ st) as [st1|e1 st1]; cbn in Hr.
  - unfold finish in Hp.
    destruct (target_reached n_reviews st1); [discriminate|].
    destruct (String.eqb (next_page_token st1) ""); [discriminate|].
    destruct Hr. eapply IH; eauto.
  - injection Hp as <- <-. exact Hr.
Qed.
End Loop.

(** ** Retries exhausted *)

(** C4 (amended).  File writes being taken to succeed: a page cycle
    whose retries are exhausted ends the invocation by raising the
    exception of the last attempt.  Whenever an invocation raises, the
    temp file has not been deleted: it is as it was before the invocation
    or holds the text of the accumulator, a temp file that existed is
    still there, it holds exactly the accumulator when reviews are held,
    and in JSON it holds the accumulator (be it empty) as soon as a page
    has been stored and has left its cursor.  If reviews are held and an
    output path was given, the file it denotes holds the accumulator too.
    With no review accumulated nothing is written to the output path. *)
Theorem retries_exhausted_leaves_files (H : host)
    (_make_request : nat → string → string → string → result string)
    (clock : nat → datetime) (self : scraper) (url : string)
    (n_reviews : option Z) (hl : string) (verbose : bool)
    (fmt : output_format) (output_file : option string)
    (fs : gmap string string) (fuel : nat)
    (feature_id : string) (e : exn) (st : state) :
  _parse_url_to_feature_id url = Some feature_id →
  scrape_reviews H _make_request clock self url n_reviews hl verbose fmt
                 output_file fs fuel = Raised e st →
  (∀ fuel' st0 e' st',
     retry_loop H _make_request clock hl fmt output_file feature_id
                (Z.to_nat (n_retries self)) st0 = Aborted e' st' →
     page_loop H _make_request clock self n_reviews hl fmt output_file
               feature_id (S fuel') st0 = Raised e' st') ∧
  (disk st !! temp_file H fmt feature_id = fs !! temp_file H fmt feature_id ∨
   disk st !! temp_file H fmt feature_id
   = Some (file_text H fmt (all_reviews st))) ∧
  (is_Some (fs !! temp_file H fmt feature_id) →
   is_Some (disk st !! temp_file H fmt feature_id)) ∧
  (all_reviews st ≠ [] →
   disk st !! temp_file H fmt feature_id
   = Some (file_text H fmt (all_reviews st))) ∧
  (fmt = Json → next_page_token st ≠ EmptyString →
   disk st !! temp_file H fmt feature_id
   = Some (json_text H (all_reviews st))) ∧
  (∀ p, output_given output_file = Some p → all_reviews st ≠ [] →
        disk st !! realpath H p = Some (file_text H fmt (all_reviews st))) ∧
  (all_reviews st = [] → ∀ q, q ≠ temp_file H fmt feature_id →
        disk st !! q = fs !! q).
Proof.
  intros Hid Hrun. split.
  { intros fuel' st0 e' st' Hr. apply page_loop_aborted, Hr. }
  unfold scrape_reviews in Hrun. rewrite Hid in Hrun.
  destruct (String.eqb feature_id "").
  { injection Hrun as <- <-. cbn.
    repeat split; intros;
      first [assumption | reflexivity | contradiction | left; reflexivity]. }
  pose proof (page_loop_raised_untouched H _make_request clock self n_reviews
                hl fmt output_file feature_id fuel _ _ _ Hrun fs) as Hu.
  pose proof (page_loop_raised_kept H _make_request clock self n_reviews
                hl fmt output_file feature_id fuel _ _ _ Hrun fs) as Hk.
  apply page_loop_raised in Hrun as [[Hc Hs] Hf].
  destruct Hk as [Hk Hj]; [left; reflexivity | intros _ Hne; contradiction|].
  repeat split.
  - exact Hk.
  - exact Hs.
  - apply Hc. intros Hne. contradiction.
  - exact Hj.
  - exact Hf.
  - intros Hnil p Hp. apply Hu; [intros _ q _; reflexivity | assumption..].
Qed.

Lemma retries_exhausted_leaves_files_witness :
  let run := scrape_reviews Examples.demo Examples.flaky_network
               Examples.noon_clock Examples.default_scraper Examples.URL
               None "en" false Json (Some "./out.json"%string) ∅ 3 in
  length (all_reviews (final_state run)) = 1 ∧
  disk (final_state run) !! "out.json"%string
  = Some (file_text Examples.demo Json (all_reviews (final_state run))).
Proof.
  intros run. split; [vm_compute; reflexivity|].
  refine (proj1 (proj2 (proj2 (proj2 (proj2 (proj2
            (retries_exhausted_leaves_files Examples.demo
               Examples.flaky_network Examples.noon_clock
               Examples.default_scraper Examples.URL None "en" false Json
               (Some "./out.json"%string) ∅ 3
               "0x89c25a31ebfbc6bf:0xb80ba2960244e4f4" TransportError
               (final_state run) _ _)))))) "./out.json"%string _ _).
  - vm_compute. reflexivity.
  - vm_compute. reflexivity.
  - reflexivity.
  - vm_compute. discriminate.
Defined.

(** C4, as stated, fails when the first page already exhausts the
    retries: an output path was given, the invocation raises, and nothing
    is written to that path. *)
Lemma nothing_flushed_without_reviews :
  let run := scrape_reviews Examples.demo Examples.down_network
               Examples.noon_clock Examples.default_scraper Examples.URL
               None "en" false Json (Some "out.json"%string) ∅ 3 in
  run = Raised TransportError (final_state run) ∧
  output_given (Some "out.json"%string) = Some "out.json"%string ∧
  all_reviews (final_state run) = [] ∧
  length (requests (final_state run)) = 10 ∧
  disk (final_state run) !! "out.json"%string = None.
Proof. vm_compute. repeat split. Qed.

(** ** The target count *)

(** C3.  For every target count n > 0: when a page cycle ends with at
    least n reviews accumulated, the invocation returns at once, without
    another request, and what it returns is the first n reviews of the
    accumulator in arrival order, exactly n of them. *)
Theorem target_reached_returns (H : host)
    (_make_request : nat → string → string → string → result string)
    (clock : nat → datetime) (self : scraper) (n : Z) (hl : string)
    (fmt : output_format) (output_file : option string) (feature_id : string)
    (fuel : nat) (st st' : state) :
  (0 < n)%Z →
  retry_loop H _make_request clock hl fmt output_file feature_id
             (Z.to_nat (n_retries self)) st = Exited st' →
  (n ≤ Z.of_nat (length (all_reviews st')))%Z →
  ∃ final,
    page_loop H _make_request clock self (Some n) hl fmt output_file
              feature_id (S fuel) st
    = Returned (take (Z.to_nat n) (all_reviews st')) final ∧
    length (take (Z.to_nat n) (all_reviews st')) = Z.to_nat n ∧
    requests final = requests st' ∧
    all_reviews final = all_reviews st'.
Proof.
  intros Hn Hr Hlen.
  assert (Ht : target (Some n) = Some n).
  { unfold target. destruct (Z.eqb_spec n 0); [lia | reflexivity]. }
  rewrite (page_loop_target _ _ _ _ _ _ _ _ _ _ _ st' Hr).
  2:{ unfold target_reached. rewrite Ht. apply Z.leb_le, Hlen. }
  unfold finish. rewrite Ht. unfold slice_to.
  destruct (Z.leb_spec 0 n); [|lia].
  eexists. split; [reflexivity|]. split; [|split; reflexivity].
  rewrite length_take. lia.
Qed.

Lemma target_reached_returns_witness :
  let st' := cycle_state
               (retry_loop Examples.demo Examples.steady_network
                  Examples.noon_clock "en" Json None "0x1:0x2"
                  (Z.to_nat (n_retries Examples.default_scraper))
                  (initial_state ∅)) in
  ∃ final,
    page_loop Examples.demo Examples.steady_network Examples.noon_clock
              Examples.default_scraper (Some 1%Z) "en" Json None "0x1:0x2"
              1 (initial_state ∅)
    = Returned (take (Z.to_nat 1) (all_reviews st')) final ∧
    length (take (Z.to_nat 1) (all_reviews st')) = Z.to_nat 1 ∧
    requests final = requests st' ∧
    all_reviews final = all_reviews st'.
Proof.
  intros st'.
  refine (target_reached_returns Examples.demo Examples.steady_network
            Examples.noon_clock Examples.default_scraper 1 "en" Json None
            "0x1:0x2" 0 (initial_state ∅) st' _ _ _).
  - reflexivity.
  - vm_compute. reflexivity.
  - vm_compute. discriminate.
Defined.

(** The scenario of the specification, scaled down: a target of 3, pages
    of 2 reviews that always carry a cursor.  Two requests are issued and
    the 4 reviews accumulated are trimmed to the first 3. *)
Example target_of_three :
  let run := scrape_reviews Examples.demo Examples.steady_network
               Examples.noon_clock Examples.default_scraper Examples.URL
               (Some 3%Z) "en" false Json None ∅ 5 in
  (∃ final, run = Returned final (final_state run) ∧
            List.map review_id final = ["1"; "2"; "1"]%string) ∧
  length (all_reviews (final_state run)) = 4 ∧
  requests (final_state run) = [""; "7"]%string.
Proof. vm_compute. split; [eexists; split; reflexivity | split; reflexivity]. Qed.

(** ** An absent or short envelope after the first page *)

Section Stale.
Local Notation fid := "0x89c25a31ebfbc6bf:0xb80ba2960244e4f4"%string.
Local Notation stale_loop :=
  (page_loop Examples.demo Examples.stale_network Examples.noon_clock
             Examples.default_scraper None "en" Json None fid).

(** With the cursor 7 left over and one request or more behind it, a
    page cycle meets the empty envelope, leaves the inner loop, and the
    outer loop goes on with the same cursor. *)
Lemma stale_cycle st :
  next_page_token st = "7"%string → requests st ≠ [] →
  retry_loop Examples.demo Examples.stale_network Examples.noon_clock
             "en" Json None fid
             (Z.to_nat (n_retries Examples.default_scraper)) st
  = Exited (with_request st).
Proof.
  intros Ht Hr.
  change (Z.to_nat (n_retries Examples.default_scraper)) with 10.
  cbn [Scraper.retry_loop]. unfold attempt.
  destruct (requests st) as [|c cs] eqn:Er; [contradiction|].
  cbn [length Examples.stale_network Nat.eqb].
  replace (parse_response Examples.demo ")]}'[]") with (Ok (VList []))
    by (vm_compute; reflexivity).
  reflexivity.
Qed.

Lemma stale_loop_fetching fuel st :
  next_page_token st = "7"%string → requests st ≠ [] →
  ∃ st', stale_loop fuel st = Fetching st' ∧
         requests st' = requests st ++ repeat "7"%string fuel ∧
         all_reviews st' = all_reviews st.
Proof.
  revert st. induction fuel as [|fuel IH]; intros st Ht Hr.
  - exists st. rewrite app_nil_r. repeat split.
  - cbn [Scraper.page_loop]. rewrite (stale_cycle st Ht Hr).
    cbn [target_reached target with_request next_page_token].
    rewrite Ht. cbn [String.eqb Ascii.eqb Bool.eqb].
    destruct (IH (with_request st)) as (st' & Hrun & Hreq & Hall).
    + exact Ht.
    + cbn. intros Hnil. apply app_eq_nil in Hnil as [_ [=]].
    + exists st'. split; [exact Hrun|]. split; [|exact Hall].
      rewrite Hreq. cbn [requests with_request]. rewrite Ht.
      rewrite <- app_assoc. reflexivity.
Qed.
End Stale.

(** C1, on the code: the first page brings one review and the cursor 7,
    and every later response is the empty envelope.  However long the
    invocation is observed, it has not returned: it holds the one review
    and has issued one more request, with the same cursor 7, in every
    further cycle. *)
Theorem short_envelope_keeps_fetching (fuel : nat) :
  ∃ st,
    scrape_reviews Examples.demo Examples.stale_network Examples.noon_clock
      Examples.default_scraper Examples.URL None "en" false Json None ∅
      (S fuel) = Fetching st ∧
    requests st = EmptyString :: repeat "7"%string fuel ∧
    length (all_reviews st) = 1.
Proof.
  unfold scrape_reviews.
  replace (_parse_url_to_feature_id Examples.URL)
    with (Some "0x89c25a31ebfbc6bf:0xb80ba2960244e4f4"%string)
    by (vm_compute; reflexivity).
  cbn [String.eqb Ascii.eqb Bool.eqb].
  cbn [Scraper.page_loop].
  set (first := retry_loop _ _ _ _ _ _ _ _ _).
  assert (Hfirst : ∃ st1, first = Exited st1 ∧
                          next_page_token st1 = "7"%string ∧
                          requests st1 = [EmptyString] ∧
                          length (all_reviews st1) = 1)
    by (vm_compute; eexists; repeat split).
  destruct Hfirst as (st1 & -> & Ht & Hr & Hl).
  cbn [target_reached target]. rewrite Ht. cbn [String.eqb Ascii.eqb Bool.eqb].
  destruct (stale_loop_fetching fuel st1 Ht) as (st' & Hrun & Hreq & Hall).
  { rewrite Hr. discriminate. }
  exists st'. split; [exact Hrun|]. split.
  - rewrite Hreq, Hr. reflexivity.
  - rewrite Hall. exact Hl.
Qed.

(** On the first page, where no cursor is left over, the same envelope
    does end the invocation: one request, no review, success. *)
Example short_envelope_first_page :
  let run := scrape_reviews Examples.demo
               (fun _ _ _ _ => Ok ")]}'[]"%string) Examples.noon_clock
               Examples.default_scraper Examples.URL None "en" false Json
               None ∅ 1 in
  run = Returned [] (final_state run) ∧
  requests (final_state run) = [EmptyString].
Proof. vm_compute. split; reflexivity. Qed.

End DriverProofs.

(* ===================================================================== *)
(** * The patterns: what a match tells about the text                     *)
(* ===================================================================== *)
Module PatternFacts.
Import Py Re TimeUtils Host Parser Scraper Notions.

Lemma append_cons c (a b : string) : String c a +:+ b = String c (a +:+ b).
Proof. reflexivity. Qed.

Lemma append_nil_l (b : string) : "" +:+ b = b.
Proof. reflexivity. Qed.

Lemma length_app_str (a b : string) :
  String.length (a +:+ b) = String.length a + String.length b.
Proof.
  induction a as [|c a IH]; [reflexivity|].
  rewrite append_cons. cbn [String.length]. rewrite IH. reflexivity.
Qed.

Lemma substring_app_l (w s : string) :
  String.substring 0 (String.length w) (w +:+ s) = w.
Proof.
  induction w as [|c w IH].
  - rewrite append_nil_l. destruct s; reflexivity.
  - rewrite append_cons. cbn [String.length String.substring].
    rewrite IH. reflexivity.
Qed.

Lemma consumed_app (w s : string) : consumed (w +:+ s) s = w.
Proof.
  unfold consumed. rewrite length_app_str.
  replace (String.length w + String.length s - String.length s)
    with (String.length w) by lia.
  apply substring_app_l.
Qed.

Lemma app_str_assoc (a b c : string) : (a +:+ b) +:+ c = a +:+ (b +:+ c).
Proof.
  induction a as [|x a IH]; [reflexivity|].
  rewrite !append_cons, IH. reflexivity.
Qed.

Lemma app_str_nil_r (a : string) : a +:+ "" = a.
Proof.
  induction a as [|x a IH]; [reflexivity|].
  rewrite append_cons, IH. reflexivity.
Qed.

(** Where the matcher succeeds, the pattern matches a prefix of the text
    and the continuation accepts what follows it. *)
Lemma rmatch_sound {A} (r : regex) :
  ∀ (s : string) (g : option string) (k : string → option string → option A) a,
    rmatch r s g k = Some a →
    ∃ w s' g', s = w +:+ s' ∧ lang r w g g' ∧ k s' g' = Some a.
Proof.
  induction r as [|p|r1 IH1 r2 IH2|r IH|r IH|r IH]; intros s g k a Hm.
  - exists ""%string, s, g. cbn in *. repeat split; [constructor | exact Hm].
  - cbn in Hm. destruct s as [|c s]; [discriminate|]. cbn in Hm.
    destruct (p c) eqn:Hp; [|discriminate].
    exists (String c ""), s, g. repeat split; [constructor; exact Hp | exact Hm].
  - cbn in Hm. apply IH1 in Hm as (w1 & s1 & g1 & -> & Hl1 & Hm).
    apply IH2 in Hm as (w2 & s2 & g2 & -> & Hl2 & Hm).
    exists (w1 +:+ w2), s2, g2. rewrite app_str_assoc.
    repeat split; [econstructor; eassumption | exact Hm].
  - cbn [rmatch] in Hm.
    remember (String.length s) as n eqn:Hn. clear Hn.
    revert s g Hm. induction n as [|n IHn]; intros s g Hm.
    + exists ""%string, s, g. repeat split; [constructor | exact Hm].
    + match type of Hm with
      | match ?X with _ => _ end = _ => destruct X as [b|] eqn:E
      end.
      * injection Hm as ->. apply IH in E as (w1 & s1 & g1 & -> & Hl1 & E).
        destruct (_ <? _)%nat; [|discriminate].
        apply IHn in E as (w2 & s2 & g2 & -> & Hl2 & E).
        exists (w1 +:+ w2), s2, g2. rewrite app_str_assoc.
        repeat split; [econstructor; eassumption | exact E].
      * exists ""%string, s, g. repeat split; [constructor | exact Hm].
  - cbn [rmatch] in Hm. destruct (rmatch r s g k) as [b|] eqn:E.
    + injection Hm as ->. apply IH in E as (w & s' & g' & -> & Hl & E).
      exists w, s', g'. repeat split; [constructor; exact Hl | exact E].
    + exists ""%string, s, g. repeat split; [constructor | exact Hm].
  - cbn [rmatch] in Hm. apply IH in Hm as (w & s' & g' & -> & Hl & Hm).
    rewrite consumed_app in Hm.
    exists w, s', (Some w). repeat split; [econstructor; exact Hl | exact Hm].
Qed.

Lemma rmatch_top_sound (r : regex) (s s' : string) (g : option string) :
  rmatch r s None (fun s' g => Some (s', g)) = Some (s', g) →
  s = consumed s s' +:+ s' ∧ lang r (consumed s s') None g.
Proof.
  intros E. apply rmatch_sound in E as (w & s1 & g' & -> & Hl & E).
  injection E as -> ->. rewrite consumed_app. auto.
Qed.

(** [re.search]: the match object holds a piece of the text that the
    pattern matches, and the text of its group. *)
Lemma search_sound (r : regex) (s : string) (m : match_obj) :
  search r s = Some m →
  ∃ before after g',
    s = before +:+ group0 m +:+ after ∧
    lang r (group0 m) None g' ∧ group1 m = default EmptyString g'.
Proof.
  induction s as [|c s IH].
  - cbn [search]. destruct (rmatch r "" None _) as [[s' g]|] eqn:E; [|discriminate].
    intros [= <-]. apply rmatch_top_sound in E as [Hs Hl].
    exists ""%string, s', g. cbn [group0 group1]. auto.
  - cbn [search].
    destruct (rmatch r (String c s) None _) as [[s' g]|] eqn:E.
    + intros [= <-]. apply rmatch_top_sound in E as [Hs Hl].
      exists ""%string, s', g. cbn [group0 group1]. auto.
    + intros Hm. apply IH in Hm as (before & after & g' & -> & Hl & Hg).
      exists (String c before), after, g'. auto.
Qed.

Lemma lang_no_group r w g g' : lang r w g g' → has_group r = false → g' = g.
Proof.
  induction 1; cbn [has_group]; intros Hg; try reflexivity; try discriminate.
  - apply orb_false_iff in Hg as [Hg1 Hg2].
    rewrite IHlang2, IHlang1; auto.
  - rewrite IHlang2, IHlang1; auto.
  - auto.
Qed.

Lemma all_chars_app p a b :
  all_chars p (a +:+ b) = all_chars p a && all_chars p b.
Proof.
  induction a as [|c a IH]; [reflexivity|].
  rewrite append_cons. cbn [all_chars]. rewrite IH, andb_assoc. reflexivity.
Qed.

Lemma lang_cls_inv p w g g' :
  lang (Cls p) w g g' → ∃ c, w = String c "" ∧ p c = true ∧ g' = g.
Proof. inversion 1; subst. eauto. Qed.

Lemma lang_cat_inv r1 r2 w g g' :
  lang (Cat r1 r2) w g g' →
  ∃ w1 w2 g1, w = w1 +:+ w2 ∧ lang r1 w1 g g1 ∧ lang r2 w2 g1 g'.
Proof. inversion 1; subst. eauto 7. Qed.

Lemma lang_star_cls p w g g' :
  lang (Star (Cls p)) w g g' → all_chars p w = true ∧ g' = g.
Proof.
  remember (Star (Cls p)) as r eqn:Hr. induction 1; try discriminate.
  - auto.
  - injection Hr as ->. apply lang_cls_inv in H as (c & -> & Hp & ->).
    destruct (IHlang2 eq_refl) as [Ha ->].
    rewrite append_cons, append_nil_l. cbn [all_chars]. rewrite Hp, Ha. auto.
Qed.

Lemma lang_plus_cls p w g g' :
  lang (Plus (Cls p)) w g g' →
  w ≠ EmptyString ∧ all_chars p w = true ∧ g' = g.
Proof.
  unfold Plus. intros Hl.
  apply lang_cat_inv in Hl as (w1 & w2 & g1 & -> & H1 & H2).
  apply lang_cls_inv in H1 as (c & -> & Hp & ->).
  apply lang_star_cls in H2 as [Ha ->].
  rewrite append_cons, append_nil_l. cbn [all_chars]. rewrite Hp, Ha.
  repeat split. discriminate.
Qed.

Lemma lang_chr_inv c w g g' :
  lang (Chr c) w g g' → w = String c "" ∧ g' = g.
Proof.
  unfold Chr. intros Hl. apply lang_cls_inv in Hl as (c' & -> & Hc & ->).
  apply Ascii.eqb_eq in Hc as ->. auto.
Qed.

Lemma lang_group_inv r w g g' :
  lang (Group r) w g g' → g' = Some w ∧ ∃ g1, lang r w g g1.
Proof. inversion 1; subst. eauto. Qed.

Lemma has_group_Lit s : has_group (Lit s) = false.
Proof. induction s as [|c s IH]; cbn; [reflexivity | exact IH]. Qed.

(** The feature pattern matches only texts of the form [0x<hex>:0x<hex>]. *)
Lemma lang_feature_pattern w g g' :
  lang feature_pattern w g g' → feature_id_shape w.
Proof.
  unfold feature_pattern. intros Hl.
  apply lang_cat_inv in Hl as (w1 & r1 & g1 & -> & H1 & Hl).
  apply lang_chr_inv in H1 as [-> ->].
  apply lang_cat_inv in Hl as (w2 & r2 & g2 & -> & H2 & Hl).
  apply lang_cls_inv in H2 as (x1 & -> & Hx1 & ->).
  apply lang_cat_inv in Hl as (h1 & r3 & g3 & -> & H3 & Hl).
  apply lang_plus_cls in H3 as (Hn1 & Hh1 & ->).
  apply lang_cat_inv in Hl as (w4 & r4 & g4 & -> & H4 & Hl).
  apply lang_chr_inv in H4 as [-> ->].
  apply lang_cat_inv in Hl as (w5 & r5 & g5 & -> & H5 & Hl).
  apply lang_chr_inv in H5 as [-> ->].
  apply lang_cat_inv in Hl as (w6 & h2 & g6 & -> & H6 & Hl).
  apply lang_cls_inv in H6 as (x2 & -> & Hx2 & ->).
  apply lang_plus_cls in Hl as (Hn2 & Hh2 & ->).
  exists x1, h1, x2, h2.
  rewrite !append_cons, !append_nil_l. repeat split; assumption.
Qed.

(** The group of a quantity pattern is a run of digits. *)
Lemma lang_quantity_pattern u w g' :
  lang (quantity_pattern u) w None g' → ∃ d, g' = Some d ∧ digit_run d.
Proof.
  unfold quantity_pattern. intros Hl.
  apply lang_cat_inv in Hl as (d & rest & g1 & -> & H1 & Hl).
  apply lang_group_inv in H1 as [-> [g0 H1]].
  apply lang_plus_cls in H1 as (Hn & Hd & _).
  apply lang_no_group in Hl.
  2:{ cbn. rewrite has_group_Lit. reflexivity. }
  subst g'. exists d. split; [reflexivity|]. split; assumption.
Qed.

Lemma digit_val_nonneg c : is_digit c = true → (0 ≤ digit_val c ≤ 9)%Z.
Proof.
  unfold is_digit, ascii_in, digit_val. intros Hd.
  apply andb_true_iff in Hd as [H1 H2].
  apply Nat.leb_le in H1, H2. lia.
Qed.

Lemma digits_acc_nonneg d : ∀ acc,
  all_chars is_digit d = true → (0 ≤ acc)%Z → (0 ≤ digits_acc acc d)%Z.
Proof.
  induction d as [|c d IH]; intros acc Hd Hacc; cbn in *; [exact Hacc|].
  apply andb_true_iff in Hd as [Hc Hd].
  apply IH; [exact Hd|]. pose proof (digit_val_nonneg c Hc). lia.
Qed.

End PatternFacts.

(* ===================================================================== *)
(** * The resolver: bounds, normalisation and quantities                  *)
(* ===================================================================== *)
Module ResolverFacts.
Import Py Re TimeUtils Notions.
Local Open Scope Z_scope.

Lemma first_quantity_nonneg us t d :
  (∀ u len, (u, len) ∈ us → 0 <= len) →
  first_quantity us t = Some (Ok d) → 0 <= d.
Proof.
  induction us as [|[u len] us IH]; intros Hus; cbn [first_quantity];
    [discriminate|].
  destruct (search (quantity_pattern u) t) as [m|] eqn:E.
  - unfold int_of_digits.
    destruct (INT_MAX_STR_DIGITS <? String.length (group1 m))%nat;
      [discriminate|].
    intros [= <-].
    apply PatternFacts.search_sound in E as (b & a & g' & _ & Hl & Hg).
    apply PatternFacts.lang_quantity_pattern in Hl as (ds & -> & _ & Hd).
    cbn in Hg. rewrite Hg.
    apply Z.mul_nonneg_nonneg.
    + apply PatternFacts.digits_acc_nonneg; [exact Hd | lia].
    + apply (Hus u). left.
  - apply IH. intros u' len' Hin. apply (Hus u'). right. exact Hin.
Qed.

Lemma first_single_nonneg us t d :
  (∀ u len, (u, len) ∈ us → 0 <= len) →
  first_single us t = Some d → 0 <= d.
Proof.
  induction us as [|[u len] us IH]; intros Hus; cbn [first_single];
    [discriminate|].
  destruct (search (single_pattern u) t) as [m|].
  - intros [= <-]. apply (Hus u). left.
  - apply IH. intros u' len' Hin. apply (Hus u'). right. exact Hin.
Qed.

Lemma unit_us_nonneg u len : (u, len) ∈ unit_us → 0 <= len.
Proof.
  unfold unit_us. rewrite !elem_of_cons, elem_of_nil.
  intros [[= _ ->]|[[= _ ->]|[[= _ ->]|[[= _ ->]|[[= _ ->]|[[= _ ->]|[[= _ ->]|[]]]]]]]];
    vm_compute; discriminate.
Qed.

(** No text denotes a duration into the future. *)
Lemma spec_duration_nonneg t us : spec_duration t = Some (Ok us) → 0 <= us.
Proof.
  unfold spec_duration.
  destruct (str_in t _); [intros [= <-]; lia|].
  destruct (contains "yesterday" t); [intros [= <-]; vm_compute; discriminate|].
  destruct (first_quantity unit_us t) as [d|] eqn:E.
  - intros [= ->]. exact (first_quantity_nonneg _ _ _ unit_us_nonneg E).
  - destruct (first_single unit_us t) as [d|] eqn:E1; [|discriminate].
    intros [= <-]. exact (first_single_nonneg _ _ _ unit_us_nonneg E1).
Qed.

(** X7.  Whatever the text, a resolved date is an instant that [datetime]
    can hold and is never later than the reference instant. *)
Theorem resolved_date_not_after_reference
    (fromisoformat : string → option datetime) (now : datetime)
    (text : string) (reference_date : option string) (d : datetime) :
  datetime_ok (reference_instant fromisoformat now reference_date) →
  parse_relative_date fromisoformat now text reference_date = Ok (Some d) →
  datetime_ok d ∧ d <= reference_instant fromisoformat now reference_date.
Proof.
  intros HT. rewrite ResolverProofs.parse_relative_date_spec by exact HT.
  destruct (String.eqb text ""); [discriminate|].
  destruct (spec_duration (strip (lower text))) as [[us|e]|] eqn:E;
    [|discriminate..].
  apply spec_duration_nonneg in E.
  unfold resolved, in_range.
  destruct (timedelta_fits us); [|discriminate]. cbn [andb].
  destruct (0 <=? _) eqn:H0; [|discriminate].
  destruct (_ <=? DATETIME_MAX) eqn:H1; [|discriminate].
  intros [= <-]. apply Z.leb_le in H0, H1.
  unfold datetime_ok. lia.
Qed.

Lemma resolved_date_not_after_reference_witness :
  datetime_ok (Examples.NOON - 3 * US_PER_DAY) ∧
  Examples.NOON - 3 * US_PER_DAY <= Examples.NOON.
Proof.
  refine (resolved_date_not_after_reference (fun _ => None) Examples.NOON
            "3 days ago" None _ _ _).
  - vm_compute. split; discriminate.
  - vm_compute. reflexivity.
Defined.

(** ** Normalisation *)

Lemma lower_char_idem c : lower_char (lower_char c) = lower_char c.
Proof. destruct c as [[] [] [] [] [] [] [] []]; reflexivity. Qed.

Lemma is_space_lower_char c : is_space (lower_char c) = is_space c.
Proof. destruct c as [[] [] [] [] [] [] [] []]; reflexivity. Qed.

Lemma lower_idem s : lower (lower s) = lower s.
Proof.
  induction s as [|c s IH]; cbn [lower]; [reflexivity|].
  rewrite lower_char_idem, IH. reflexivity.
Qed.

Lemma lower_lstrip s : lower (lstrip s) = lstrip (lower s).
Proof.
  induction s as [|c s IH]; cbn [lower lstrip]; [reflexivity|].
  rewrite is_space_lower_char. destruct (is_space c); [exact IH | reflexivity].
Qed.

Lemma lower_rstrip s : lower (rstrip s) = rstrip (lower s).
Proof.
  induction s as [|c s IH]; cbn [lower rstrip]; [reflexivity|].
  rewrite <- IH, is_space_lower_char.
  destruct (rstrip s) as [|a t]; cbn [lower]; [|reflexivity].
  destruct (is_space c); reflexivity.
Qed.

Lemma rstrip_idem s : rstrip (rstrip s) = rstrip s.
Proof.
  induction s as [|c s IH]; cbn [rstrip]; [reflexivity|].
  destruct (rstrip s) as [|a t] eqn:E.
  - destruct (is_space c) eqn:Hc; cbn [rstrip]; [reflexivity|].
    rewrite Hc. reflexivity.
  - cbn [rstrip] in *. rewrite IH. reflexivity.
Qed.

(** A text that does not start with white space. *)
Lemma lstrip_rstrip_lstrip s : lstrip (rstrip (lstrip s)) = rstrip (lstrip s).
Proof.
  induction s as [|c s IH]; cbn [lstrip]; [reflexivity|].
  destruct (is_space c) eqn:Hc; [exact IH|].
  cbn [rstrip]. destruct (rstrip s) as [|a t]; rewrite ?Hc; cbn [lstrip];
    rewrite Hc; reflexivity.
Qed.

Lemma strip_idem s : strip (strip s) = strip s.
Proof. unfold strip. rewrite lstrip_rstrip_lstrip. apply rstrip_idem. Qed.

Lemma normalise_idem s : strip (lower (strip (lower s))) = strip (lower s).
Proof.
  unfold strip at 2. rewrite lower_rstrip, lower_lstrip, lower_idem.
  apply strip_idem.
Qed.

(** X8.  The resolver reads its text through [lower] and [strip] only: the
    normalised text resolves to what the text itself resolves to, so case
    and white space around the text never change the outcome. *)
Theorem parse_relative_date_normalised
    (fromisoformat : string → option datetime) (now : datetime)
    (text : string) (reference_date : option string) :
  parse_relative_date fromisoformat now (strip (lower text)) reference_date
  = parse_relative_date fromisoformat now text reference_date.
Proof.
  unfold parse_relative_date. rewrite normalise_idem.
  destruct (String.eqb_spec text "") as [->|Hne]; [reflexivity|].
  destruct (String.eqb_spec (strip (lower text)) "") as [->|Hn]; reflexivity.
Qed.


(** ** Quantities: "N units ago" for every N *)

Lemma star_cls_cons {A} p c s g (k : string → option string → option A) :
  rmatch (Star (Cls p)) (String c s) g k =
  if p c then
    match rmatch (Star (Cls p)) s g k with
    | Some a => Some a
    | None => k (String c s) g
    end
  else k (String c s) g.
Proof.
  cbn [rmatch String.length step_class]. destruct (p c); [|reflexivity].
  replace (String.length s <? S (String.length s))%nat with true
    by (symmetry; apply Nat.ltb_lt; lia).
  reflexivity.
Qed.

Lemma digit_not_space c : is_digit c = true → is_space c = false.
Proof. destruct c as [[] [] [] [] [] [] [] []]; try discriminate; reflexivity. Qed.

Lemma lower_char_digit c : is_digit c = true → lower_char c = c.
Proof. destruct c as [[] [] [] [] [] [] [] []]; try discriminate; reflexivity. Qed.

Section Tail.
Context {A : Type}.
(** What follows the digits in a quantity pattern. *)
Variable tail : regex.
Variable K : string → option string → option A.

(** Greedy digits in front of a text the rest of the pattern accepts. *)
Lemma digits_then_hit d rest g a :
  all_chars is_digit d = true →
  (∀ k : string → option string → option A,
     rmatch (Star Digit) rest g k = k rest g) →
  K rest g = Some a →
  rmatch (Star Digit) (d +:+ rest) g K = Some a.
Proof.
  intros Hd Hrest Hk. induction d as [|c d IH].
  - rewrite PatternFacts.append_nil_l, Hrest. exact Hk.
  - cbn [all_chars] in Hd. apply andb_true_iff in Hd as [Hc Hd].
    rewrite PatternFacts.append_cons. unfold Digit.
    rewrite star_cls_cons, Hc. fold Digit. rewrite (IH Hd). reflexivity.
Qed.

(** Greedy digits in front of a text the rest of the pattern refuses,
    when it also refuses every text that starts with a digit. *)
Lemma digits_then_miss d rest g :
  all_chars is_digit d = true →
  (∀ k : string → option string → option A,
     rmatch (Star Digit) rest g k = k rest g) →
  K rest g = None →
  (∀ c s, is_digit c = true → K (String c s) g = None) →
  rmatch (Star Digit) (d +:+ rest) g K = None.
Proof.
  intros Hd Hrest Hk Hdig. induction d as [|c d IH].
  - rewrite PatternFacts.append_nil_l, Hrest. exact Hk.
  - cbn [all_chars] in Hd. apply andb_true_iff in Hd as [Hc Hd].
    rewrite PatternFacts.append_cons. unfold Digit.
    rewrite star_cls_cons, Hc. fold Digit. rewrite (IH Hd).
    apply Hdig. exact Hc.
Qed.
End Tail.

(** [\s*UNIT...] refuses a text that starts with a digit. *)
Lemma unit_after_digit {A} u0 u' more c s g
    (k : string → option string → option A) :
  is_digit c = true → is_digit u0 = false →
  rmatch (Star Space ⋅ Lit (String u0 u') ⋅ more) (String c s) g k = None.
Proof.
  intros Hc Hu.
  change (rmatch (Star Space ⋅ Lit (String u0 u') ⋅ more) (String c s) g k)
    with (rmatch (Star Space) (String c s) g
            (fun s' g' => rmatch (Lit (String u0 u') ⋅ more) s' g' k)).
  unfold Space. rewrite star_cls_cons, (digit_not_space c Hc).
  cbn [rmatch Lit Chr step_class].
  destruct (Ascii.eqb_spec u0 c) as [->|]; [congruence | reflexivity].
Qed.

Local Notation after_digits u :=
  (Star Space ⋅ Lit u ⋅ Opt (Chr "s") ⋅ Plus Space ⋅ Lit "ago").
Local Notation top := (fun (s' : string) (g : option string) => Some (s', g)).

Lemma rmatch_quantity_cons u c s :
  rmatch (quantity_pattern u) (String c s) None top =
  if is_digit c then
    rmatch (Star Digit) s None
      (fun s' _ => rmatch (after_digits u) s'
                     (Some (consumed (String c s) s')) top)
  else None.
Proof.
  unfold quantity_pattern, Plus, Digit. cbn [rmatch step_class].
  destruct (is_digit c); reflexivity.
Qed.

Lemma quantity_miss u0 u' d rest :
  all_chars is_digit d = true →
  is_digit u0 = false →
  (∀ k : string → option string → option (string * option string),
     rmatch (Star Digit) rest None k = k rest None) →
  (∀ g, rmatch (after_digits (String u0 u')) rest g top = None) →
  search (quantity_pattern (String u0 u')) rest = None →
  search (quantity_pattern (String u0 u')) (d +:+ rest) = None.
Proof.
  intros Hd Hu Hrest Hafter Hsearch. induction d as [|c d IH].
  - rewrite PatternFacts.append_nil_l. exact Hsearch.
  - cbn [all_chars] in Hd. apply andb_true_iff in Hd as [Hc Hd].
    rewrite PatternFacts.append_cons. cbn [search].
    rewrite rmatch_quantity_cons, Hc.
    rewrite digits_then_miss; [exact (IH Hd) | exact Hd | exact Hrest | | ].
    + apply Hafter.
    + intros c' s' Hc'. apply unit_after_digit; assumption.
Qed.

Lemma quantity_hit u d rest :
  digit_run d →
  (∀ k : string → option string → option (string * option string),
     rmatch (Star Digit) rest None k = k rest None) →
  (∀ g, rmatch (after_digits u) rest g top = Some (EmptyString, g)) →
  search (quantity_pattern u) (d +:+ rest)
  = Some {| group0 := d +:+ rest; group1 := d |}.
Proof.
  intros [Hne Hd] Hrest Hafter. destruct d as [|c d]; [contradiction|].
  cbn [all_chars] in Hd. apply andb_true_iff in Hd as [Hc Hd].
  rewrite PatternFacts.append_cons. cbn [search].
  rewrite rmatch_quantity_cons, Hc.
  rewrite (digits_then_hit _ d rest None
             (EmptyString,
              Some (consumed (String c (d +:+ rest)) rest)));
    [ | exact Hd | exact Hrest | apply Hafter ].
  rewrite <- PatternFacts.append_cons, PatternFacts.consumed_app.
  rewrite <- (PatternFacts.app_str_nil_r (String c d +:+ rest)) at 1.
  rewrite PatternFacts.consumed_app. reflexivity.
Qed.

(** ** The text around the digits *)

Lemma lower_digits d rest :
  all_chars is_digit d = true → lower (d +:+ rest) = d +:+ lower rest.
Proof.
  induction d as [|c d IH]; intros Hd; [reflexivity|].
  cbn [all_chars] in Hd. apply andb_true_iff in Hd as [Hc Hd].
  rewrite !PatternFacts.append_cons. cbn [lower].
  rewrite (lower_char_digit c Hc), (IH Hd). reflexivity.
Qed.

Lemma rstrip_app d rest :
  rest ≠ EmptyString → rstrip rest = rest → rstrip (d +:+ rest) = d +:+ rest.
Proof.
  intros Hne Hr. induction d as [|c d IH]; [exact Hr|].
  rewrite PatternFacts.append_cons. cbn [rstrip]. rewrite IH.
  destruct (d +:+ rest) eqn:E; [|reflexivity].
  destruct d; [|discriminate]. contradiction.
Qed.

Lemma contains_digits p0 p d rest :
  all_chars is_digit d = true → is_digit p0 = false →
  contains (String p0 p) (d +:+ rest) = contains (String p0 p) rest.
Proof.
  intros Hd Hp. induction d as [|c d IH]; [reflexivity|].
  cbn [all_chars] in Hd. apply andb_true_iff in Hd as [Hc Hd].
  rewrite PatternFacts.append_cons. cbn [contains startswith].
  destruct (Ascii.eqb_spec p0 c) as [->|]; [congruence|].
  cbn [orb]. exact (IH Hd).
Qed.

Lemma str_in_digit c s :
  is_digit c = true →
  str_in (String c s) ["just now"; "now"; "today"]%string = false.
Proof.
  intros Hc. unfold str_in. cbn [existsb String.eqb].
  destruct (Ascii.eqb_spec c "j") as [->|]; [discriminate|].
  destruct (Ascii.eqb_spec c "n") as [->|]; [discriminate|].
  destruct (Ascii.eqb_spec c "t") as [->|]; [discriminate|].
  reflexivity.
Qed.

(** A text made of digits and a rest that is already normalised. *)
Lemma parse_digits_rest
    (fromisoformat : string → option datetime) (now : datetime)
    (reference_date : option string) d rest (r : result Z) :
  datetime_ok (reference_instant fromisoformat now reference_date) →
  digit_run d →
  rest ≠ EmptyString → lower rest = rest → rstrip rest = rest →
  contains "yesterday" rest = false →
  first_quantity unit_us (d +:+ rest) = Some r →
  parse_relative_date fromisoformat now (d +:+ rest) reference_date
  = match r with
    | Ok us => resolved (reference_instant fromisoformat now reference_date) us
    | Raise e => Raise e
    end.
Proof.
  intros HT [Hne Hd] Hrest Hlow Hstrip Hy Hq.
  rewrite ResolverProofs.parse_relative_date_spec by exact HT.
  assert (Hnorm : strip (lower (d +:+ rest)) = d +:+ rest).
  { rewrite (lower_digits d rest Hd), Hlow. unfold strip.
    destruct d as [|c d]; [contradiction|].
    cbn [all_chars] in Hd. apply andb_true_iff in Hd as [Hc Hd].
    rewrite PatternFacts.append_cons. cbn [lstrip].
    rewrite (digit_not_space c Hc), <- PatternFacts.append_cons.
    apply rstrip_app; assumption. }
  rewrite Hnorm. unfold spec_duration.
  rewrite (contains_digits "y" "esterday" d rest Hd eq_refl), Hy, Hq.
  destruct d as [|c d]; [contradiction|].
  cbn [all_chars] in Hd. apply andb_true_iff in Hd as [Hc Hd].
  rewrite PatternFacts.append_cons, (str_in_digit c _ Hc).
  reflexivity.
Qed.

Ltac normalise_rest :=
  match goal with
  | |- context [?d +:+ ?r] =>
      is_var d; let r' := eval vm_compute in r in change r with r'
  end.

Ltac miss_then_hit :=
  repeat (rewrite quantity_miss;
          [ | assumption | reflexivity | intros ?; reflexivity
            | intros ?; vm_compute; reflexivity | vm_compute; reflexivity ]);
  rewrite quantity_hit;
    [ | assumption | intros ?; reflexivity | intros ?; vm_compute; reflexivity ].

(** X9.  Quantities in general: for every decimal numeral [N] and each of
    the seven units, in the singular or the plural, "N unit(s) ago"
    raises ValueError when [N] is written with more digits than [int]
    accepts (4300); otherwise it resolves to the reference instant minus
    [N] times the length of the unit (a month counting 30 days and a year
    365), and raises OverflowError exactly when that leaves the range of
    [timedelta] or of [datetime]. *)
Theorem quantity_ago
    (fromisoformat : string → option datetime) (now : datetime)
    (reference_date : option string)
    (d u : string) (plural : bool) :
  datetime_ok (reference_instant fromisoformat now reference_date) →
  digit_run d → u ∈ units →
  parse_relative_date fromisoformat now
    (d +:+ " " +:+ u +:+ (if plural then "s" else "") +:+ " ago")
    reference_date
  = if (INT_MAX_STR_DIGITS <? String.length d)%nat then Raise ValueError
    else resolved (reference_instant fromisoformat now reference_date)
                  (digits_value d * unit_length u).
Proof.
  intros HT Hrun Hu.
  assert (Hd : all_chars is_digit d = true) by apply Hrun.
  unfold units, unit_us in Hu. cbn [List.map fst] in Hu.
  rewrite !elem_of_cons, elem_of_nil in Hu.
  destruct Hu as [->|[->|[->|[->|[->|[->|[->|[]]]]]]]]; destruct plural;
    normalise_rest;
    (erewrite parse_digits_rest;
     [ | exact HT | exact Hrun | discriminate | reflexivity | reflexivity
       | reflexivity
       | unfold unit_us; cbn [first_quantity]; miss_then_hit;
         cbn [group1]; reflexivity ]);
    unfold int_of_digits;
    destruct (INT_MAX_STR_DIGITS <? String.length d)%nat; reflexivity.
Qed.

Lemma quantity_ago_witness :
  parse_relative_date (fun _ => None) Examples.NOON "12 hours ago" None
  = Ok (Some (Examples.NOON - 12 * 3600 * US_PER_SECOND)).
Proof.
  refine (quantity_ago (fun _ => None) Examples.NOON None "12" "hour" true
            _ _ _).
  - vm_compute. split; discriminate.
  - split; [discriminate | reflexivity].
  - vm_compute. set_solver.
Defined.

End ResolverFacts.

(* ===================================================================== *)
(** * The decoder: dates, aborted extractions and pages                   *)
(* ===================================================================== *)
Module DecoderFacts.
Import Py Re TimeUtils Host Parser Effects Notions.

Section Record.
Context (H : host) (now : datetime).
Local Notation str := (py_str (repr_float H) (repr_str H)).

Lemma extract_is_spec l :
  2 ≤ length l → conversions_contained H (VList l) →
  count_converts H (at_path [1; 4; 5; 10; 0] (VList l)) →
  extract_review_data H now (VList l) = spec_review H now (VList l).
Proof.
  intros Hlen Hc Hcount. unfold extract_review_data.
  rewrite DecoderProofs.fst_try_pass.
  rewrite (DecoderProofs.review_body_run H now l Hlen Hc Hcount). cbn [fst].
  apply DecoderProofs.body_effect_initial.
Qed.

(** Either the count converts, or its text holds a run of digits that
    [int] refuses. *)
Lemma count_converts_or_not (o : option value) :
  count_converts H o ∨
  ∃ x m e, o = Some x ∧ search (Group (Plus Digit)) (str x) = Some m ∧
           int_of_digits (group1 m) = Raise e.
Proof.
  destruct o as [x|]; [|left; intros ? ? [=]].
  destruct (search (Group (Plus Digit)) (str x)) as [m|] eqn:E.
  - destruct (int_of_digits (group1 m)) as [n|e] eqn:En.
    + left. intros x' m' [= <-] Hm. rewrite E in Hm.
      injection Hm as <-. eauto.
    + right. eauto 6.
  - left. intros x' m' [= <-] Hm. congruence.
Qed.

Lemma at_path_cons_inv i q v x :
  at_path (i :: q) v = Some x →
  ∃ l y, v = VList l ∧ l !! i = Some y ∧ at_path q y = Some x.
Proof.
  cbn [at_path]. destruct v as [| | | | |l|]; try discriminate.
  destruct (l !! i) as [y|] eqn:E; [|discriminate].
  cbn [mbind option_bind]. eauto.
Qed.

(** The user information stops at a count that [int] refuses, after the
    name and the URL. *)
Lemma user_info_block_raises ui x m e r :
  at_path [10; 0] (VList ui) = Some x →
  search (Group (Plus Digit)) (str x) = Some m →
  int_of_digits (group1 m) = Raise e →
  user_info_block H (VList ui) r
  = (put user_url set_user_url (at_path [2; 0] (VList ui) ≫= str_of H)
       (put user_name set_user_name
            (at_path [0] (VList ui) ≫= str_if_truthy H) r),
     Raise e).
Proof.
  intros Hx Hm He. unfold user_info_block. cbn [is_list when].
  rewrite (DecoderProofs.run_then _ _ _
             (put user_name set_user_name
                  (at_path [0] (VList ui) ≫= str_if_truthy H))).
  2:{ apply (DecoderProofs.runs_truthy_assign user_name set_user_name
               DecoderProofs.set_user_name_get (VList ui) [] ui eq_refl 0
               (fun x => str x)). }
  rewrite (DecoderProofs.run_then _ _ _
             (put user_url set_user_url
                  (at_path [2; 0] (VList ui) ≫= str_of H))).
  2:{ apply (DecoderProofs.runs_nested user_url set_user_url
               DecoderProofs.set_user_url_get (VList ui) [] ui eq_refl 2
               _ (str_of H)).
      intros y _. apply DecoderProofs.runs_assign_some. }
  apply at_path_cons_inv in Hx as (l10 & c10 & [= <-] & E10 & Hx).
  apply at_path_cons_inv in Hx as (l0 & y & -> & E0 & [= ->]).
  rewrite (DecoderProofs.has_list_longer_list ui 10 0), E10.
  assert ((0 <? length l0) = true) as ->.
  { apply Nat.ltb_lt. apply lookup_lt_Some in E0. exact E0. }
  cbv [mbind M_bind lift when].
  rewrite (DecoderProofs.py_index_list ui 10), E10.
  rewrite (DecoderProofs.py_index_list l0 0), E0.
  cbv zeta. rewrite Hm, He. reflexivity.
Qed.

(** The record when the count stops the extraction: the date of the
    timestamp, if any, and no relative date. *)
Lemma count_raises_dates l x m e :
  2 ≤ length l →
  stamp_contained H (at_path [1; 2] (VList l)) →
  at_path [1; 4; 5; 10; 0] (VList l) = Some x →
  search (Group (Plus Digit)) (str x) = Some m →
  int_of_digits (group1 m) = Raise e →
  text_date (extract_review_data H now (VList l))
  = at_path [1; 2] (VList l) ≫= iso_of H ∧
  relative_date (extract_review_data H now (VList l)) = EmptyString.
Proof.
  intros Hlen Hs Hx Hm He.
  apply at_path_cons_inv in Hx as (l' & md & [= <-] & E1 & Hx).
  apply at_path_cons_inv in Hx as (lm & v4 & -> & E4 & Hx).
  apply at_path_cons_inv in Hx as (a & v5 & -> & E5 & Hx).
  pose proof Hx as Hui.
  apply at_path_cons_inv in Hui as (ui & v10 & -> & _ & _).
  unfold extract_review_data. rewrite DecoderProofs.fst_try_pass.
  unfold review_body.
  rewrite (DecoderProofs.run_bind _ _ _ (initial_result H now) false).
  2:{ destruct l as [|a0 [|b0 l0]]; cbn in Hlen; try lia. reflexivity. }
  cbv iota.
  rewrite (DecoderProofs.run_then _ _ _
             (put review_id set_review_id
                  (at_path [0] (VList l) ≫= str_if_truthy H))).
  2:{ apply (DecoderProofs.runs_truthy_assign review_id set_review_id
               DecoderProofs.set_review_id_get (VList l) [] l eq_refl 0
               (fun x => str x)). }
  rewrite (DecoderProofs.has_list_list l 1), E1.
  cbv [mbind M_bind lift when is_list].
  rewrite (DecoderProofs.py_index_list l 1), E1.
  unfold metadata_block.
  rewrite (DecoderProofs.run_then _ _ _
             (put text_date set_text_date
                  (Some <$> (at_path ([1] ++ [2]) (VList l) ≫= iso_of H)))).
  2:{ apply (DecoderProofs.runs_stamp H text_date set_text_date
               DecoderProofs.set_text_date_get (VList l) [1] lm
               (DecoderProofs.at_index _ _ _ E1) 2 Hs). }
  rewrite (DecoderProofs.has_list_longer_list lm 4 5), E4.
  assert ((5 <? length a) = true) as ->.
  { apply Nat.ltb_lt. apply lookup_lt_Some in E5. exact E5. }
  cbv [mbind M_bind lift when].
  rewrite (DecoderProofs.py_index_list lm 4), E4.
  rewrite (DecoderProofs.py_index_list a 5), E5.
  rewrite (user_info_block_raises ui x m e _ Hx Hm He).
  cbn [fst]. unfold put. cbn [text_date relative_date set_user_url
    set_user_name set_text_date set_review_id initial_result app].
  rewrite DecoderProofs.default_some_fmap. split; reflexivity.
Qed.

(** The metadata block stops at a timestamp whose conversion raises
    outside the handler. *)
Lemma metadata_block_raises lm x e r :
  lm !! 2 = Some x → truthy x = true →
  timestamp_iso H x = Raise e → conversion_errors e = false →
  metadata_block H (VList lm) r = (r, Raise e).
Proof.
  intros Hx Ht Hi He. unfold metadata_block.
  rewrite (DecoderProofs.has_truthy_list lm 2), Hx, Ht.
  cbv [mbind M_bind lift when try_pass].
  rewrite (DecoderProofs.py_index_list lm 2), Hx, Hi, He. reflexivity.
Qed.

Lemma review_body_raises l lm x e :
  2 ≤ length l →
  l !! 1 = Some (VList lm) → lm !! 2 = Some x → truthy x = true →
  timestamp_iso H x = Raise e → conversion_errors e = false →
  review_body H now (VList l) (initial_result H now)
  = (set_review_id (spec_review_id H (VList l)) (initial_result H now),
     Raise e).
Proof.
  intros Hlen Hl Hx Ht Hi He. unfold review_body.
  rewrite (DecoderProofs.run_bind _ _ _ (initial_result H now) false).
  2:{ destruct l as [|a [|b l']]; cbn in Hlen; try lia. reflexivity. }
  cbv iota.
  rewrite (DecoderProofs.run_then _ _ _
             (put review_id set_review_id
                  (at_path [0] (VList l) ≫= str_if_truthy H))).
  2:{ apply (DecoderProofs.runs_truthy_assign review_id set_review_id
               DecoderProofs.set_review_id_get (VList l) [] l eq_refl 0
               (fun x => str x)). }
  rewrite (DecoderProofs.has_list_list l 1), Hl.
  cbv [mbind M_bind lift when is_list].
  rewrite (DecoderProofs.py_index_list l 1), Hl.
  rewrite (metadata_block_raises lm x e _ Hx Ht Hi He). reflexivity.
Qed.
End Record.

(** X5.  Where [text_date] comes from, for an array of at least two
    elements whose conversions stay within what the code catches: a
    timestamp that is present, truthy and converts to a non-empty ISO text
    gives the date and the relative date is not consulted; without such a
    timestamp the date is the relative date resolved against the retrieval
    date, and stays unset when there is no relative date or the resolver
    returns none or raises. *)
Theorem text_date_source (H : host) (now : datetime) (l : list value) :
  2 ≤ length l → conversions_contained H (VList l) →
  (∀ x iso, at_path [1; 2] (VList l) = Some x → truthy x = true →
            timestamp_iso H x = Ok iso → iso ≠ EmptyString →
            text_date (extract_review_data H now (VList l)) = Some iso) ∧
  (at_path [1; 2] (VList l) ≫= iso_of H = None →
   text_date (extract_review_data H now (VList l))
   = if String.eqb (relative_date (extract_review_data H now (VList l))) ""
     then None
     else match parse_relative_date (fromisoformat H) now
                  (relative_date (extract_review_data H now (VList l)))
                  (Some (retrieval_date (extract_review_data H now (VList l))))
          with
          | Ok (Some d) => Some (isoformat H d)
          | _ => None
          end).
Proof.
  intros Hlen Hc.
  destruct (count_converts_or_not H (at_path [1; 4; 5; 10; 0] (VList l)))
    as [Hcount | (x0 & m & e & Hx0 & Hm & He)].
  - rewrite (extract_is_spec H now l Hlen Hc Hcount).
    cbn [text_date relative_date retrieval_date spec_review].
    unfold spec_text_date, date_from. split.
    + intros x iso Hx Ht Hi Hne. rewrite Hx. cbn [mbind option_bind].
      unfold iso_of. rewrite Ht, Hi. cbn [date_set].
      destruct (String.eqb_spec iso ""); [contradiction|].
      cbn [negb]. rewrite andb_false_r. reflexivity.
    + intros ->. cbn [date_set negb]. rewrite andb_true_r.
      destruct (String.eqb (spec_relative_date H (VList l)) ""); cbn [negb];
        [reflexivity|].
      destruct (parse_relative_date _ _ _ _) as [[d|]|e]; reflexivity.
  - destruct (count_raises_dates H now l x0 m e Hlen (proj1 Hc) Hx0 Hm He)
      as [Hd Hr].
    rewrite Hd, Hr. split.
    + intros x iso Hx Ht Hi Hne. rewrite Hx. cbn [mbind option_bind].
      unfold iso_of. rewrite Ht, Hi. reflexivity.
    + intros ->. reflexivity.
Qed.

Lemma text_date_source_witness :
  text_date (extract_review_data Examples.demo Examples.NOON Examples.full_review)
  = Some (pretty (Examples.EPOCH + 1700000000 * US_PER_SECOND)%Z).
Proof.
  refine (proj1 (text_date_source Examples.demo Examples.NOON _ _ _)
            (VInt 1700000000000000) _ _ _ _ _).
  - repeat constructor.
  - repeat split.
    + intros x e [= <-] _. vm_compute. discriminate.
    + intros x [= <-] _. eexists. vm_compute. reflexivity.
    + intros x e Hx. vm_compute in Hx. discriminate Hx.
  - reflexivity.
  - reflexivity.
  - vm_compute. reflexivity.
  - vm_compute. discriminate.
Defined.

(** X6.  An extraction cut short: in an array of at least two elements
    whose metadata holds a truthy timestamp, if the conversion of that
    timestamp raises an exception other than ValueError, TypeError and
    OSError, the record returned has its [review_id] and every other
    field at its default, whatever the rest of the array holds. *)
Theorem uncaught_conversion_defaults (H : host) (now : datetime)
    (l lm : list value) (x : value) (e : exn) :
  2 ≤ length l →
  l !! 1 = Some (VList lm) → lm !! 2 = Some x → truthy x = true →
  timestamp_iso H x = Raise e → conversion_errors e = false →
  extract_review_data H now (VList l)
  = set_review_id (spec_review_id H (VList l)) (initial_result H now).
Proof.
  intros Hlen Hl Hx Ht Hi He. unfold extract_review_data.
  rewrite DecoderProofs.fst_try_pass.
  rewrite (review_body_raises H now l lm x e Hlen Hl Hx Ht Hi He).
  reflexivity.
Qed.

Lemma uncaught_conversion_defaults_witness :
  extract_review_data Examples.demo Examples.NOON Examples.huge_stamp_review
  = set_review_id "id1" (initial_result Examples.demo Examples.NOON).
Proof.
  refine (uncaught_conversion_defaults Examples.demo Examples.NOON _ _
            (VInt (10 ^ 400)) OverflowError _ _ _ _ _ _).
  - repeat constructor.
  - reflexivity.
  - reflexivity.
  - reflexivity.
  - vm_compute. reflexivity.
  - reflexivity.
Defined.

Lemma reviews_loop_imap (H : host) (clock : nat → datetime) items : ∀ k,
  reviews_loop H clock k items
  = imap (fun j d => extract_review_data H (clock (k + j)) d)
         (omap review_data_of items).
Proof.
  induction items as [|item items IH]; intros k; [reflexivity|].
  cbn [reviews_loop omap list_omap].
  destruct item as [| | | | |[|d ds]|]; cbn [review_data_of]; try apply IH.
  cbn [imap]. rewrite Nat.add_0_r, IH. f_equal.
  apply imap_ext. intros j x _. cbn. do 2 f_equal. lia.
Qed.

(** X13.  The reviews of a page: for an envelope that is an array,
    [extract_reviews] never raises.  It returns one record for each item
    of [data[2]] that is a non-empty array, in the order of the items,
    decoded from the first element of the item; items of any other kind
    are skipped, and an envelope whose [data[2]] is missing, falsy or not
    an array gives no record. *)
Theorem extract_reviews_of_array (H : host) (clock : nat → datetime)
    (l : list value) :
  extract_reviews H clock (VList l)
  = Ok match l !! 2 with
       | Some (VList items) =>
           imap (fun j d => extract_review_data H (clock j) d)
                (omap review_data_of items)
       | _ => []
       end.
Proof.
  unfold extract_reviews.
  rewrite (DecoderProofs.has_truthy_list l 2).
  cbv [mbind result_bind].
  rewrite (DecoderProofs.py_index_list l 2).
  destruct (l !! 2) as [x|]; [|reflexivity].
  destruct (truthy x) eqn:Ht.
  - destruct x; try reflexivity. rewrite reviews_loop_imap. reflexivity.
  - destruct x as [| | | | |[|? ?]|]; try reflexivity. discriminate.
Qed.

(** X14.  A raw review that is a string: for a string of at least two
    characters the record has the first character as its [review_id] and
    every other field at its default. *)
Theorem extract_review_data_of_string (H : host) (now : datetime)
    (a b : ascii) (s : string) :
  extract_review_data H now (VStr (String a (String b s)))
  = set_review_id (String a EmptyString) (initial_result H now).
Proof.
  destruct s as [|c [|c' s]]; reflexivity.
Qed.


(** ** What every statement of the extraction preserves *)

Section Invariant.
Context (P : review → Prop).
Local Notation preserves m := (∀ r, P r → P (fst (m r))).

Lemma pres_ret {A} (a : A) : preserves (mret a : M A).
Proof. intros r Hr. exact Hr. Qed.

Lemma pres_assign f : (∀ r, P r → P (f r)) → preserves (assign f).
Proof. intros Hf r Hr. apply Hf, Hr. Qed.

Lemma pres_lift_bind {A C} (x : result A) (f : A → M C) :
  (∀ a, x = Ok a → preserves (f a)) → preserves (lift x ≫= f).
Proof.
  intros Hf r Hr. unfold mbind, M_bind, lift.
  destruct x as [a|e]; [apply (Hf a eq_refl), Hr | exact Hr].
Qed.

Lemma pres_read_bind {C} (f : review → M C) :
  (∀ a, preserves (f a)) → preserves (read ≫= f).
Proof. intros Hf r Hr. unfold mbind, M_bind, read. apply Hf, Hr. Qed.

Lemma pres_bind {A C} (m : M A) (f : A → M C) :
  preserves m → (∀ a, preserves (f a)) → preserves (m ≫= f).
Proof.
  intros Hm Hf r Hr. unfold mbind, M_bind. specialize (Hm r Hr).
  destruct (m r) as [r' [a|e]]; cbn in *; [apply Hf, Hm | exact Hm].
Qed.

Lemma pres_when c m : preserves m → preserves (when c m).
Proof. intros Hm. destruct c; [exact Hm | apply pres_ret]. Qed.

Lemma pres_try_pass m catches : preserves m → preserves (try_pass m catches).
Proof. intros Hm r Hr. rewrite DecoderProofs.fst_try_pass. apply Hm, Hr. Qed.
End Invariant.

Lemma count_nonneg s m n :
  search (Group (Plus Digit)) s = Some m →
  int_of_digits (group1 m) = Ok n → (0 ≤ n)%Z.
Proof.
  intros E. unfold int_of_digits.
  destruct (INT_MAX_STR_DIGITS <? String.length (group1 m))%nat;
    [discriminate|].
  intros [= <-].
  apply PatternFacts.search_sound in E as (b & a & g' & _ & Hl & ->).
  apply PatternFacts.lang_group_inv in Hl as [-> [g1 Hl]].
  apply PatternFacts.lang_plus_cls in Hl as (_ & Hd & _).
  apply PatternFacts.digits_acc_nonneg; [exact Hd | lia].
Qed.

Lemma timestamp_iso_shape H x iso :
  timestamp_iso H x = Ok iso → iso_or_none H (Some iso).
Proof.
  unfold timestamp_iso. cbv [mbind result_bind].
  destruct (py_int _ x) as [t|]; [|discriminate].
  destruct (int_truediv t 1000000) as [f|]; [|discriminate].
  destruct (fromtimestamp H f) as [d|]; [|discriminate].
  intros [= <-]. right. eauto.
Qed.

Ltac record_kept :=
  let r0 := fresh "r" in
  let Hu := fresh "Hu" in let Ht := fresh "Ht" in let Hr := fresh "Hr" in
  intros r0 (Hu & Ht & Hr); repeat split; cbn;
  first
    [ assumption
    | eapply count_nonneg; eassumption
    | eapply timestamp_iso_shape; eassumption
    | right; eexists; reflexivity ].

Ltac pres_step :=
  lazymatch goal with
  | |- ∀ r, ?P r → _ (fst ((lift _ ≫= _) r)) =>
      apply (pres_lift_bind P); intros ? ?
  | |- ∀ r, ?P r → _ (fst ((read ≫= _) r)) =>
      apply (pres_read_bind P); intros ?
  | |- ∀ r, ?P r → _ (fst ((_ ≫= _) r)) =>
      apply (pres_bind P); [|intros ?]
  | |- ∀ r, ?P r → _ (fst (when _ _ r)) => apply (pres_when P)
  | |- ∀ r, ?P r → _ (fst (try_pass _ _ r)) => apply (pres_try_pass P)
  | |- ∀ r, ?P r → _ (fst (mret _ r)) => apply (pres_ret P)
  | |- ∀ r, ?P r → _ (fst (assign _ r)) => apply (pres_assign P); record_kept
  | |- ∀ r, _ → _ (fst ((match search ?p ?s with _ => _ end) r)) =>
      let E := fresh "E" in destruct (search p s) eqn:E
  | |- ∀ r, _ → _ (fst ((match ?x with _ => _ end) r)) => destruct x
  | |- ∀ r, _ → _ (fst ((let _ := _ in _) r)) => cbv zeta
  end.

Section Blocks.
Context (H : host) (now : datetime).
Local Notation good := (well_formed_record H).

Lemma review_body_good v : ∀ r, good r → good (fst (review_body H now v r)).
Proof.
  unfold review_body, metadata_block, user_info_block, content_block,
    response_block, fallback_block.
  repeat pres_step.
Qed.

Lemma initial_result_good : good (initial_result H now).
Proof. repeat split; cbn; [lia | left; reflexivity | left; reflexivity]. Qed.
End Blocks.

(** X21.  What every record satisfies: for every input whatsoever, the
    record returned by [extract_review_data] has a [user_reviews] that is
    not negative, and each of [text_date] and [response_text_date] is
    either unset or the ISO text of a datetime. *)
Theorem record_well_formed (H : host) (now : datetime) (v : value) :
  well_formed_record H (extract_review_data H now v).
Proof.
  unfold extract_review_data. rewrite DecoderProofs.fst_try_pass.
  apply review_body_good, initial_result_good.
Qed.


End DecoderFacts.

(* ===================================================================== *)
(** * The driver: retries, the accumulator and the final files            *)
(* ===================================================================== *)
Module DriverFacts.
Import Py Re TimeUtils Host Parser Scraper Notions.

(** ** The feature identifier *)

Lemma feature_id_found url feature_id :
  _parse_url_to_feature_id url = Some feature_id →
  feature_id_shape feature_id ∧
  ∃ before after, url = before +:+ feature_id +:+ after.
Proof.
  unfold _parse_url_to_feature_id.
  destruct (search feature_pattern url) as [m|] eqn:E; [|discriminate].
  intros [= <-].
  apply PatternFacts.search_sound in E as (before & after & g' & Hu & Hl & _).
  split; [exact (PatternFacts.lang_feature_pattern _ _ _ Hl) | eauto].
Qed.

Lemma feature_id_nonempty url feature_id :
  _parse_url_to_feature_id url = Some feature_id → feature_id ≠ EmptyString.
Proof.
  intros Hid. apply feature_id_found in Hid as [(x1 & h1 & x2 & h2 & -> & _) _].
  discriminate.
Qed.

Lemma scrape_reviews_with_id (H : host)
    (_make_request : nat → string → string → string → result string)
    (clock : nat → datetime) (self : scraper) (url : string)
    (n_reviews : option Z) (hl : string) (verbose : bool)
    (fmt : output_format) (output_file : option string)
    (fs : gmap string string) (fuel : nat) (feature_id : string) :
  _parse_url_to_feature_id url = Some feature_id →
  scrape_reviews H _make_request clock self url n_reviews hl verbose fmt
                 output_file fs fuel
  = page_loop H _make_request clock self n_reviews hl fmt output_file
              feature_id fuel (initial_state fs).
Proof.
  intros Hid. unfold scrape_reviews. rewrite Hid.
  destruct (String.eqb_spec feature_id "") as [He|]; [|reflexivity].
  exfalso. exact (feature_id_nonempty _ _ Hid He).
Qed.

Section Cycle.
Context (H : host).
Context (_make_request : nat → string → string → string → result string).
Context (clock : nat → datetime).
Context (self : scraper) (n_reviews : option Z) (hl : string).
Context (fmt : output_format) (output_file : option string).
Context (feature_id : string).

Local Notation attempt := (attempt H _make_request clock hl fmt feature_id).
Local Notation retry_loop :=
  (retry_loop H _make_request clock hl fmt output_file feature_id).
Local Notation page_loop :=
  (page_loop H _make_request clock self n_reviews hl fmt output_file
             feature_id).
Local Notation temp := (temp_file H fmt feature_id).

(** An attempt that raises has changed nothing but the log of requests;
    one that does not raise has logged one request and kept what was
    accumulated in front. *)
Lemma attempt_effect st :
  match attempt st with
  | Threw _ st' => st' = with_request st
  | Ended st' => st' = with_request st
  | Stored st' =>
      requests st' = requests st ++ [next_page_token st] ∧
      all_reviews st `prefix_of` all_reviews st'
  end.
Proof.
  unfold Scraper.attempt.
  destruct (_make_request _ _ _ _) as [response_text|e]; [|reflexivity].
  destruct (parse_response H response_text) as [data|e]; [|reflexivity].
  destruct (if negb (truthy _) then _ else _) as [[|]|e]; try reflexivity.
  destruct (extract_pagination_token _ _) as [token|e] eqn:Et; [|reflexivity].
  destruct (DecoderProofs.extract_reviews_after_token H
              (fun k => clock (length (all_reviews st) + k)) _ _ Et)
    as [reviews ->].
  split; [reflexivity|]. cbn. apply prefix_app_r. reflexivity.
Qed.

Lemma retry_loop_effect retries st :
  match retry_loop retries st with
  | Aborted _ st' =>
      0 < retries ∧
      requests st' = requests st ++ repeat (next_page_token st) retries ∧
      all_reviews st' = all_reviews st ∧
      next_page_token st' = next_page_token st
  | Exited st' =>
      (∃ k, k ≤ retries ∧ (0 < retries → 0 < k) ∧
            requests st' = requests st ++ repeat (next_page_token st) k) ∧
      all_reviews st `prefix_of` all_reviews st'
  end.
Proof.
  revert st. induction retries as [|retries IH]; intros st;
    cbn [Scraper.retry_loop].
  { split; [|reflexivity]. exists 0. rewrite app_nil_r.
    repeat split; [lia..]. }
  pose proof (attempt_effect st) as Ha.
  destruct (attempt st) as [st'|st'|e st'].
  - destruct Ha as [Hr Hp]. split; [|exact Hp].
    exists 1. repeat split; [lia | lia | exact Hr].
  - subst st'. split; [|reflexivity].
    exists 1. repeat split; lia.
  - subst st'. destruct (Nat.eqb_spec retries 0) as [->|Hne].
    + assert (Hdone : ∀ fs,
                0 < 1 ∧
                requests (with_disk fs (with_request st))
                = requests st ++ repeat (next_page_token st) 1 ∧
                all_reviews (with_disk fs (with_request st)) = all_reviews st ∧
                next_page_token (with_disk fs (with_request st))
                = next_page_token st)
        by (intros fs; repeat split; lia).
      destruct (output_given output_file) as [p|]; [|apply (Hdone (disk st))].
      destruct (negb _); [apply Hdone | apply (Hdone (disk st))].
    + specialize (IH (with_request st)).
      destruct (retry_loop retries (with_request st)) as [st''|e' st''].
      * destruct IH as [(k & Hk & Hpos & Hr) Hp]. split; [|exact Hp].
        exists (S k). repeat split; [lia | lia |].
        rewrite Hr. cbn. rewrite <- app_assoc. reflexivity.
      * destruct IH as (Hpos & Hr & Ha & Ht).
        repeat split; [lia | | exact Ha | exact Ht].
        rewrite Hr. cbn. rewrite <- app_assoc. reflexivity.
Qed.

(** Apart from the temp file, a page cycle that does not raise leaves
    the files alone. *)
Lemma attempt_files st q :
  q ≠ temp →
  match attempt st with
  | Stored st' | Ended st' | Threw _ st' => disk st' !! q = disk st !! q
  end.
Proof.
  intros Hq.
  destruct (DriverProofs.attempt_cases H _make_request clock hl fmt
              feature_id st) as
    [(token & reviews & ->) | [-> | (e & ->)]];
    try reflexivity.
  cbn. apply DriverProofs.save_other. auto.
Qed.

Lemma retry_loop_files retries st q :
  q ≠ temp →
  match retry_loop retries st with
  | Exited st' => disk st' !! q = disk st !! q
  | Aborted _ _ => True
  end.
Proof.
  intros Hq. revert st. induction retries as [|retries IH]; intros st;
    cbn [Scraper.retry_loop]; [reflexivity|].
  pose proof (attempt_files st q Hq) as Ha.
  destruct (attempt st) as [st'|st'|e st']; try exact Ha.
  destruct (Nat.eqb retries 0).
  - destruct (output_given output_file); [destruct (negb _)|]; exact I.
  - specialize (IH st').
    destruct (retry_loop retries st'); [congruence | exact I].
Qed.

(** Where a returning invocation comes from: the state [st1] in which
    the loop was left. *)
Lemma page_loop_returned fuel st final st' :
  page_loop fuel st = Returned final st' →
  ∃ st1, finish H n_reviews fmt output_file feature_id st1
         = Returned final st' ∧
         all_reviews st `prefix_of` all_reviews st1 ∧
         (∀ q, q ≠ temp → disk st1 !! q = disk st !! q).
Proof.
  revert st. induction fuel as [|fuel IH]; intros st;
    cbn [Scraper.page_loop]; [discriminate|].
  pose proof (retry_loop_effect (Z.to_nat (n_retries self)) st) as He.
  pose proof (retry_loop_files (Z.to_nat (n_retries self)) st) as Hf.
  destruct (retry_loop _ st) as [st1|e st1]; [|discriminate].
  destruct He as [_ Hp].
  destruct (target_reached n_reviews st1); [eauto|].
  destruct (String.eqb (next_page_token st1) ""); [eauto|].
  intros Hrun. destruct (IH _ Hrun) as (st2 & Hfin & Hp2 & Hq2).
  exists st2. split; [exact Hfin|]. split; [etrans; eauto|].
  intros q Hq. rewrite Hq2 by exact Hq. apply Hf, Hq.
Qed.

Lemma finish_effect st1 final st' :
  finish H n_reviews fmt output_file feature_id st1 = Returned final st' →
  final = match target n_reviews with
          | Some n => slice_to n (all_reviews st1)
          | None => all_reviews st1
          end ∧
  all_reviews st' = all_reviews st1 ∧
  requests st' = requests st1 ∧
  disk st' = delete temp
               match output_given output_file with
               | Some p => _save_final_output H final p fmt (disk st1)
               | None => disk st1
               end.
Proof. unfold finish. intros [= <- <-]. repeat split. Qed.

(** With no retry granted the inner loop is never entered. *)
Lemma page_loop_no_retries fuel st :
  (n_retries self ≤ 0)%Z → all_reviews st = [] → next_page_token st = "" →
  page_loop (S fuel) st = finish H n_reviews fmt output_file feature_id st.
Proof.
  intros Hn Hr Ht. cbn [Scraper.page_loop].
  replace (Z.to_nat (n_retries self)) with 0 by lia.
  cbn [Scraper.retry_loop]. rewrite Ht.
  destruct (target_reached n_reviews st); reflexivity.
Qed.
End Cycle.


Section Pages.
Context (H : host).
Context (_make_request : nat → string → string → string → result string).
Context (clock : nat → datetime).
Context (self : scraper) (n_reviews : option Z) (hl : string).
Context (fmt : output_format) (output_file : option string).
Context (feature_id : string).

Local Notation retry_loop :=
  (retry_loop H _make_request clock hl fmt output_file feature_id).
Local Notation page_loop :=
  (page_loop H _make_request clock self n_reviews hl fmt output_file
             feature_id).
Local Notation temp := (temp_file H fmt feature_id).
Local Notation retries := (Z.to_nat (n_retries self)).

(** Each page cycle issues at most [n_retries] requests. *)
Lemma page_loop_requests fuel : ∀ st,
  length (requests (final_state (page_loop fuel st)))
  ≤ length (requests st) + fuel * retries.
Proof.
  induction fuel as [|fuel IH]; intros st; cbn [Scraper.page_loop].
  { cbn. lia. }
  pose proof (retry_loop_effect H _make_request clock hl fmt output_file
                feature_id retries st) as He.
  destruct (retry_loop retries st) as [st1|e st1].
  - destruct He as [(k & Hk & _ & Hr) _].
    assert (Hlen : length (requests st1) ≤ length (requests st) + retries).
    { rewrite Hr, length_app, repeat_length. lia. }
    destruct (target_reached n_reviews st1); [cbn; lia|].
    destruct (String.eqb (next_page_token st1) ""); [cbn; lia|].
    specialize (IH st1). lia.
  - destruct He as (_ & Hr & _). cbn.
    rewrite Hr, length_app, repeat_length. lia.
Qed.

(** What holds while the loop is still running. *)
Lemma page_loop_fetching fuel : ∀ st st',
  0 < retries →
  page_loop fuel st = Fetching st' →
  length (requests st) + fuel ≤ length (requests st') ∧
  grows H fmt feature_id st st' ∧
  all_reviews st `prefix_of` all_reviews st' ∧
  (∀ q, q ≠ temp → disk st' !! q = disk st !! q) ∧
  (0 < fuel → next_page_token st' ≠ EmptyString ∧
              target_reached n_reviews st' = false).
Proof.
  induction fuel as [|fuel IH]; intros st st' Hpos; cbn [Scraper.page_loop].
  { intros [= <-]. repeat split; try lia; auto. }
  pose proof (retry_loop_effect H _make_request clock hl fmt output_file
                feature_id retries st) as He.
  pose proof (DriverProofs.retry_loop_grows H _make_request clock hl fmt
                output_file feature_id retries st) as Hg.
  pose proof (retry_loop_files H _make_request clock hl fmt output_file
                feature_id retries st) as Hf.
  destruct (retry_loop retries st) as [st1|e st1]; [|discriminate].
  destruct He as [(k & Hk & Hk0 & Hr) Hp].
  destruct (target_reached n_reviews st1) eqn:Ht; [discriminate|].
  destruct (String.eqb_spec (next_page_token st1) ""); [discriminate|].
  intros Hrun. destruct (IH st1 st' Hpos Hrun) as (Hn & Hg' & Hp' & Hq & Hlast).
  split; [|split; [|split; [|split]]].
  - rewrite Hr, length_app, repeat_length in Hn. specialize (Hk0 Hpos). lia.
  - eapply DriverProofs.grows_trans; eauto.
  - etrans; eauto.
  - intros q Hne. rewrite (Hq q Hne). apply Hf, Hne.
  - intros _. destruct fuel as [|fuel'].
    + cbn in Hrun. injection Hrun as <-. auto.
    + apply Hlast. lia.
Qed.

Lemma slice_to_nil n : slice_to n (@nil review) = [].
Proof. unfold slice_to. destruct (0 <=? n)%Z; apply take_nil. Qed.

End Pages.

Lemma slice_to_prefix n (l : list review) : slice_to n l `prefix_of` l.
Proof.
  unfold slice_to. destruct (0 <=? n)%Z; eexists; symmetry; apply take_drop.
Qed.

(** X1.  A page cycle entered with [retries] tries left issues at most
    that many requests, each with the cursor the cycle was entered with.
    If it ends by raising, it has issued exactly [retries] requests, with
    [retries] at least 1, and the accumulator and the cursor are as they
    were on entry; if it ends otherwise, the reviews held before are
    still held, in front and in order.  (Writing the temp file is taken
    to succeed.) *)
Theorem retry_budget (H : host)
    (_make_request : nat → string → string → string → result string)
    (clock : nat → datetime) (hl : string) (fmt : output_format)
    (output_file : option string) (feature_id : string)
    (retries : nat) (st : state) :
  match retry_loop H _make_request clock hl fmt output_file feature_id
                   retries st with
  | Aborted _ st' =>
      0 < retries ∧
      requests st' = requests st ++ repeat (next_page_token st) retries ∧
      all_reviews st' = all_reviews st ∧
      next_page_token st' = next_page_token st
  | Exited st' =>
      (∃ k, k ≤ retries ∧ (0 < retries → 0 < k) ∧
            requests st' = requests st ++ repeat (next_page_token st) k) ∧
      all_reviews st `prefix_of` all_reviews st'
  end.
Proof. apply retry_loop_effect. Qed.

Lemma retry_budget_witness :
  match retry_loop Examples.demo Examples.down_network Examples.noon_clock
                   "en" Json None "0x1:0x2" 2 (initial_state ∅) with
  | Aborted _ st' =>
      0 < 2 ∧
      requests st' = requests (initial_state ∅)
                     ++ repeat (next_page_token (initial_state ∅)) 2 ∧
      all_reviews st' = all_reviews (initial_state ∅) ∧
      next_page_token st' = next_page_token (initial_state ∅)
  | Exited st' =>
      (∃ k, k ≤ 2 ∧ (0 < 2 → 0 < k) ∧
            requests st' = requests (initial_state ∅)
                           ++ repeat (next_page_token (initial_state ∅)) k) ∧
      all_reviews (initial_state ∅) `prefix_of` all_reviews st'
  end.
Proof.
  exact (retry_budget Examples.demo Examples.down_network Examples.noon_clock
           "en" Json None "0x1:0x2" 2 (initial_state ∅)).
Defined.

(** X2.  What a returning invocation returns: a prefix of the reviews it
    has accumulated.  Without a target, or with the target 0, it is the
    whole accumulator; with a target n > 0 it is the first n reviews, so
    never more than n and everything when fewer were found; with a target
    n < 0 it is the accumulator without its last -n reviews. *)
Theorem returned_reviews (H : host)
    (_make_request : nat → string → string → string → result string)
    (clock : nat → datetime) (self : scraper) (url : string)
    (n_reviews : option Z) (hl : string) (verbose : bool)
    (fmt : output_format) (output_file : option string)
    (fs : gmap string string) (fuel : nat)
    (final : list review) (st : state) :
  scrape_reviews H _make_request clock self url n_reviews hl verbose fmt
                 output_file fs fuel = Returned final st →
  final `prefix_of` all_reviews st ∧
  match n_reviews with
  | None => final = all_reviews st
  | Some n =>
      (n = 0%Z → final = all_reviews st) ∧
      ((0 < n)%Z → final = take (Z.to_nat n) (all_reviews st) ∧
                   length final = Nat.min (Z.to_nat n) (length (all_reviews st))) ∧
      ((n < 0)%Z → final = take (length (all_reviews st) - Z.to_nat (- n))
                             (all_reviews st))
  end.
Proof.
  unfold scrape_reviews.
  destruct (_parse_url_to_feature_id url) as [fid|]; [|discriminate].
  destruct (String.eqb fid ""); [discriminate|].
  intros Hrun. apply page_loop_returned in Hrun as (st1 & Hfin & _ & _).
  apply finish_effect in Hfin as (-> & Ha & _ & _). rewrite Ha.
  split.
  - destruct (target n_reviews); [apply slice_to_prefix | reflexivity].
  - destruct n_reviews as [n|]; [|reflexivity]. unfold target, slice_to.
    destruct (Z.eqb_spec n 0) as [->|Hn].
    + repeat split; intros; lia || reflexivity.
    + destruct (Z.leb_spec 0 n).
      * split; [intros; lia|]. split; [|intros; lia].
        intros _. split; [reflexivity|]. apply length_take.
      * split; [intros; lia|]. split; [intros; lia|]. reflexivity.
Qed.

Lemma returned_reviews_witness :
  let run := scrape_reviews Examples.demo Examples.steady_network
               Examples.noon_clock Examples.default_scraper Examples.URL
               (Some 3%Z) "en" false Json None ∅ 5 in
  take 3 (all_reviews (final_state run)) `prefix_of` all_reviews (final_state run).
Proof.
  intros run.
  refine (proj1 (returned_reviews Examples.demo Examples.steady_network
                   Examples.noon_clock Examples.default_scraper Examples.URL
                   (Some 3%Z) "en" false Json None ∅ 5
                   (take 3 (all_reviews (final_state run)))
                   (final_state run) _)).
  vm_compute. reflexivity.
Defined.



(** An output path that is another spelling of the temp file: the
    reviews are returned, and the one file is removed. *)
Example output_on_temp_file_is_removed :
  let run := scrape_reviews Examples.demo Examples.steady_network
               Examples.noon_clock Examples.default_scraper Examples.URL
               (Some 3%Z) "en" false Json
               (Some ("./tmp/gmaps_reviews_temp_"
                      +:+ "0x89c25a31ebfbc6bf:0xb80ba2960244e4f4.json"))
               ∅ 5 in
  (∃ final, run = Returned final (final_state run) ∧ length final = 3) ∧
  disk (final_state run) = ∅.
Proof.
  vm_compute. split; [eexists; split; reflexivity | reflexivity].
Qed.

(** X4.  A scraper built with [n_retries] at most 0 never issues a
    request: whatever the network would answer, an invocation on a URL
    with a feature identifier returns the empty list at once. *)
Theorem no_retries_no_request (H : host)
    (_make_request : nat → string → string → string → result string)
    (clock : nat → datetime) (self : scraper) (url : string)
    (n_reviews : option Z) (hl : string) (verbose : bool)
    (fmt : output_format) (output_file : option string)
    (fs : gmap string string) (fuel : nat) (feature_id : string) :
  (n_retries self ≤ 0)%Z →
  _parse_url_to_feature_id url = Some feature_id →
  ∃ st,
    scrape_reviews H _make_request clock self url n_reviews hl verbose fmt
                   output_file fs (S fuel) = Returned [] st ∧
    requests st = [].
Proof.
  intros Hn Hid. pose proof (feature_id_nonempty _ _ Hid) as Hne.
  unfold scrape_reviews. rewrite Hid.
  destruct (String.eqb_spec feature_id ""); [contradiction|].
  rewrite page_loop_no_retries by (assumption || reflexivity).
  unfold finish. cbn [all_reviews initial_state].
  replace (match target n_reviews with
           | Some k => slice_to k []
           | None => []
           end) with (@nil review).
  - eexists. split; reflexivity.
  - destruct (target n_reviews) as [k|]; [|reflexivity].
    unfold slice_to. destruct (0 <=? k)%Z; symmetry; apply take_nil.
Qed.

Lemma no_retries_no_request_witness :
  ∃ st,
    scrape_reviews Examples.demo Examples.steady_network Examples.noon_clock
      (Scraper.init None (float_of_Z 0) 0 (float_of_Z 30) true "INFO")
      Examples.URL None "en" false Json None ∅ 1 = Returned [] st ∧
    requests st = [].
Proof.
  refine (no_retries_no_request Examples.demo Examples.steady_network
            Examples.noon_clock
            (Scraper.init None (float_of_Z 0) 0 (float_of_Z 30) true "INFO")
            Examples.URL None "en" false Json None ∅ 0
            "0x89c25a31ebfbc6bf:0xb80ba2960244e4f4" _ _).
  - vm_compute. discriminate.
  - vm_compute. reflexivity.
Defined.


(** X15.  The feature identifier: whenever [_parse_url_to_feature_id]
    finds one, it is a piece of the URL of the form [0x<hex>:0x<hex>]
    (each [x] in either case, each run of hexadecimal digits non-empty);
    in particular it is never empty, so the only URLs [scrape_reviews]
    refuses are those in which no identifier is found. *)
Theorem feature_id_of_url (H : host)
    (_make_request : nat → string → string → string → result string)
    (clock : nat → datetime) (self : scraper) (url : string)
    (n_reviews : option Z) (hl : string) (verbose : bool)
    (fmt : output_format) (output_file : option string)
    (fs : gmap string string) (fuel : nat) (feature_id : string) :
  _parse_url_to_feature_id url = Some feature_id →
  feature_id_shape feature_id ∧
  (∃ before after, url = before +:+ feature_id +:+ after) ∧
  scrape_reviews H _make_request clock self url n_reviews hl verbose fmt
                 output_file fs fuel
  = page_loop H _make_request clock self n_reviews hl fmt output_file
              feature_id fuel (initial_state fs).
Proof.
  intros Hid. destruct (feature_id_found _ _ Hid) as [Hs Hp].
  split; [exact Hs|]. split; [exact Hp|].
  apply scrape_reviews_with_id, Hid.
Qed.

Lemma feature_id_of_url_witness :
  feature_id_shape "0x89c25a31ebfbc6bf:0xb80ba2960244e4f4".
Proof.
  refine (proj1 (feature_id_of_url Examples.demo Examples.steady_network
                   Examples.noon_clock Examples.default_scraper Examples.URL
                   None "en" false Json None ∅ 0
                   "0x89c25a31ebfbc6bf:0xb80ba2960244e4f4" _)).
  vm_compute. reflexivity.
Defined.

(** X16.  The number of requests: after any number of page cycles an
    invocation has issued at most [n_retries] requests per cycle, however
    it stands or ended. *)
Theorem requests_bounded (H : host)
    (_make_request : nat → string → string → string → result string)
    (clock : nat → datetime) (self : scraper) (url : string)
    (n_reviews : option Z) (hl : string) (verbose : bool)
    (fmt : output_format) (output_file : option string)
    (fs : gmap string string) (fuel : nat) :
  length (requests (final_state
            (scrape_reviews H _make_request clock self url n_reviews hl
                            verbose fmt output_file fs fuel)))
  ≤ fuel * Z.to_nat (n_retries self).
Proof.
  unfold scrape_reviews.
  destruct (_parse_url_to_feature_id url) as [fid|]; [|cbn; lia].
  destruct (String.eqb fid ""); [cbn; lia|].
  apply (page_loop_requests H _make_request clock self n_reviews hl fmt
           output_file fid fuel (initial_state fs)).
Qed.

(** X17.  File writes being taken to succeed: while an invocation is
    still fetching after [fuel] page cycles, every cycle has issued at
    least one request, the temp file holds the text of the whole
    accumulator as soon as that is not empty, every file other than the
    temp file (files told apart by what a path denotes, not by its
    spelling) is as it was before the invocation, and (after at least one
    cycle) the cursor is not empty and the target is not reached. *)
Theorem still_fetching (H : host)
    (_make_request : nat → string → string → string → result string)
    (clock : nat → datetime) (self : scraper) (url : string)
    (n_reviews : option Z) (hl : string) (verbose : bool)
    (fmt : output_format) (output_file : option string)
    (fs : gmap string string) (fuel : nat)
    (feature_id : string) (st : state) :
  _parse_url_to_feature_id url = Some feature_id →
  scrape_reviews H _make_request clock self url n_reviews hl verbose fmt
                 output_file fs fuel = Fetching st →
  fuel ≤ length (requests st) ∧
  (all_reviews st ≠ [] →
   disk st !! temp_file H fmt feature_id
   = Some (file_text H fmt (all_reviews st))) ∧
  (∀ q, q ≠ temp_file H fmt feature_id → disk st !! q = fs !! q) ∧
  (0 < fuel → next_page_token st ≠ EmptyString ∧
              target_reached n_reviews st = false).
Proof.
  intros Hid. unfold scrape_reviews. rewrite Hid.
  destruct (String.eqb feature_id ""); [discriminate|].
  destruct (decide (0 < Z.to_nat (n_retries self))) as [Hpos|Hzero].
  - intros Hrun.
    apply page_loop_fetching in Hrun as (Hn & [Hg _] & _ & Hq & Hlast);
      [|exact Hpos].
    split; [cbn in Hn; lia|]. split; [|split; assumption].
    apply Hg. intros Hne. cbn in Hne. contradiction.
  - destruct fuel as [|fuel].
    + intros [= <-]. cbn. repeat split; try lia; auto. contradiction.
    + rewrite page_loop_no_retries by (reflexivity || lia). discriminate.
Qed.

Lemma still_fetching_witness :
  let run := scrape_reviews Examples.demo Examples.steady_network
               Examples.noon_clock Examples.default_scraper Examples.URL
               None "en" false Json None ∅ 3 in
  3 ≤ length (requests (final_state run)).
Proof.
  intros run.
  refine (proj1 (still_fetching Examples.demo Examples.steady_network
                   Examples.noon_clock Examples.default_scraper Examples.URL
                   None "en" false Json None ∅ 3
                   "0x89c25a31ebfbc6bf:0xb80ba2960244e4f4"
                   (final_state run) _ _)).
  - vm_compute. reflexivity.
  - vm_compute. reflexivity.
Defined.

(** X18.  A first response that is no envelope: when the first request is
    answered by a text that [json.loads] refuses with [JSONDecodeError]
    (it is then read as [None]), or that decodes to a falsy value or to a
    value of fewer than three elements, the invocation returns the empty
    list after that single request; the response is not retried.  (A text
    on which [json.loads] raises another exception is not of this kind:
    see [undecodable_response_is_retried].) *)
Theorem first_response_short (H : host)
    (_make_request : nat → string → string → string → result string)
    (clock : nat → datetime) (self : scraper) (url : string)
    (n_reviews : option Z) (hl : string) (verbose : bool)
    (fmt : output_format) (output_file : option string)
    (fs : gmap string string) (fuel : nat)
    (feature_id text : string) (data : value) :
  _parse_url_to_feature_id url = Some feature_id →
  (0 < n_retries self)%Z →
  _make_request 0 feature_id "" hl = Ok text →
  parse_response H text = Ok data →
  (truthy data = false ∨ ∃ n, py_len data = Ok n ∧ n < 3) →
  ∃ st,
    scrape_reviews H _make_request clock self url n_reviews hl verbose fmt
                   output_file fs (S fuel) = Returned [] st ∧
    requests st = [EmptyString].
Proof.
  intros Hid Hpos Hreq Hdata Hshort.
  rewrite (scrape_reviews_with_id H _make_request clock self url n_reviews hl
             verbose fmt output_file fs (S fuel) feature_id Hid).
  cbn [Scraper.page_loop].
  destruct (Z.to_nat (n_retries self)) as [|r] eqn:Er; [lia|].
  cbn [Scraper.retry_loop]. unfold Scraper.attempt.
  cbn [initial_state requests next_page_token length]. rewrite Hreq, Hdata.
  assert ((if negb (truthy data) then Ok true
           else n ← py_len data; Ok (n <? 3))
          = Ok true) as ->.
  { destruct Hshort as [->|(n & Hn & Hlt)]; [reflexivity|].
    rewrite Hn. cbv [mbind result_bind]. apply Nat.ltb_lt in Hlt. rewrite Hlt.
    destruct (negb _); reflexivity. }
  assert (Hfin : ∀ st1, all_reviews st1 = [] →
            ∃ st, finish H n_reviews fmt output_file feature_id st1
                  = Returned [] st ∧ requests st = requests st1).
  { intros st1 Hnil. unfold finish. rewrite Hnil.
    replace (match target n_reviews with
             | Some k => slice_to k []
             | None => []
             end) with (@nil review)
      by (destruct (target n_reviews); [rewrite slice_to_nil|]; reflexivity).
    eexists. split; reflexivity. }
  destruct (target_reached n_reviews _); [apply Hfin; reflexivity|].
  cbn [with_request next_page_token initial_state String.eqb].
  apply Hfin. reflexivity.
Qed.


Lemma first_response_short_witness :
  ∃ st,
    scrape_reviews Examples.demo (fun _ _ _ _ => Ok ")]}'[]"%string)
      Examples.noon_clock Examples.default_scraper Examples.URL
      None "en" false Json None ∅ 1 = Returned [] st ∧
    requests st = [EmptyString].
Proof.
  refine (first_response_short Examples.demo
            (fun _ _ _ _ => Ok ")]}'[]"%string)
            Examples.noon_clock Examples.default_scraper Examples.URL
            None "en" false Json None ∅ 0
            "0x89c25a31ebfbc6bf:0xb80ba2960244e4f4" ")]}'[]" (VList [])
            _ _ _ _ _).
  - vm_compute. reflexivity.
  - reflexivity.
  - reflexivity.
  - vm_compute. reflexivity.
  - left. reflexivity.
Defined.

(** A response on which [json.loads] raises something else than
    [JSONDecodeError] (here [ValueError], for an integer literal of more
    than 4300 digits) is not read as [None]: the exception reaches the
    retry handler, the request is repeated, and with every attempt
    answered alike the invocation raises once the retries are used up. *)
Example undecodable_response_is_retried :
  let run := scrape_reviews Examples.demo
               (fun _ _ _ _ => Ok (")]}'[" +:+ Examples.long_numeral +:+ "]"))
               Examples.noon_clock Examples.default_scraper Examples.URL
               None "en" false Json None ∅ 1 in
  parse_response Examples.demo (")]}'[" +:+ Examples.long_numeral +:+ "]")
  = Raise ValueError ∧
  (∃ st, run = Raised ValueError st) ∧
  length (requests (final_state run))
  = Z.to_nat (n_retries Examples.default_scraper).
Proof.
  vm_compute. split; [reflexivity|]. split; [eexists|]; reflexivity.
Qed.

(** X19.  A first page without a cursor: when the first request is
    answered by an array envelope of at least three elements whose cursor
    is absent or falsy, the invocation issues no second request and
    returns the reviews of that page, cut to the target when one is set;
    the accumulator holds exactly the reviews of the page. *)
Theorem single_page (H : host)
    (_make_request : nat → string → string → string → result string)
    (clock : nat → datetime) (self : scraper) (url : string)
    (n_reviews : option Z) (hl : string) (verbose : bool)
    (fmt : output_format) (output_file : option string)
    (fs : gmap string string) (fuel : nat)
    (feature_id text : string) (l : list value) :
  _parse_url_to_feature_id url = Some feature_id →
  (0 < n_retries self)%Z →
  _make_request 0 feature_id "" hl = Ok text →
  parse_response H text = Ok (VList l) → 3 ≤ length l →
  extract_pagination_token H (VList l) = Ok EmptyString →
  ∃ reviews st,
    extract_reviews H clock (VList l) = Ok reviews ∧
    scrape_reviews H _make_request clock self url n_reviews hl verbose fmt
                   output_file fs (S fuel)
    = Returned match target n_reviews with
               | Some n => slice_to n reviews
               | None => reviews
               end st ∧
    all_reviews st = reviews ∧
    requests st = [EmptyString].
Proof.
  intros Hid Hpos Hreq Hdata Hlen Htoken.
  destruct (DecoderProofs.extract_reviews_after_token H clock _ _ Htoken) as [reviews Hrev].
  exists reviews.
  rewrite (scrape_reviews_with_id H _make_request clock self url n_reviews hl
             verbose fmt output_file fs (S fuel) feature_id Hid).
  cbn [Scraper.page_loop].
  destruct (Z.to_nat (n_retries self)) as [|r] eqn:Er; [lia|].
  cbn [Scraper.retry_loop]. unfold Scraper.attempt.
  cbn [initial_state requests next_page_token all_reviews length Nat.add].
  rewrite Hreq, Hdata.
  assert ((if negb (truthy (VList l)) then Ok true
           else n ← py_len (VList l); Ok (n <? 3)) = Ok false) as ->.
  { destruct l as [|a [|b [|c l']]]; cbn in Hlen; try lia. reflexivity. }
  rewrite Htoken.
  change (fun k : nat => clock k) with clock. rewrite Hrev.
  set (st1 := with_page H fmt feature_id reviews _).
  assert (Hfin : finish H n_reviews fmt output_file feature_id st1
                 = Returned match target n_reviews with
                            | Some n => slice_to n reviews
                            | None => reviews
                            end
                     (with_disk
                        (delete (temp_file H fmt feature_id)
                           match output_given output_file with
                           | Some p =>
                               _save_final_output H
                                 match target n_reviews with
                                 | Some n => slice_to n reviews
                                 | None => reviews
                                 end p fmt (disk st1)
                           | None => disk st1
                           end) st1)) by reflexivity.
  eexists. split; [reflexivity|].
  split; [|split].
  - destruct (target_reached n_reviews st1); [exact Hfin|].
    change (next_page_token st1) with EmptyString.
    cbn [String.eqb]. exact Hfin.
  - reflexivity.
  - reflexivity.
Qed.

Lemma single_page_witness :
  ∃ reviews st,
    extract_reviews Examples.demo Examples.noon_clock
      (VList [VNone; VNone; VList [VList [VList [VInt 2; VList []]]]])
    = Ok reviews ∧
    scrape_reviews Examples.demo
      (fun _ _ _ _ => Ok ")]}'[null,null,[[[2,[]]]]]"%string)
      Examples.noon_clock Examples.default_scraper Examples.URL
      None "en" false Json None ∅ 1
    = Returned reviews st ∧
    all_reviews st = reviews ∧
    requests st = [EmptyString].
Proof.
  refine (single_page Examples.demo
            (fun _ _ _ _ => Ok ")]}'[null,null,[[[2,[]]]]]"%string)
            Examples.noon_clock Examples.default_scraper Examples.URL
            None "en" false Json None ∅ 0
            "0x89c25a31ebfbc6bf:0xb80ba2960244e4f4"
            ")]}'[null,null,[[[2,[]]]]]"
            [VNone; VNone; VList [VList [VList [VInt 2; VList []]]]]
            _ _ _ _ _ _).
  - vm_compute. reflexivity.
  - reflexivity.
  - reflexivity.
  - vm_compute. reflexivity.
  - cbn. lia.
  - vm_compute. reflexivity.
Defined.


(** X20.  A negative target: with [n_reviews] below 0 the target counts
    as reached whatever has been accumulated, so the invocation ends with
    its first page cycle, by returning or by raising, and further pages
    are never requested. *)
Theorem negative_target_one_cycle (H : host)
    (_make_request : nat → string → string → string → result string)
    (clock : nat → datetime) (self : scraper) (url : string)
    (n : Z) (hl : string) (verbose : bool)
    (fmt : output_format) (output_file : option string)
    (fs : gmap string string) (fuel : nat) :
  (n < 0)%Z →
  scrape_reviews H _make_request clock self url (Some n) hl verbose fmt
                 output_file fs (S fuel)
  = scrape_reviews H _make_request clock self url (Some n) hl verbose fmt
                   output_file fs 1 ∧
  ∀ st, scrape_reviews H _make_request clock self url (Some n) hl verbose fmt
                       output_file fs 1 ≠ Fetching st.
Proof.
  intros Hn. unfold scrape_reviews.
  destruct (_parse_url_to_feature_id url) as [fid|]; [|split; [reflexivity|discriminate]].
  destruct (String.eqb fid ""); [split; [reflexivity|discriminate]|].
  cbn [Scraper.page_loop].
  destruct (retry_loop _ _ _ _ _ _ _ _ _) as [st1|e st1];
    [|split; [reflexivity|discriminate]].
  assert (target_reached (Some n) st1 = true) as ->.
  { unfold target_reached, target.
    destruct (Z.eqb_spec n 0); [lia|]. apply Z.leb_le. lia. }
  split; [reflexivity|discriminate].
Qed.

Lemma negative_target_one_cycle_witness :
  scrape_reviews Examples.demo Examples.steady_network Examples.noon_clock
    Examples.default_scraper Examples.URL (Some (-1)%Z) "en" false Json None
    ∅ 4
  = scrape_reviews Examples.demo Examples.steady_network Examples.noon_clock
      Examples.default_scraper Examples.URL (Some (-1)%Z) "en" false Json None
      ∅ 1.
Proof.
  refine (proj1 (negative_target_one_cycle Examples.demo
                   Examples.steady_network Examples.noon_clock
                   Examples.default_scraper Examples.URL (-1)%Z "en" false
                   Json None ∅ 3 _)).
  reflexivity.
Defined.

End DriverFacts.

(* ===================================================================== *)
(** * The browser rotation                                                *)
(* ===================================================================== *)
Module EmulationFacts.
Import Py Emulation.

Lemma init_nonempty arg : impersonations (init arg) ≠ [].
Proof. destruct arg as [[|x l]|]; discriminate. Qed.

Lemma init_in_rotation arg : in_rotation (init arg).
Proof.
  unfold in_rotation. pose proof (init_nonempty arg) as Hne.
  destruct (impersonations (init arg)); [contradiction|].
  cbn. lia.
Qed.

Lemma get_next_in_rotation self :
  in_rotation self →
  get_next self
  = Ok (default EmptyString (impersonations self !! _index self),
        {| impersonations := impersonations self;
           _index := (_index self + 1) mod length (impersonations self) |}).
Proof.
  unfold in_rotation, get_next. intros Hi.
  destruct (lookup_lt_is_Some_2 _ _ Hi) as [x ->]. reflexivity.
Qed.

Lemma get_next_times_spec n : ∀ self,
  in_rotation self →
  get_next_times n self
  = Ok ((fun k => default EmptyString
                    (impersonations self
                       !! ((_index self + k) mod length (impersonations self))))
          <$> seq 0 n,
        {| impersonations := impersonations self;
           _index := (_index self + n) mod length (impersonations self) |}).
Proof.
  induction n as [|n IH]; intros [l i] Hi; unfold in_rotation in Hi; cbn in Hi.
  - cbn. rewrite Nat.add_0_r, Nat.mod_small by exact Hi. reflexivity.
  - cbn [get_next_times]. rewrite get_next_in_rotation by exact Hi.
    cbn [mbind result_bind impersonations _index].
    rewrite IH by (unfold in_rotation; cbn; apply Nat.mod_upper_bound; lia).
    cbn [mbind result_bind impersonations _index seq fmap list_fmap].
    rewrite Nat.add_0_r, (Nat.mod_small i) by exact Hi.
    rewrite <- seq_shift, <- list_fmap_compose.
    f_equal. f_equal.
    + f_equal. apply list_fmap_ext. intros _ k _. cbn.
      rewrite Nat.Div0.add_mod_idemp_l. do 3 f_equal. lia.
    + f_equal. rewrite Nat.Div0.add_mod_idemp_l. f_equal. lia.
Qed.

(** X10.  The rotation: from an emulator whose index is a position of its
    list, [n] calls of [get_next] never raise; the call number [k]
    (counted from 0) returns the entry at position (index + k) modulo the
    length of the list, and the index ends at (index + n) modulo that
    length.  The list itself is never changed. *)
Theorem get_next_rotation (self : emulator) (n : nat) :
  in_rotation self →
  get_next_times n self
  = Ok ((fun k => default EmptyString
                    (impersonations self
                       !! ((_index self + k) mod length (impersonations self))))
          <$> seq 0 n,
        {| impersonations := impersonations self;
           _index := (_index self + n) mod length (impersonations self) |}).
Proof. apply get_next_times_spec. Qed.

Lemma get_next_rotation_witness :
  get_next_times 23 (init None)
  = Ok (IMPERSONATIONS ++ ["chrome136"; "chrome136"]%string,
        {| impersonations := IMPERSONATIONS; _index := 2 |}).
Proof.
  refine (get_next_rotation (init None) 23 _).
  unfold in_rotation. cbn. lia.
Defined.

(** X11.  A full turn: as many calls of [get_next] as the list has
    entries return every entry once, from the current index on and then
    from the start of the list up to it, and leave the emulator exactly as
    it was. *)
Theorem get_next_full_turn (self : emulator) :
  in_rotation self →
  get_next_times (length (impersonations self)) self
  = Ok (drop (_index self) (impersonations self)
          ++ take (_index self) (impersonations self),
        self).
Proof.
  intros Hi. rewrite get_next_times_spec by exact Hi.
  destruct self as [l i]. unfold in_rotation in Hi. cbn in *.
  f_equal. f_equal.
  - apply list_eq. intros k.
    rewrite list_lookup_fmap.
    destruct (decide (k < length l)) as [Hk|Hk].
    + rewrite lookup_seq_lt by exact Hk. cbn.
      destruct (decide (k < length l - i)) as [Hk'|Hk'].
      * rewrite lookup_app_l by (rewrite length_drop; lia).
        rewrite lookup_drop, Nat.mod_small by lia.
        destruct (lookup_lt_is_Some_2 l (i + k) ltac:(lia)) as [x ->].
        reflexivity.
      * rewrite lookup_app_r by (rewrite length_drop; lia).
        rewrite length_drop, lookup_take, decide_True by lia.
        replace (i + k) with ((k - (length l - i)) + 1 * length l) by lia.
        rewrite Nat.Div0.mod_add, Nat.mod_small by lia.
        destruct (lookup_lt_is_Some_2 l (k - (length l - i)) ltac:(lia))
          as [x ->].
        reflexivity.
    + rewrite lookup_seq_ge by lia. cbn. symmetry.
      apply lookup_ge_None. rewrite length_app, length_drop, length_take. lia.
  - f_equal.
    replace (i + length l) with (i + 1 * length l) by lia.
    rewrite Nat.Div0.mod_add. apply Nat.mod_small. exact Hi.
Qed.

Lemma get_next_full_turn_witness :
  get_next_times 3 {| impersonations := ["a"; "b"; "c"]%string; _index := 1 |}
  = Ok (["b"; "c"; "a"]%string,
        {| impersonations := ["a"; "b"; "c"]%string; _index := 1 |}).
Proof.
  refine (get_next_full_turn
            {| impersonations := ["a"; "b"; "c"]%string; _index := 1 |} _).
  unfold in_rotation. cbn. lia.
Defined.

(** X12.  An emulator made by the constructor, whatever list it is given
    (none, an empty one or any other), has an entry to offer: with a
    generator that draws below its bound, [get_random] returns an entry of
    the emulator's list and never raises; the list is the one given when
    that is not empty and the 21 default entries otherwise. *)
Theorem get_random_of_constructed (_randbelow : nat → nat)
    (arg : option (list string)) :
  (∀ n, 0 < n → _randbelow n < n) →
  impersonations (init arg)
  = match arg with Some (x :: l) => x :: l | _ => IMPERSONATIONS end ∧
  in_rotation (init arg) ∧
  ∃ x, get_random _randbelow (init arg) = Ok x ∧ x ∈ impersonations (init arg).
Proof.
  intros Hr. split; [reflexivity|]. split; [apply init_in_rotation|].
  pose proof (init_nonempty arg) as Hne. unfold get_random.
  destruct (impersonations (init arg)) as [|y l] eqn:E; [contradiction|].
  destruct (lookup_lt_is_Some_2 (y :: l) (_randbelow (length (y :: l))))
    as [x Hx]; [apply Hr; cbn; lia|].
  rewrite Hx. exists x. split; [reflexivity|].
  eapply list_elem_of_lookup_2. exact Hx.
Qed.

Lemma get_random_of_constructed_witness :
  ∃ x, get_random (fun n => n - 1) (init (Some [])) = Ok x
       ∧ x ∈ impersonations (init (Some [])).
Proof.
  refine (proj2 (proj2 (get_random_of_constructed (fun n => n - 1)
                          (Some []) _))).
  intros n Hn. lia.
Defined.

End EmulationFacts.
